(** * Verification of the agent decision layer of remote-agent-memory

    Shallow embedding of [src/agents/task_decomposer.py],
    [src/agents/relevance_scorer.py], [src/agents/context_builder.py] and
    [src/agents/orchestrator.py].

    Modelling conventions.
    - Text is a [string] of 8-bit characters; [str.lower], [\w], [\b] and
      [re.IGNORECASE] are modelled on the ASCII range.
    - Python [float] arithmetic is modelled on the real numbers, with the
      decimal literals of the source taken as exact decimals.
    - A Python exception is the [Raise] case of [result].
    - [datetime.now()] is a parameter [now] (microseconds). *)

From Stdlib Require Import Lqa.
From Stdlib Require Import Reals Lra QArith Sorting.Sorted.
From stdpp Require Import base gmap sets list strings pretty.
From Stdlib Require Import Ascii String.

Set Warnings "-clear-no-such-hyp".

Local Open Scope string_scope.
Local Open Scope list_scope.
Local Open Scope nat_scope.

(** ** Exceptions *)

(** [AttributeError]: [owner] is the text Python prints for the object,
    [attr] the attribute that was looked up. *)
Inductive exn : Type :=
| AttributeError (owner attr : string)
| TypeError (msg : string).

(** [str(e)] *)
Definition str_exn (e : exn) : string :=
  match e with
  | AttributeError owner attr => owner ++ " has no attribute '" ++ attr ++ "'"
  | TypeError msg => msg
  end.

Inductive result (A : Type) : Type :=
| Ok (a : A)
| Raise (e : exn).
Arguments Ok {A} a.
Arguments Raise {A} e.

#[global] Instance result_ret : MRet result := @Ok.
#[global] Instance result_bind : MBind result := λ A B k m,
  match m with
  | Ok a => k a
  | Raise e => Raise e
  end.

Definition returns {A : Type} (m : result A) : Prop := ∃ a, m = Ok a.

(** ** Text: the string and [re] operations the sources use *)

Module Text.

Definition code (c : ascii) : N := N_of_ascii c.

Definition is_upper (c : ascii) : bool := (65 <=? code c)%N && (code c <=? 90)%N.
Definition is_lower (c : ascii) : bool := (97 <=? code c)%N && (code c <=? 122)%N.
Definition is_digit (c : ascii) : bool := (48 <=? code c)%N && (code c <=? 57)%N.

(** [\w]: letters, digits and the underscore. *)
Definition is_word (c : ascii) : bool :=
  is_upper c || is_lower c || is_digit c || (code c =? 95)%N.

(** [str.isspace] on the 8-bit range that [str.strip] removes. *)
Definition is_space (c : ascii) : bool :=
  ((9 <=? code c)%N && (code c <=? 13)%N)
  || ((28 <=? code c)%N && (code c <=? 32)%N).

Definition lower_ascii (c : ascii) : ascii :=
  if is_upper c then ascii_of_N (code c + 32) else c.

(** [s.lower()] *)
Fixpoint lower (s : string) : string :=
  match s with
  | EmptyString => EmptyString
  | String c s' => String (lower_ascii c) (lower s')
  end.

Fixpoint lstrip (s : string) : string :=
  match s with
  | EmptyString => EmptyString
  | String c s' => if is_space c then lstrip s' else s
  end.

Fixpoint rstrip (s : string) : string :=
  match s with
  | EmptyString => EmptyString
  | String c s' =>
      match rstrip s' with
      | EmptyString => if is_space c then EmptyString else String c EmptyString
      | r => String c r
      end
  end.

(** [s.strip()] *)
Definition strip (s : string) : string := rstrip (lstrip s).

Fixpoint starts_with (p s : string) : bool :=
  match p, s with
  | EmptyString, _ => true
  | String a p', String b s' => Ascii.eqb a b && starts_with p' s'
  | String _ _, EmptyString => false
  end.

(** [p in s] on strings. *)
Fixpoint contains (p s : string) : bool :=
  starts_with p s ||
  match s with
  | EmptyString => false
  | String _ s' => contains p s'
  end.

(** [sep.join(l)] *)
Fixpoint join (sep : string) (l : list string) : string :=
  match l with
  | [] => ""
  | [x] => x
  | x :: l' => x ++ sep ++ join sep l'
  end.

Fixpoint take (n : nat) (s : string) : string :=
  match n, s with
  | S n', String c s' => String c (take n' s')
  | _, _ => EmptyString
  end.

(** [s.replace(a, b)] for single characters. *)
Fixpoint replace_char (a b : ascii) (s : string) : string :=
  match s with
  | EmptyString => EmptyString
  | String c s' => String (if Ascii.eqb c a then b else c) (replace_char a b s')
  end.

(** The newline character as a string. *)
Definition nl : string := String (ascii_of_N 10) "".

(** [s.title()]: a letter that follows a letter is lowered, any other
    letter is raised. *)
Definition upper_ascii (c : ascii) : ascii :=
  if is_lower c then ascii_of_N (code c - 32) else c.

Fixpoint title_from (in_word : bool) (s : string) : string :=
  match s with
  | EmptyString => EmptyString
  | String c s' =>
      let letter := is_upper c || is_lower c in
      String (if in_word then lower_ascii c else upper_ascii c) (title_from letter s')
  end.

Definition title (s : string) : string := title_from false s.

(** [s.split(sep)[-1]] for a one-character separator. *)
Fixpoint last_piece (sep : ascii) (s : string) : string :=
  match s with
  | EmptyString => EmptyString
  | String c s' =>
      if contains (String sep EmptyString) s' then last_piece sep s'
      else if Ascii.eqb c sep then s' else s
  end.

Fixpoint digits_value (acc : Z) (s : string) : option Z :=
  match s with
  | EmptyString => Some acc
  | String c s' =>
      if is_digit c then digits_value (10 * acc + Z.of_N (code c - 48)) s'
      else None
  end.

(** [int(s)] on a string: blanks around, a sign, decimal digits;
    [None] stands for [ValueError]. *)
Definition parse_int (s : string) : option Z :=
  match strip s with
  | String "-" (String c d) => Z.opp <$> digits_value 0 (String c d)
  | String "+" (String c d) => digits_value 0 (String c d)
  | String c d => digits_value 0 (String c d)
  | EmptyString => None
  end.

(** *** Regular expressions

    The subset of [re] syntax that occurs in the sources: literals,
    [.], [\w], [\b], escaped characters, [?] on an atom, [*] and [+] on a
    character class, [|] and the non-capturing group [(?:...)].  Literals
    compare case-insensitively: every call of the sources that has a
    literal in its pattern passes [re.IGNORECASE]. *)

Inductive cclass : Type :=
| CLit (c : ascii)
| CAny
| CWord.

Inductive regex : Type :=
| Eps
| Cls (k : cclass)
| Bnd
| Seq (r1 r2 : regex)
| Alt (r1 r2 : regex)
| Opt (r : regex)
| Star (k : cclass)
| Fail.

Definition in_class (k : cclass) (c : ascii) : bool :=
  match k with
  | CLit a => Ascii.eqb (lower_ascii a) (lower_ascii c)
  | CAny => negb (code c =? 10)%N
  | CWord => is_word c
  end.

Definition word_opt (o : option ascii) : bool :=
  match o with
  | Some c => is_word c
  | None => false
  end.

Definition next_char (s : string) : option ascii :=
  match s with
  | EmptyString => None
  | String c _ => Some c
  end.

(** [\b] holds between [prev] and the head of [s]. *)
Definition at_boundary (prev : option ascii) (s : string) : bool :=
  xorb (word_opt prev) (word_opt (next_char s)).

Section Matcher.
Context {T : Type}.

(** Greedy repetition of a class, giving characters back one at a time. *)
Fixpoint star_here (k : cclass) (prev : option ascii) (s : string)
    (cont : option ascii → string → option T) : option T :=
  match s with
  | String c s' =>
      if in_class k c then
        match star_here k (Some c) s' cont with
        | Some t => Some t
        | None => cont prev s
        end
      else cont prev s
  | EmptyString => cont prev s
  end.

(** Backtracking match of [r] at the head of [s], in the priority order
    of [re]: left alternative first, longest repetition first. *)
Fixpoint match_here (r : regex) (prev : option ascii) (s : string)
    (cont : option ascii → string → option T) : option T :=
  match r with
  | Eps => cont prev s
  | Cls k =>
      match s with
      | String c s' => if in_class k c then cont (Some c) s' else None
      | EmptyString => None
      end
  | Bnd => if at_boundary prev s then cont prev s else None
  | Seq r1 r2 =>
      match_here r1 prev s (fun p s' => match_here r2 p s' cont)
  | Alt r1 r2 =>
      match match_here r1 prev s cont with
      | Some t => Some t
      | None => match_here r2 prev s cont
      end
  | Opt r1 =>
      match match_here r1 prev s cont with
      | Some t => Some t
      | None => cont prev s
      end
  | Star k => star_here k prev s cont
  | Fail => None
  end.
End Matcher.

(** Number of characters of the match of [r] that starts here, if any. *)
Definition match_length (r : regex) (prev : option ascii) (s : string) : option nat :=
  match_here r prev s (fun _ rest => Some (String.length s - String.length rest)).

(** [re.search(r, s) is not None], scanning start positions left to right. *)
Fixpoint search_from (r : regex) (prev : option ascii) (s : string) : bool :=
  match match_length r prev s with
  | Some _ => true
  | None =>
      match s with
      | EmptyString => false
      | String c s' => search_from r (Some c) s'
      end
  end.

Definition search (r : regex) (s : string) : bool := search_from r None s.

(** [re.findall(r, s)]: the non-overlapping matches, left to right.
    [skip] counts the characters of the current match still to pass. *)
Fixpoint findall_from (r : regex) (prev : option ascii) (skip : nat) (s : string)
    : list string :=
  match skip with
  | S k =>
      match s with
      | EmptyString => []
      | String c s' => findall_from r (Some c) k s'
      end
  | O =>
      match match_length r prev s with
      | Some n =>
          take n s ::
          match s with
          | EmptyString => []
          | String c s' => findall_from r (Some c) (Nat.pred n) s'
          end
      | None =>
          match s with
          | EmptyString => []
          | String c s' => findall_from r (Some c) 0 s'
          end
      end
  end.

Definition findall (r : regex) (s : string) : list string := findall_from r None 0 s.

(** [re.split(r, s)] for a pattern whose matches are not empty:
    [cur] is the piece collected so far, in reverse. *)
Fixpoint split_from (r : regex) (prev : option ascii) (skip : nat)
    (cur : list ascii) (s : string) : list string :=
  match skip with
  | S k =>
      match s with
      | EmptyString => [string_of_list_ascii (rev cur)]
      | String c s' => split_from r (Some c) k cur s'
      end
  | O =>
      match s with
      | EmptyString => [string_of_list_ascii (rev cur)]
      | String c s' =>
          match match_length r prev s with
          | Some (S n) =>
              string_of_list_ascii (rev cur) :: split_from r (Some c) n [] s'
          | _ => split_from r (Some c) 0 (c :: cur) s'
          end
      end
  end.

Definition split (r : regex) (s : string) : list string := split_from r None 0 [] s.

(** *** Reading a pattern *)

Definition quantify (r : regex) (s : string) : regex * string :=
  match s with
  | String "?" s' => (Opt r, s')
  | String "*" s' =>
      match r with
      | Cls k => (Star k, s')
      | _ => (Fail, s')
      end
  | String "+" s' =>
      match r with
      | Cls k => (Seq (Cls k) (Star k), s')
      | _ => (Fail, s')
      end
  | _ => (r, s)
  end.

Fixpoint parse_alt (fuel : nat) (s : string) : regex * string :=
  match fuel with
  | O => (Fail, s)
  | S n =>
      let '(r1, rest) := parse_seq n s in
      match rest with
      | String "|" rest' =>
          let '(r2, rest'') := parse_alt n rest' in (Alt r1 r2, rest'')
      | _ => (r1, rest)
      end
  end
with parse_seq (fuel : nat) (s : string) : regex * string :=
  match fuel with
  | O => (Fail, s)
  | S n =>
      match s with
      | EmptyString => (Eps, s)
      | String "|" _ => (Eps, s)
      | String ")" _ => (Eps, s)
      | String "(" (String "?" (String ":" s')) =>
          let '(g, rest) := parse_alt n s' in
          match rest with
          | String ")" rest' =>
              let '(a, rest'') := quantify g rest' in
              let '(r, rest3) := parse_seq n rest'' in (Seq a r, rest3)
          | _ => (Fail, rest)
          end
      | String "\" (String c s') =>
          let atom :=
            if Ascii.eqb c "b" then Bnd
            else if Ascii.eqb c "w" then Cls CWord
            else Cls (CLit c) in
          let '(a, rest) := quantify atom s' in
          let '(r, rest') := parse_seq n rest in (Seq a r, rest')
      | String "." s' =>
          let '(a, rest) := quantify (Cls CAny) s' in
          let '(r, rest') := parse_seq n rest in (Seq a r, rest')
      | String c s' =>
          let '(a, rest) := quantify (Cls (CLit c)) s' in
          let '(r, rest') := parse_seq n rest in (Seq a r, rest')
      end
  end.

(** [re.compile(p)]: a pattern that is not read to its end matches nothing. *)
Definition re (p : string) : regex :=
  match parse_alt (S (S (String.length p))) p with
  | (r, EmptyString) => r
  | _ => Fail
  end.

(** Whether a pattern was read in full: [Fail] marks what [re] could not
    read. *)
Fixpoint well_read (r : regex) : bool :=
  match r with
  | Fail => false
  | Seq r1 r2 | Alt r1 r2 => well_read r1 && well_read r2
  | Opt r1 => well_read r1
  | _ => true
  end.

End Text.

(** ** Python built-ins shared by the modules *)

Module Py.

(** [list.sort] and [sorted] are stable: [leb x y] says that [x] may stay
    in front of [y]. *)
Fixpoint insert_sorted {A : Type} (leb : A → A → bool) (x : A) (l : list A) : list A :=
  match l with
  | [] => [x]
  | y :: l' => if leb x y then x :: l else y :: insert_sorted leb x l'
  end.

Definition sort_by {A : Type} (leb : A → A → bool) (l : list A) : list A :=
  foldr (insert_sorted leb) [] l.

(** [any(p(x) for x in l)] *)
Definition any {A : Type} (p : A → bool) (l : list A) : bool := existsb p l.

(** [sum(...)] over naturals. *)
Definition sum_nat (l : list nat) : nat := foldr Nat.add 0 l.

(** [x] may stay in front of [y] for the comparison [leb]. *)
Definition in_order {A : Type} (leb : A → A → bool) (x y : A) : Prop :=
  leb x y = true.

End Py.

(** ** task_decomposer.py *)

Module TaskDecomposer.

Inductive TaskCategory : Type :=
| IMPLEMENTATION | DEBUGGING | TESTING | ARCHITECTURE | RESEARCH
| CONFIGURATION | DOCUMENTATION | REFACTORING | DEPLOYMENT | SECURITY.

Inductive ContextType : Type :=
| TECHNICAL_PATTERNS | SIMILAR_IMPLEMENTATIONS | BEST_PRACTICES | COMMON_PITFALLS
| CONFIGURATION_EXAMPLES | ERROR_SOLUTIONS | TESTING_STRATEGIES
| PERFORMANCE_CONSIDERATIONS | SECURITY_PRACTICES | ARCHITECTURAL_DECISIONS.

Inductive Priority : Type := CRITICAL | HIGH | MEDIUM | LOW.

#[global] Instance TaskCategory_eq_dec : EqDecision TaskCategory.
Proof. solve_decision. Defined.
#[global] Instance ContextType_eq_dec : EqDecision ContextType.
Proof. solve_decision. Defined.
#[global] Instance Priority_eq_dec : EqDecision Priority.
Proof. solve_decision. Defined.

Definition TaskCategory_value (c : TaskCategory) : string :=
  match c with
  | IMPLEMENTATION => "implementation" | DEBUGGING => "debugging"
  | TESTING => "testing" | ARCHITECTURE => "architecture"
  | RESEARCH => "research" | CONFIGURATION => "configuration"
  | DOCUMENTATION => "documentation" | REFACTORING => "refactoring"
  | DEPLOYMENT => "deployment" | SECURITY => "security"
  end.

(** The members of the enum by name. *)
Definition TaskCategory_members : list (string * TaskCategory) :=
  [ ("IMPLEMENTATION", IMPLEMENTATION); ("DEBUGGING", DEBUGGING);
    ("TESTING", TESTING); ("ARCHITECTURE", ARCHITECTURE);
    ("RESEARCH", RESEARCH); ("CONFIGURATION", CONFIGURATION);
    ("DOCUMENTATION", DOCUMENTATION); ("REFACTORING", REFACTORING);
    ("DEPLOYMENT", DEPLOYMENT); ("SECURITY", SECURITY) ].

(** [TaskCategory.<name>]: attribute access on the enum class. *)
Definition TaskCategory_attr (name : string) : result TaskCategory :=
  match List.find (fun m => String.eqb (fst m) name) TaskCategory_members with
  | Some m => Ok (snd m)
  | None => Raise (AttributeError "type object 'TaskCategory'" name)
  end.

Definition ContextType_value (t : ContextType) : string :=
  match t with
  | TECHNICAL_PATTERNS => "technical_patterns"
  | SIMILAR_IMPLEMENTATIONS => "similar_implementations"
  | BEST_PRACTICES => "best_practices"
  | COMMON_PITFALLS => "common_pitfalls"
  | CONFIGURATION_EXAMPLES => "configuration_examples"
  | ERROR_SOLUTIONS => "error_solutions"
  | TESTING_STRATEGIES => "testing_strategies"
  | PERFORMANCE_CONSIDERATIONS => "performance_considerations"
  | SECURITY_PRACTICES => "security_practices"
  | ARCHITECTURAL_DECISIONS => "architectural_decisions"
  end.

Definition Priority_value (p : Priority) : Z :=
  match p with
  | CRITICAL => 1 | HIGH => 2 | MEDIUM => 3 | LOW => 4
  end.

Record TaskComponent : Type := {
  component : string;
  category : TaskCategory;
  technologies : gset string;
  context_needs : list (ContextType * Priority);
  search_terms : list string;
  estimated_complexity : nat
}.

Record ContextQuery : Type := {
  query_text : string;
  context_type : ContextType;
  priority : Priority;
  tags : list string;
  similarity_threshold : Q;
  max_results : nat
}.

Record TaskDecomposition : Type := {
  original_task : string;
  primary_category : TaskCategory;
  components : list TaskComponent;
  context_queries : list ContextQuery;
  technologies_involved : gset string;
  estimated_duration : string;
  risk_factors : list string;
  success_criteria : list string
}.

(** [_initialize_technology_patterns] *)
Definition technology_patterns : list (string * list string) :=
  [ ("python", ["\bpython\b"; "\bpy\b"; "\.py\b"; "\bpip\b"; "\bpytest\b"; "\bdjango\b"; "\bflask\b"]);
    ("javascript", ["\bjavascript\b"; "\bjs\b"; "\.js\b"; "\bnode\b"; "\bnpm\b"; "\breact\b"; "\bvue\b"]);
    ("typescript", ["\btypescript\b"; "\bts\b"; "\.ts\b"; "\.tsx\b"]);
    ("docker", ["\bdocker\b"; "\bcontainer\b"; "\bdockerfile\b"; "\bdocker-compose\b"]);
    ("kubernetes", ["\bk8s\b"; "\bkubernetes\b"; "\bkubectl\b"; "\bhelm\b"]);
    ("database", ["\bdatabase\b"; "\bdb\b"; "\bsql\b"; "\bpostgres\b"; "\bmysql\b"; "\bmongo\b"]);
    ("api", ["\bapi\b"; "\brest\b"; "\bgraphql\b"; "\bendpoint\b"; "\bmicroservice\b"]);
    ("web", ["\bweb\b"; "\bhttp\b"; "\bhttps\b"; "\bhtml\b"; "\bcss\b"; "\bfrontend\b"]);
    ("testing", ["\btest\b"; "\btesting\b"; "\bunit test\b"; "\bintegration\b"; "\be2e\b"]);
    ("ci/cd", ["\bci\b"; "\bcd\b"; "\bjenkins\b"; "\bgithub actions\b"; "\bpipeline\b"]);
    ("cloud", ["\baws\b"; "\bazure\b"; "\bgcp\b"; "\bcloud\b"; "\bterraform\b"]);
    ("security", ["\bsecurity\b"; "\bauth\b"; "\bssl\b"; "\btls\b"; "\boauth\b"; "\bjwt\b"]) ].

(** [_initialize_task_patterns], in the insertion order of the dict. *)
Definition task_patterns : list (TaskCategory * list string) :=
  [ (IMPLEMENTATION,
      ["\bimplement\b"; "\bcreate\b"; "\bbuild\b"; "\bdevelop\b"; "\badd\b";
       "\bwrite\b"; "\bcode\b"; "\bfeature\b"; "\bfunction\b"; "\bcomponent\b"]);
    (DEBUGGING,
      ["\bdebug\b"; "\bfix\b"; "\berror\b"; "\bbug\b"; "\bissue\b"; "\bproblem\b";
       "\bbroken\b"; "\bfailing\b"; "\bnot working\b"; "\btroubleshoot\b"]);
    (TESTING,
      ["\btest\b"; "\btesting\b"; "\bunit test\b"; "\bintegration test\b";
       "\be2e test\b"; "\bspec\b"; "\bverify\b"; "\bvalidate\b"]);
    (ARCHITECTURE,
      ["\barchitecture\b"; "\bdesign\b"; "\bstructure\b"; "\bpattern\b";
       "\bsystem\b"; "\bmodule\b"; "\bservice\b"; "\bmicroservice\b"]);
    (RESEARCH,
      ["\bresearch\b"; "\binvestigate\b"; "\bexplore\b"; "\banalyze\b";
       "\bcompare\b"; "\bevaluate\b"; "\bstudy\b"; "\blearn\b"]);
    (CONFIGURATION,
      ["\bconfigure\b"; "\bconfig\b"; "\bsetup\b"; "\binstall\b";
       "\bdeployment\b"; "\benvironment\b"; "\bsettings\b"]);
    (REFACTORING,
      ["\brefactor\b"; "\bclean up\b"; "\brestructure\b"; "\boptimize\b";
       "\bimprove\b"; "\bmodernize\b"; "\bupgrade\b"]);
    (SECURITY,
      ["\bsecurity\b"; "\bsecure\b"; "\bauth\b"; "\bpermission\b";
       "\bvulnerability\b"; "\bencryption\b"; "\bssl\b"; "\btls\b"]) ].

(** [_initialize_context_mappings] *)
Definition context_mappings : list (TaskCategory * list (ContextType * Priority)) :=
  [ (IMPLEMENTATION,
      [ (SIMILAR_IMPLEMENTATIONS, CRITICAL); (TECHNICAL_PATTERNS, HIGH);
        (BEST_PRACTICES, HIGH); (COMMON_PITFALLS, MEDIUM);
        (PERFORMANCE_CONSIDERATIONS, MEDIUM) ]);
    (DEBUGGING,
      [ (ERROR_SOLUTIONS, CRITICAL); (COMMON_PITFALLS, CRITICAL);
        (SIMILAR_IMPLEMENTATIONS, HIGH); (TECHNICAL_PATTERNS, MEDIUM) ]);
    (TESTING,
      [ (TESTING_STRATEGIES, CRITICAL); (BEST_PRACTICES, HIGH);
        (SIMILAR_IMPLEMENTATIONS, HIGH); (COMMON_PITFALLS, MEDIUM) ]);
    (ARCHITECTURE,
      [ (ARCHITECTURAL_DECISIONS, CRITICAL); (TECHNICAL_PATTERNS, CRITICAL);
        (BEST_PRACTICES, HIGH); (PERFORMANCE_CONSIDERATIONS, HIGH);
        (SECURITY_PRACTICES, MEDIUM) ]);
    (CONFIGURATION,
      [ (CONFIGURATION_EXAMPLES, CRITICAL); (BEST_PRACTICES, HIGH);
        (COMMON_PITFALLS, HIGH); (SIMILAR_IMPLEMENTATIONS, MEDIUM) ]);
    (SECURITY,
      [ (SECURITY_PRACTICES, CRITICAL); (BEST_PRACTICES, CRITICAL);
        (COMMON_PITFALLS, HIGH); (SIMILAR_IMPLEMENTATIONS, MEDIUM) ]) ].

(** [self.context_mappings.get(category, [])] *)
Definition context_mappings_get (c : TaskCategory) : list (ContextType * Priority) :=
  match List.find (fun e => bool_decide (fst e = c)) context_mappings with
  | Some e => snd e
  | None => []
  end.

(** [_categorize_task]: [max(scores, key=scores.get)] keeps the first key
    that reaches the highest score. *)
Definition pattern_count (patterns : list string) (text : string) : nat :=
  Py.sum_nat (map (fun p => List.length (Text.findall (Text.re p) text)) patterns).

Definition category_scores (text : string) : list (TaskCategory * nat) :=
  filter (fun e => 0 < snd e)
    (map (fun e => (fst e, pattern_count (snd e) text)) task_patterns).

Fixpoint max_by_score (best : TaskCategory * nat) (l : list (TaskCategory * nat))
    : TaskCategory :=
  match l with
  | [] => fst best
  | e :: l' => if snd best <? snd e then max_by_score e l' else max_by_score best l'
  end.

Definition _categorize_task (task_description : string) : TaskCategory :=
  let text := Text.lower task_description in
  match category_scores text with
  | e :: l => max_by_score e l
  | [] => IMPLEMENTATION
  end.

(** [_extract_technologies] *)
Definition _extract_technologies (task_description : string) : gset string :=
  let text := Text.lower task_description in
  foldl (fun technologies e =>
           if Py.any (fun p => Text.search (Text.re p) text) (snd e)
           then technologies ∪ {[ fst e ]} else technologies)
        ∅ technology_patterns.

(** [_estimate_complexity] *)
Definition complexity_indicators : list (string * nat) :=
  [ ("\bcomplex\b|\badvanced\b|\bsophisticated\b", 2);
    ("\bmultiple\b|\bseveral\b|\bmany\b", 1);
    ("\bintegration\b|\bapi\b|\bmicroservice\b", 1);
    ("\bsecurity\b|\bauth\b|\bencryption\b", 1);
    ("\bperformance\b|\boptimiz\b|\bscal\b", 1);
    ("\bdatabase\b|\bdata\b|\bstorage\b", 1);
    ("\btest\b|\btesting\b", 1) ].

Definition _estimate_complexity (text : string) : nat :=
  let base_complexity :=
    foldl (fun acc e => if Text.search (Text.re (fst e)) text then acc + snd e else acc)
          1 complexity_indicators in
  Nat.min 5 base_complexity.

(** [_extract_key_terms] *)
Definition common_words : list string :=
  [ "the"; "a"; "an"; "and"; "or"; "but"; "in"; "on"; "at"; "to"; "for"; "of";
    "with"; "by"; "is"; "are"; "was"; "were"; "be"; "been"; "have"; "has"; "had";
    "do"; "does"; "did"; "will"; "would"; "could"; "should" ].

Definition _extract_key_terms (text : string) : string :=
  let words := Text.findall (Text.re "\b\w+\b") (Text.lower text) in
  let key_terms :=
    filter (fun w => (w ∉ common_words) ∧ (2 < String.length w)) words in
  Text.join " " (take 10 key_terms).

(** [_build_query_text].  The order in which a set is iterated is not
    fixed by Python; [elements] stands for it. *)
Definition context_modifiers (t : ContextType) : string :=
  match t with
  | SIMILAR_IMPLEMENTATIONS => "implementation example pattern"
  | BEST_PRACTICES => "best practice recommendation guideline"
  | COMMON_PITFALLS => "problem pitfall mistake avoid"
  | ERROR_SOLUTIONS => "error fix solution resolved"
  | TESTING_STRATEGIES => "test testing strategy approach"
  | CONFIGURATION_EXAMPLES => "configuration config setup example"
  | TECHNICAL_PATTERNS => "pattern architecture design approach"
  | PERFORMANCE_CONSIDERATIONS => "performance optimization scalability"
  | SECURITY_PRACTICES => "security secure authentication authorization"
  | ARCHITECTURAL_DECISIONS => "architecture decision design choice"
  end.

Definition _build_query_text (task_description : string) (t : ContextType)
    (technologies : gset string) : string :=
  let base_terms := _extract_key_terms task_description in
  let tech_terms := Text.join " " (elements technologies) in
  let modifier := context_modifiers t in
  Text.strip (base_terms ++ " " ++ tech_terms ++ " " ++ modifier).

(** [_generate_tags] *)
Definition _generate_tags (technologies : gset string) (c : TaskCategory)
    (t : ContextType) : list string :=
  elements technologies ++
  [ TaskCategory_value c; Text.replace_char "_" "-" (ContextType_value t) ].

Definition _get_threshold_for_priority (p : Priority) : Q :=
  match p with
  | CRITICAL => 0.3 | HIGH => 0.4 | MEDIUM => 0.5 | LOW => 0.6
  end.

Definition _get_max_results_for_priority (p : Priority) : nat :=
  match p with
  | CRITICAL => 15 | HIGH => 10 | MEDIUM => 8 | LOW => 5
  end.

(** [_generate_context_queries] *)
Definition _generate_context_queries (task_description : string) (c : TaskCategory)
    (technologies : gset string) (comps : list TaskComponent) : list ContextQuery :=
  let queries :=
    map (fun e : ContextType * Priority =>
           let (t, p) := e in
           {| query_text := _build_query_text task_description t technologies;
              context_type := t;
              priority := p;
              tags := _generate_tags technologies c t;
              similarity_threshold := _get_threshold_for_priority p;
              max_results := _get_max_results_for_priority p |})
        (context_mappings_get c) in
  Py.sort_by (fun q1 q2 => (Priority_value (priority q1) <=? Priority_value (priority q2))%Z)
             queries.

(** [_estimate_duration] *)
Definition _estimate_duration (comps : list TaskComponent) : string :=
  let total_complexity := Py.sum_nat (map estimated_complexity comps) in
  if total_complexity <=? 3 then "1-2 hours"
  else if total_complexity <=? 6 then "2-4 hours"
  else if total_complexity <=? 10 then "4-8 hours"
  else if total_complexity <=? 15 then "1-2 days"
  else "2+ days".

(** [_identify_risk_factors] *)
Definition risk_patterns : list (string * string) :=
  [ ("\bnew\b|\bunfamiliar\b|\bfirst time\b", "Working with unfamiliar technology");
    ("\blegacy\b|\bold\b|\bdeprecated\b", "Working with legacy systems");
    ("\bmigration\b|\bupgrade\b", "Migration/upgrade complexity");
    ("\bintegration\b|\bthird.?party\b", "Third-party integration challenges");
    ("\bperformance\b|\bscale\b", "Performance and scalability requirements");
    ("\bsecurity\b|\bauth\b", "Security implementation complexity");
    ("\bdeadline\b|\burgent\b|\basap\b", "Time pressure");
    ("\bmultiple\b.*\bteam\b", "Multi-team coordination required") ].

Definition _identify_risk_factors (task_description : string)
    (comps : list TaskComponent) : list string :=
  let text := Text.lower task_description in
  let risks :=
    map snd (filter (fun e => Text.search (Text.re (fst e)) text) risk_patterns) in
  let high_complexity_components :=
    filter (fun c => 4 ≤ estimated_complexity c) comps in
  let risks :=
    match high_complexity_components with
    | [] => risks
    | _ => risks ++ ["High complexity components present"]
    end in
  let risks :=
    if 3 <? List.length comps then risks ++ ["Multiple interdependent components"]
    else risks in
  match risks with
  | [] => ["Low risk task"]
  | _ => risks
  end.

(** [_generate_success_criteria].  The fourth comparison of the chain reads
    [TaskCategory.PERFORMANCE]; it is evaluated for a component whose
    category is none of the three before it. *)
Fixpoint component_criteria (comps : list TaskComponent) : result (list string) :=
  match comps with
  | [] => Ok []
  | c :: rest =>
      here ←
        (if decide (category c = TESTING) then Ok ["All tests pass with good coverage"]
         else if decide (category c = DEBUGGING) then Ok ["Original issue resolved and verified"]
         else if decide (category c = SECURITY) then Ok ["Security requirements met and verified"]
         else
           performance ← TaskCategory_attr "PERFORMANCE";
           if decide (category c = performance) then Ok ["Performance requirements met"]
           else Ok []);
      more ← component_criteria rest;
      Ok (here ++ more)
  end.

Definition technology_criteria (tech : string) : list string :=
  if String.eqb tech "testing" then ["Test suite runs successfully"]
  else if String.eqb tech "database" then ["Database operations work correctly"]
  else if String.eqb tech "api" then ["API endpoints respond correctly"]
  else [].

Definition _generate_success_criteria (task_description : string)
    (comps : list TaskComponent) : result (list string) :=
  by_component ← component_criteria comps;
  let all_technologies : gset string := ⋃ (map technologies comps) in
  let criteria :=
    ["Task implementation completed successfully"]
    ++ by_component
    ++ List.concat (map technology_criteria (elements all_technologies))
    ++ [ "Code follows project conventions and standards";
         "Documentation updated as needed";
         "No regressions in existing functionality" ] in
  Ok (elements (list_to_set criteria : gset string)).

Section Decomposer.

(** [self._generate_search_terms]: [_identify_components] calls it, and
    no file of the repository defines it; it is a parameter here, and
    [undefined_method] is what the class as written gives. *)
Variable _generate_search_terms : string → gset string → result (list string).

(** [_identify_components] *)
Definition make_component (text name : string) (c : TaskCategory)
    (techs : gset string) : result TaskComponent :=
  let needs := context_mappings_get c in
  terms ← _generate_search_terms text techs;
  Ok {| component := name;
        category := c;
        technologies := techs;
        context_needs := needs;
        search_terms := terms;
        estimated_complexity := _estimate_complexity text |}.

Fixpoint sub_components (parts : list string) : result (list TaskComponent) :=
  match parts with
  | [] => Ok []
  | part :: rest =>
      if 10 <? String.length (Text.strip part) then
        let sub_category := _categorize_task part in
        let sub_technologies := _extract_technologies part in
        sub_component ← make_component part (Text.strip part) sub_category sub_technologies;
        more ← sub_components rest;
        Ok (sub_component :: more)
      else sub_components rest
  end.

Definition _identify_components (task_description : string) (c : TaskCategory)
    (techs : gset string) : result (list TaskComponent) :=
  main_component ← make_component task_description task_description c techs;
  if Text.contains "and" (Text.lower task_description) then
    let parts := Text.split (Text.re "\band\b") task_description in
    subs ← sub_components (tail parts);
    Ok (main_component :: subs)
  else Ok [main_component].

(** [decompose_task]; the [metadata] argument is not read. *)
Definition decompose_task (task_description : string) : result TaskDecomposition :=
  let primary := _categorize_task task_description in
  let techs := _extract_technologies task_description in
  comps ← _identify_components task_description primary techs;
  let queries := _generate_context_queries task_description primary techs comps in
  let duration := _estimate_duration comps in
  let risks := _identify_risk_factors task_description comps in
  criteria ← _generate_success_criteria task_description comps;
  Ok {| original_task := task_description;
        primary_category := primary;
        components := comps;
        context_queries := queries;
        technologies_involved := techs;
        estimated_duration := duration;
        risk_factors := risks;
        success_criteria := criteria |}.

End Decomposer.

(** The class has no attribute [_generate_search_terms]. *)
Definition undefined_method : string → gset string → result (list string) :=
  fun _ _ => Raise (AttributeError "'TaskDecomposer' object" "_generate_search_terms").

(** *** Vocabulary and sample data of the properties *)

Definition needs_performance (c : TaskCategory) : bool :=
  negb (bool_decide (c = TESTING) || bool_decide (c = DEBUGGING)
        || bool_decide (c = SECURITY)).

Definition performance_error : exn :=
  AttributeError "type object 'TaskCategory'" "PERFORMANCE".

Definition search_terms_error : exn :=
  AttributeError "'TaskDecomposer' object" "_generate_search_terms".

(** The names of [technology_patterns]. *)
Definition technology_names : list string := map fst technology_patterns.

(** Whether a technology has a pattern that occurs in the lower-cased text. *)
Definition technology_mentioned (text : string) (e : string * list string) : bool :=
  Py.any (fun p => Text.search (Text.re p) (Text.lower text)) (snd e).

(** The match count of a category on the lower-cased text. *)
Definition category_count (text : string) (e : TaskCategory * list string) : nat :=
  pattern_count (snd e) (Text.lower text).

(** Queries in the order of their priority values. *)
Definition by_priority (q1 q2 : ContextQuery) : Prop :=
  (Priority_value (priority q1) <= Priority_value (priority q2))%Z.

(** A query carries the threshold and the limit of its priority. *)
Definition query_tuned (q : ContextQuery) : Prop :=
  similarity_threshold q = _get_threshold_for_priority (priority q)
  ∧ max_results q = _get_max_results_for_priority (priority q).

(** Along a list of queries: priorities in order, thresholds not
    decreasing, limits not increasing. *)
Definition query_order (q1 q2 : ContextQuery) : Prop :=
  by_priority q1 q2
  ∧ (similarity_threshold q1 <= similarity_threshold q2)%Q
  ∧ max_results q2 ≤ max_results q1.

(** The categories for which [context_mappings] has no entry. *)
Definition unmapped_categories : list TaskCategory :=
  [RESEARCH; DOCUMENTATION; REFACTORING; DEPLOYMENT].

(** The criteria every returned list holds. *)
Definition generic_criteria : list string :=
  [ "Task implementation completed successfully";
    "Code follows project conventions and standards";
    "Documentation updated as needed";
    "No regressions in existing functionality" ].

(** A component whose category the chain of [_generate_success_criteria]
    handles before it reads [TaskCategory.PERFORMANCE]. *)
Definition handled (c : TaskComponent) : Prop :=
  needs_performance (category c) = false.

(** A secondary component: the stripped form of a fragment, longer than
    ten characters, categorised on the fragment. *)
Definition secondary (c : TaskComponent) : Prop :=
  ∃ part, component c = Text.strip part
          ∧ 10 < String.length (component c)
          ∧ category c = _categorize_task part
          ∧ technologies c = _extract_technologies part.

(** A helper for search terms that returns no terms. *)
Definition no_search_terms : string → gset string → result (list string) :=
  fun _ _ => Ok [].

(** The decomposition of a text with [no_search_terms], when there is one. *)
Definition decomposed (text : string) : option TaskDecomposition :=
  match decompose_task no_search_terms text with
  | Ok d => Some d
  | Raise _ => None
  end.

(** The comparison [_generate_context_queries] sorts with. *)
Definition priority_leb (q1 q2 : ContextQuery) : bool :=
  (Priority_value (priority q1) <=? Priority_value (priority q2))%Z.

(** A sample component. *)
Definition testing_component : TaskComponent :=
  {| component := "test the login"; category := TESTING; technologies := ∅;
     context_needs := context_mappings_get TESTING; search_terms := [];
     estimated_complexity := 2 |}.

End TaskDecomposer.

(** ** orchestrator.py *)

Module Orchestrator.

Inductive AgentType : Type :=
| MEMORY_STORE | MEMORY_CONTEXT | MEMORY_RECALL | MEMORY_CONSOLIDATE
| MEMORY_HEALTH | TEST_CONTEXT | DEBUG_CONTEXT.

Inductive TriggerCondition : Type :=
| DECISION_MADE | ERROR_ENCOUNTERED | TASK_STARTED | TESTING_NEEDED
| DEBUG_NEEDED | CONTEXT_NEEDED | HEALTH_CHECK | MAINTENANCE_DUE.

#[global] Instance AgentType_eq_dec : EqDecision AgentType.
Proof. solve_decision. Defined.
#[global] Instance TriggerCondition_eq_dec : EqDecision TriggerCondition.
Proof. solve_decision. Defined.

Definition AgentType_index (a : AgentType) : nat :=
  match a with
  | MEMORY_STORE => 0 | MEMORY_CONTEXT => 1 | MEMORY_RECALL => 2
  | MEMORY_CONSOLIDATE => 3 | MEMORY_HEALTH => 4 | TEST_CONTEXT => 5
  | DEBUG_CONTEXT => 6
  end.

Definition AgentType_of_index (n : nat) : AgentType :=
  match n with
  | 0 => MEMORY_STORE | 1 => MEMORY_CONTEXT | 2 => MEMORY_RECALL
  | 3 => MEMORY_CONSOLIDATE | 4 => MEMORY_HEALTH | 5 => TEST_CONTEXT
  | _ => DEBUG_CONTEXT
  end.

#[global] Instance AgentType_countable : Countable AgentType.
Proof.
  apply (inj_countable' AgentType_index AgentType_of_index).
  intros []; reflexivity.
Defined.

Definition AgentType_value (a : AgentType) : string :=
  match a with
  | MEMORY_STORE => "memory-store" | MEMORY_CONTEXT => "memory-context"
  | MEMORY_RECALL => "memory-recall" | MEMORY_CONSOLIDATE => "memory-consolidate"
  | MEMORY_HEALTH => "memory-health" | TEST_CONTEXT => "test-context"
  | DEBUG_CONTEXT => "debug-context"
  end.

Definition TriggerCondition_value (t : TriggerCondition) : string :=
  match t with
  | DECISION_MADE => "decision_made" | ERROR_ENCOUNTERED => "error_encountered"
  | TASK_STARTED => "task_started" | TESTING_NEEDED => "testing_needed"
  | DEBUG_NEEDED => "debug_needed" | CONTEXT_NEEDED => "context_needed"
  | HEALTH_CHECK => "health_check" | MAINTENANCE_DUE => "maintenance_due"
  end.

(** Values held by the [context] dict of an invocation. *)
Inductive Value : Type :=
| VStr (s : string)
| VBool (b : bool)
| VDict (d : list (string * string)).

(** A dict from strings to values. *)
Abbreviation Dict := (gmap string Value).

(** [AgentInvocation]; [context] is [None] when the caller passed [None]
    for the dict. *)
Record AgentInvocation : Type := {
  agent_type : AgentType;
  trigger : TriggerCondition;
  context : option Dict;
  priority : Z;
  dependencies : option (list AgentType)
}.

(** An f-string before it is rendered: literal text and the values that
    [str] would be applied to. *)
Inductive piece : Type :=
| Lit (s : string)
| Val (v : Value)
| ValDict (d : option Dict).

Record AgentData : Type := {
  agent : string;
  data_trigger : string;
  data_context : option Dict;
  prompt_sent : list piece
}.

(** [AgentResult]; [data] is [None] for the empty dict. *)
Record AgentResult : Type := {
  result_agent_type : AgentType;
  success : bool;
  data : option AgentData;
  execution_time : Q;
  error_message : option string
}.

(** The state of an [AgentOrchestrator] object. *)
Record AgentOrchestrator : Type := {
  active_agents : gset AgentType;
  agent_history : list AgentResult
}.

(** [AgentOrchestrator()] *)
Definition init : AgentOrchestrator :=
  {| active_agents := ∅; agent_history := [] |}.

(** *** Content detection *)

Definition decision_indicators : list string :=
  [ "(?:decided|chosen|selected|going with|will use|approach is)";
    "(?:solution|fix|resolved|implemented|working)";
    "(?:architecture|design|pattern|strategy)";
    "(?:learned|discovered|found that|realized)";
    "(?:successfully|completed|finished|deployed)";
    "(?:best practice|recommendation|should)";
    "(?:key insight|important|critical|essential)" ].

Definition error_indicators : list string :=
  [ "(?:error|exception|failed?|crash|bug)";
    "(?:not working|broken|issue|problem)";
    "(?:debug|troubleshoot|investigate)";
    "(?:timeout|connection|memory leak)";
    "(?:stacktrace|traceback|log shows)" ].

Definition task_indicators : list string :=
  [ "(?:implement|create|build|develop|add)";
    "(?:feature|function|component|module|system)";
    "(?:need to|want to|going to|planning to)";
    "(?:how do I|how can I|what's the best way)";
    "(?:working on|starting|beginning)" ].

Definition test_indicators : list string :=
  [ "(?:test|testing|spec|verify|validate)";
    "(?:unit test|integration test|e2e test)";
    "(?:check|assert|expect|should)";
    "(?:coverage|test case|test suite)";
    "(?:mock|stub|fixture)" ].

Definition context_indicators : list string :=
  [ "(?:similar|before|previous|history)";
    "(?:have we|did we|how did we)";
    "(?:last time|previously|earlier)";
    "(?:experience|pattern|lesson learned)";
    "(?:best practice|what worked|what didn't work)" ].

Definition any_pattern (patterns : list string) (content : string) : bool :=
  Py.any (fun p => Text.search (Text.re p) content) patterns.

Definition _contains_decision_content := any_pattern decision_indicators.
Definition _contains_error_content := any_pattern error_indicators.
Definition _contains_task_content := any_pattern task_indicators.
Definition _contains_test_content := any_pattern test_indicators.
Definition _contains_context_request := any_pattern context_indicators.

Definition invocation (a : AgentType) (t : TriggerCondition)
    (ctx : list (string * Value)) (p : Z) : AgentInvocation :=
  {| agent_type := a; trigger := t; context := Some (list_to_map ctx);
     priority := p; dependencies := None |}.

(** [analyze_context] *)
Definition analyze_context (content : string)
    (metadata : option (list (string * string))) : list AgentInvocation :=
  let content_lower := Text.lower content in
  let metadata := VDict (default [] metadata) in
  let invocations :=
    (if _contains_decision_content content_lower then
       [ invocation MEMORY_STORE DECISION_MADE
           [ ("content", VStr content); ("metadata", metadata);
             ("auto_store", VBool true);
             ("reason", VStr "Decision or solution detected") ] 1 ]
     else [])
    ++ (if _contains_error_content content_lower then
          [ invocation DEBUG_CONTEXT ERROR_ENCOUNTERED
              [ ("error_content", VStr content); ("metadata", metadata) ] 1 ]
        else [])
    ++ (if _contains_task_content content_lower then
          [ invocation MEMORY_CONTEXT TASK_STARTED
              [ ("task_description", VStr content); ("metadata", metadata) ] 1 ]
        else [])
    ++ (if _contains_test_content content_lower then
          [ invocation TEST_CONTEXT TESTING_NEEDED
              [ ("test_request", VStr content); ("metadata", metadata) ] 2 ]
        else [])
    ++ (if _contains_context_request content_lower then
          [ invocation MEMORY_RECALL CONTEXT_NEEDED
              [ ("query", VStr content); ("metadata", metadata) ] 2 ]
        else []) in
  Py.sort_by (fun x y => (priority x <=? priority y)%Z) invocations.

(** *** Execution *)

Definition nl : string := Text.nl.

(** [invocation.context.get(key, '')] *)
Definition context_get (inv : AgentInvocation) (key : string) : result Value :=
  match context inv with
  | Some d => Ok (default (VStr "") (d !! key))
  | None => Raise (AttributeError "'NoneType' object" "get")
  end.

(** [_build_agent_prompt] *)
Definition _build_agent_prompt (inv : AgentInvocation) : result (list piece) :=
  let base_prompt :=
    [Lit "Agent triggered by: "; Lit (TriggerCondition_value (trigger inv)); Lit nl] in
  match agent_type inv with
  | MEMORY_STORE =>
      v ← context_get inv "content";
      Ok (base_prompt ++
          [ Lit (nl ++ "Store this important information in memory:" ++ nl ++ nl
                 ++ "Content: ");
            Val v;
            Lit (nl ++ nl ++ "This was automatically detected as containing decisions, solutions, or important insights that should be preserved for future reference."
                 ++ nl ++ nl ++ "Please store this with appropriate tags and metadata." ++ nl) ])
  | MEMORY_CONTEXT =>
      v ← context_get inv "task_description";
      Ok (base_prompt ++
          [ Lit (nl ++ "Gather comprehensive context for this task:" ++ nl ++ nl
                 ++ "Task: ");
            Val v;
            Lit (nl ++ nl ++ "Please decompose this task, search for related memories, and provide relevant context that would help with successful completion." ++ nl) ])
  | DEBUG_CONTEXT =>
      v ← context_get inv "error_content";
      Ok (base_prompt ++
          [ Lit (nl ++ "Provide debugging context for this issue:" ++ nl ++ nl
                 ++ "Error/Issue: ");
            Val v;
            Lit (nl ++ nl ++ "Please search for similar problems, solutions, and debugging approaches from past experiences." ++ nl) ])
  | TEST_CONTEXT =>
      v ← context_get inv "test_request";
      Ok (base_prompt ++
          [ Lit (nl ++ "Provide testing context for this request:" ++ nl ++ nl
                 ++ "Testing Request: ");
            Val v;
            Lit (nl ++ nl ++ "Please analyze the target, find testing patterns, and provide comprehensive context for test creation." ++ nl) ])
  | MEMORY_RECALL =>
      v ← context_get inv "query";
      Ok (base_prompt ++
          [ Lit (nl ++ "Retrieve relevant memories for this query:" ++ nl ++ nl
                 ++ "Query: ");
            Val v;
            Lit (nl ++ nl ++ "Please search for similar situations, solutions, and relevant historical context." ++ nl) ])
  | _ =>
      Ok (base_prompt ++
          [ Lit (nl ++ "Context: ");
            ValDict (context inv);
            Lit (nl ++ nl ++ "Please execute your specialized function based on this context." ++ nl) ])
  end.

(** [_execute_single_agent]: the simulated run. *)
Definition _execute_single_agent (inv : AgentInvocation) : result AgentResult :=
  agent_prompt ← _build_agent_prompt inv;
  Ok {| result_agent_type := agent_type inv;
        success := true;
        data := Some {| agent := AgentType_value (agent_type inv);
                        data_trigger := TriggerCondition_value (trigger inv);
                        data_context := context inv;
                        prompt_sent := agent_prompt |};
        execution_time := 0;
        error_message := None |}.

(** The result built by the [except] clause. *)
Definition failed_result (inv : AgentInvocation) (e : exn) : AgentResult :=
  {| result_agent_type := agent_type inv;
     success := false;
     data := None;
     execution_time := 0;
     error_message := Some (str_exn e) |}.

(** What the loop of [execute_invocations] carries: the orchestrator, the
    local [results], and how many times the clock was read. *)
Record LoopState : Type := {
  self : AgentOrchestrator;
  results : list AgentResult;
  ticks : nat
}.

(** How the [try] block of one iteration ends. *)
Inductive outcome : Type :=
| Completed (st : LoopState)
| Continue (st : LoopState)
| Raised (st : LoopState) (e : exn).

Definition add_active (a : AgentType) (st : LoopState) : LoopState :=
  {| self := {| active_agents := active_agents (self st) ∪ {[ a ]};
                agent_history := agent_history (self st) |};
     results := results st; ticks := ticks st |}.

Definition discard_active (a : AgentType) (st : LoopState) : LoopState :=
  {| self := {| active_agents := active_agents (self st) ∖ {[ a ]};
                agent_history := agent_history (self st) |};
     results := results st; ticks := ticks st |}.

Definition tick (st : LoopState) : LoopState :=
  {| self := self st; results := results st; ticks := S (ticks st) |}.

Definition append_result (r : AgentResult) (st : LoopState) : LoopState :=
  {| self := self st; results := results st ++ [r]; ticks := ticks st |}.

Definition append_history (r : AgentResult) (st : LoopState) : LoopState :=
  {| self := {| active_agents := active_agents (self st);
                agent_history := agent_history (self st) ++ [r] |};
     results := results st; ticks := ticks st |}.

Definition with_execution_time (r : AgentResult) (t : Q) : AgentResult :=
  {| result_agent_type := result_agent_type r; success := success r;
     data := data r; execution_time := t; error_message := error_message r |}.

Section Execute.

(** [now n]: what the [n]-th call of [datetime.now()] returns, in
    microseconds. *)
Variable now : nat → Z.

(** [(b - a).total_seconds()] *)
Definition total_seconds (a b : Z) : Q := ((b - a) # 1000000)%Q.

(** The body of the [try] block. *)
Definition try_body (inv : AgentInvocation) (st : LoopState) : outcome :=
  let start_time := now (ticks st) in
  let st := tick st in
  if decide (agent_type inv ∈ active_agents (self st)) then Continue st
  else
    let st := add_active (agent_type inv) st in
    match _execute_single_agent inv with
    | Raise e => Raised st e
    | Ok r =>
        let end_time := now (ticks st) in
        let st := tick st in
        let r := with_execution_time r (total_seconds start_time end_time) in
        Completed (append_history r (append_result r st))
    end.

(** [except Exception as e] *)
Definition except_clause (inv : AgentInvocation) (o : outcome) : outcome :=
  match o with
  | Raised st e => Completed (append_result (failed_result inv e) st)
  | _ => o
  end.

(** [finally], which runs however the block was left. *)
Definition finally_clause (inv : AgentInvocation) (o : outcome) : LoopState :=
  match o with
  | Completed st | Continue st | Raised st _ => discard_active (agent_type inv) st
  end.

Definition iteration (st : LoopState) (inv : AgentInvocation) : LoopState :=
  finally_clause inv (except_clause inv (try_body inv st)).

Definition run_loop (invocations : list AgentInvocation) (st : LoopState) : LoopState :=
  foldl iteration st invocations.

(** [execute_invocations]: the orchestrator afterwards and the returned
    list; [t] is the number of clock reads before the call. *)
Definition execute_invocations (o : AgentOrchestrator) (t : nat)
    (invocations : list AgentInvocation) : AgentOrchestrator * list AgentResult :=
  let st := run_loop invocations {| self := o; results := []; ticks := t |} in
  (self st, results st).

End Execute.

(** *** Vocabulary and sample data of the properties *)

Definition scenario_A : string :=
  "We decided to use PostgreSQL instead of MongoDB for ACID transactions".

Definition store_invocation (content : string) : AgentInvocation :=
  invocation MEMORY_STORE DECISION_MADE
    [ ("content", VStr content); ("metadata", VDict []);
      ("auto_store", VBool true);
      ("reason", VStr "Decision or solution detected") ] 1.

(** Results collected before an iteration stay in front. *)
Definition prepend (rs : list AgentResult) (st : LoopState) : LoopState :=
  {| self := self st; results := rs ++ results st; ticks := ticks st |}.

Definition busy_store : AgentOrchestrator :=
  {| active_agents := {[ MEMORY_STORE ]}; agent_history := [] |}.

Definition no_context (a : AgentType) (tr : TriggerCondition) : AgentInvocation :=
  {| agent_type := a; trigger := tr; context := None; priority := 1;
     dependencies := None |}.

Definition none_has_no_get : exn := AttributeError "'NoneType' object" "get".

(** *** The entry point *)

(** An entry of the ["results"] list of the report. *)
Record ResultEntry : Type := {
  entry_agent : string;
  entry_success : bool;
  entry_execution_time : Q;
  entry_data : option AgentData
}.

(** The dict [autonomous_memory_operation] returns: the short form when
    nothing was triggered, the full form otherwise. *)
Inductive OperationReport : Type :=
| NothingNeeded (message : string) (agents_triggered : nat)
| Executed (message : string) (agents_triggered : nat)
    (successful_agents failed_agents : list string)
    (report_results : list ResultEntry).

(** [autonomous_memory_operation]; [now] and [t] are the clock and the
    number of its readings so far. *)
Definition autonomous_memory_operation (now : nat → Z) (o : AgentOrchestrator)
    (t : nat) (content : string) (context : option (list (string * string)))
    : AgentOrchestrator * OperationReport :=
  let invocations := analyze_context content context in
  match invocations with
  | [] => (o, NothingNeeded "No memory operations needed" 0)
  | _ =>
      let '(o', results) := execute_invocations now o t invocations in
      let successful_agents := List.filter success results in
      let failed_agents := List.filter (fun r => negb (success r)) results in
      (o',
       Executed
         ("Executed " ++ pretty (List.length successful_agents) ++ "/"
          ++ pretty (List.length results) ++ " agents successfully")
         (List.length invocations)
         (map (fun r => AgentType_value (result_agent_type r)) successful_agents)
         (map (fun r => AgentType_value (result_agent_type r)) failed_agents)
         (map (fun r => {| entry_agent := AgentType_value (result_agent_type r);
                           entry_success := success r;
                           entry_execution_time := execution_time r;
                           entry_data := data r |}) results))
  end.

(** The agent types in the order [analyze_context] tests for them, each
    with the detector, the trigger and the priority of its invocation. *)
Definition detectors : list (AgentType * (string → bool) * TriggerCondition * Z) :=
  [ (MEMORY_STORE, _contains_decision_content, DECISION_MADE, 1%Z);
    (DEBUG_CONTEXT, _contains_error_content, ERROR_ENCOUNTERED, 1%Z);
    (MEMORY_CONTEXT, _contains_task_content, TASK_STARTED, 1%Z);
    (TEST_CONTEXT, _contains_test_content, TESTING_NEEDED, 2%Z);
    (MEMORY_RECALL, _contains_context_request, CONTEXT_NEEDED, 2%Z) ].

(** The agent type, trigger and priority of the detectors that fire on
    the lower-cased content. *)
Definition triggered (content : string) : list (AgentType * TriggerCondition * Z) :=
  map (fun d : AgentType * (string → bool) * TriggerCondition * Z =>
         (d.1.1.1, d.1.2, d.2))
      (List.filter (fun d : AgentType * (string → bool) * TriggerCondition * Z =>
                      d.1.1.2 (Text.lower content)) detectors).

Definition signature (inv : AgentInvocation) : AgentType * TriggerCondition * Z :=
  (agent_type inv, trigger inv, priority inv).

(** No agent type of the invocations is marked active. *)
Definition none_active (o : AgentOrchestrator) (invs : list AgentInvocation) : Prop :=
  ∀ inv, inv ∈ invs → agent_type inv ∉ active_agents o.

(** What [autonomous_memory_operation] gives on an orchestrator [o]
    without active agents: nothing when no detector fires; otherwise every
    triggered agent succeeds, none fails, the history grows by one entry
    for each of them and no agent is left active. *)
Definition idle_outcome (o : AgentOrchestrator) (content : string)
    (out : AgentOrchestrator * OperationReport) : Prop :=
  match out.2 with
  | NothingNeeded _ n => triggered content = [] ∧ n = 0 ∧ out.1 = o
  | Executed _ n successful failed entries =>
      triggered content ≠ []
      ∧ n = List.length (triggered content)
      ∧ successful
        = map (fun s : AgentType * TriggerCondition * Z => AgentType_value s.1.1)
              (triggered content)
      ∧ failed = []
      ∧ Forall (fun e => entry_success e = true) entries
      ∧ List.length entries = n
      ∧ List.length (agent_history out.1) = List.length (agent_history o) + n
      ∧ active_agents out.1 = ∅
  end.

End Orchestrator.

(** ** relevance_scorer.py *)

Module RelevanceScorer.

Local Open Scope R_scope.

Inductive ScoreDimension : Type :=
| SEMANTIC_SIMILARITY | TEMPORAL_RELEVANCE | TAG_OVERLAP | METADATA_MATCH
| CONTENT_TYPE_MATCH | TECHNOLOGY_ALIGNMENT | CONTEXTUAL_SIMILARITY
| USAGE_FREQUENCY.

Inductive ContextualFactor : Type :=
| TASK_CATEGORY | URGENCY_LEVEL | COMPLEXITY_LEVEL | DOMAIN_SPECIFICITY
| ERROR_CONTEXT | IMPLEMENTATION_STAGE.

#[global] Instance ScoreDimension_eq_dec : EqDecision ScoreDimension.
Proof. solve_decision. Defined.
#[global] Instance ContextualFactor_eq_dec : EqDecision ContextualFactor.
Proof. solve_decision. Defined.

Definition ContextualFactor_index (f : ContextualFactor) : nat :=
  match f with
  | TASK_CATEGORY => 0 | URGENCY_LEVEL => 1 | COMPLEXITY_LEVEL => 2
  | DOMAIN_SPECIFICITY => 3 | ERROR_CONTEXT => 4 | IMPLEMENTATION_STAGE => 5
  end%nat.

Definition ContextualFactor_of_index (n : nat) : ContextualFactor :=
  match n with
  | 0 => TASK_CATEGORY | 1 => URGENCY_LEVEL | 2 => COMPLEXITY_LEVEL
  | 3 => DOMAIN_SPECIFICITY | 4 => ERROR_CONTEXT | _ => IMPLEMENTATION_STAGE
  end%nat.

#[global] Instance ContextualFactor_countable : Countable ContextualFactor.
Proof.
  apply (inj_countable' ContextualFactor_index ContextualFactor_of_index).
  intros []; reflexivity.
Defined.

Record ScoringWeights : Type := {
  semantic_similarity : R;
  temporal_relevance : R;
  tag_overlap : R;
  metadata_match : R;
  content_type_match : R;
  technology_alignment : R;
  contextual_similarity : R;
  usage_frequency : R
}.

(** [ScoringWeights()] *)
Definition default_weights : ScoringWeights :=
  {| semantic_similarity := 0.30;
     temporal_relevance := 0.15;
     tag_overlap := 0.20;
     metadata_match := 0.10;
     content_type_match := 0.10;
     technology_alignment := 0.10;
     contextual_similarity := 0.03;
     usage_frequency := 0.02 |}.

(** Metadata values: strings, integers and lists of those. *)
Inductive Atom : Type :=
| AStr (s : string)
| AInt (n : Z).

Inductive MetaValue : Type :=
| MAtom (a : Atom)
| MList (l : list Atom).

#[global] Instance Atom_eq_dec : EqDecision Atom.
Proof. solve_decision. Defined.
#[global] Instance MetaValue_eq_dec : EqDecision MetaValue.
Proof. solve_decision. Defined.

(** [ScoringContext]; the values of [contextual_factors] are strings. *)
Record ScoringContext : Type := {
  query_text : string;
  query_tags : list string;
  target_technologies : gset string;
  task_category : string;
  content_type_preference : option string;
  temporal_preference : option string;
  metadata_requirements : option (gmap string MetaValue);
  contextual_factors : option (gmap ContextualFactor string)
}.

(** [MemoryCandidate]; [timestamp] is in microseconds, [None] when the
    candidate has none. *)
Record MemoryCandidate : Type := {
  content : string;
  tags : list string;
  metadata : gmap string MetaValue;
  timestamp : option Z;
  content_hash : string;
  base_similarity_score : R;
  usage_count : Z
}.

(** An entry of [reasoning]; the text of a strong contribution is kept as
    the dimension and the score it is formatted from. *)
Inductive reason : Type :=
| StrongContribution (d : ScoreDimension) (score : R)
| ReasonText (s : string).

Record RelevanceScore : Type := {
  total_score : R;
  dimension_scores : list (ScoreDimension * R);
  confidence : R;
  reasoning : list reason;
  boosters : list string;
  penalties : list string
}.

(** [_initialize_technology_keywords] *)
Definition technology_keywords : list (string * list string) :=
  [ ("python", ["python"; "py"; "pip"; "conda"; "pytest"; "django"; "flask"; "fastapi"]);
    ("javascript", ["javascript"; "js"; "node"; "npm"; "yarn"; "react"; "vue"; "angular"]);
    ("typescript", ["typescript"; "ts"; "tsc"; "tsx"]);
    ("docker", ["docker"; "container"; "dockerfile"; "compose"; "k8s"; "kubernetes"]);
    ("database", ["database"; "db"; "sql"; "postgres"; "mysql"; "mongo"; "redis"]);
    ("api", ["api"; "rest"; "graphql"; "endpoint"; "microservice"; "service"]);
    ("web", ["web"; "http"; "https"; "html"; "css"; "frontend"; "backend"]);
    ("cloud", ["aws"; "azure"; "gcp"; "cloud"; "serverless"; "lambda"]);
    ("testing", ["test"; "testing"; "unit"; "integration"; "e2e"; "spec"; "mock"]);
    ("security", ["security"; "auth"; "oauth"; "jwt"; "ssl"; "tls"; "encryption"]) ].

(** [_initialize_content_type_patterns] *)
Definition content_type_patterns : list (string * list string) :=
  [ ("decision",
      [ "decided|chosen|selected|going with|will use";
        "solution|approach|strategy|plan";
        "resolved|fixed|implemented|deployed" ]);
    ("error",
      [ "error|exception|failed?|crash|bug";
        "not working|broken|issue|problem";
        "debug|troubleshoot|fix" ]);
    ("implementation",
      [ "implement|create|build|develop|code";
        "function|method|class|component|module";
        "feature|functionality|requirement" ]);
    ("configuration",
      [ "config|configuration|setup|install";
        "environment|settings|parameters";
        "deploy|deployment|infrastructure" ]);
    ("best_practice",
      [ "best practice|recommendation|should|ought";
        "pattern|convention|standard|guideline";
        "lesson learned|experience|advice" ]);
    ("performance",
      [ "performance|optimize|speed|fast|slow";
        "memory|cpu|resource|scalability";
        "benchmark|profiling|bottleneck" ]) ].

(** [table.get(key, default)] on a table written as a list. *)
Definition table_get {V : Type} (table : list (string * V)) (key : string) (d : V) : V :=
  match List.find (fun e => String.eqb (fst e) key) table with
  | Some e => snd e
  | None => d
  end.

Definition microseconds_per_day : Z := 86400000000.

(** [(now - ts).days]: a [timedelta] is normalised with the floor. *)
Definition days_between (now ts : Z) : Z := ((now - ts) / microseconds_per_day)%Z.

(** [_calculate_temporal_relevance] *)
Definition _calculate_temporal_relevance (now : Z) (candidate : MemoryCandidate)
    (context : ScoringContext) : R :=
  match timestamp candidate with
  | None => 0.5
  | Some ts =>
      let days := days_between now ts in
      if decide (temporal_preference context = Some "recent") then
        let decay_rate := 0.1 in
        exp (- decay_rate * IZR days / 30)
      else if decide (temporal_preference context = Some "historical") then
        if decide (days > 90)%Z then 0.8 + 0.2 * Rmin 1.0 ((IZR days - 90) / 365)
        else 0.6
      else
        if decide (days <= 7)%Z then 1.0
        else if decide (days <= 30)%Z then 0.9
        else if decide (days <= 90)%Z then 0.8
        else if decide (days <= 365)%Z then 0.6
        else 0.4
  end.

(** [set(tag.lower() for tag in tags)] *)
Definition lower_set (l : list string) : gset string :=
  list_to_set (map Text.lower l).

(** [_calculate_tag_overlap] *)
Definition _calculate_tag_overlap (candidate : MemoryCandidate)
    (context : ScoringContext) : R :=
  match query_tags context, tags candidate with
  | [], _ | _, [] => 0.0
  | _, _ =>
      let query_tags_set := lower_set (query_tags context) in
      let candidate_tags_set := lower_set (tags candidate) in
      let intersection := query_tags_set ∩ candidate_tags_set in
      let union := query_tags_set ∪ candidate_tags_set in
      if decide (size union = 0%nat) then 0.0
      else
        let jaccard := INR (size intersection) / INR (size union) in
        let precision :=
          if decide (size candidate_tags_set = 0%nat) then 0
          else INR (size intersection) / INR (size candidate_tags_set) in
        0.7 * jaccard + 0.3 * precision
  end.

(** One requirement of [_calculate_metadata_match]. *)
Definition requirement_match (candidate : MemoryCandidate)
    (key : string) (expected_value : MetaValue) : R :=
  match metadata candidate !! key with
  | None => 0
  | Some candidate_value =>
      match expected_value with
      | MList l =>
          match candidate_value with
          | MAtom a => if decide (a ∈ l) then 1 else 0
          | MList _ => 0
          end
      | MAtom e =>
          if decide (candidate_value = expected_value) then 1
          else
            match candidate_value, e with
            | MAtom (AStr c), AStr x =>
                if Text.contains (Text.lower x) (Text.lower c) then 0.7 else 0
            | _, _ => 0
            end
      end
  end.

Definition sum_R (l : list R) : R := foldr Rplus 0 l.

(** [_calculate_metadata_match] *)
Definition _calculate_metadata_match (candidate : MemoryCandidate)
    (context : ScoringContext) : R :=
  match metadata_requirements context with
  | None => 0.5
  | Some reqs =>
      if decide (reqs = ∅) then 0.5
      else
        let matches :=
          sum_R (map (fun kv => requirement_match candidate (fst kv) (snd kv))
                     (map_to_list reqs)) in
        let total_requirements := size reqs in
        if decide (0 < total_requirements)%nat
        then matches / INR total_requirements else 0.5
  end.

(** [if not s] on an optional string. *)
Definition falsy (o : option string) : bool :=
  match o with
  | None => true
  | Some s => String.eqb s ""
  end.

(** [_calculate_content_type_match] *)
Definition _calculate_content_type_match (candidate : MemoryCandidate)
    (context : ScoringContext) : R :=
  if falsy (content_type_preference context) then 0.5
  else
    let content_lower := Text.lower (content candidate) in
    let patterns :=
      table_get content_type_patterns (default "" (content_type_preference context)) [] in
    let matches :=
      List.length (List.filter (fun p => Text.search (Text.re p) content_lower) patterns) in
    match patterns with
    | [] => 0.0
    | _ => Rmin 1.0 (INR matches / INR (List.length patterns))
    end.

(** [_calculate_technology_alignment] *)
Definition tech_found (candidate : MemoryCandidate) (target_tech : string) : bool :=
  let content_lower := Text.lower (content candidate) in
  let tags_lower := map Text.lower (tags candidate) in
  let tech_keywords :=
    table_get technology_keywords (Text.lower target_tech) [Text.lower target_tech] in
  let found_in_content := Py.any (fun k => Text.contains k content_lower) tech_keywords in
  let found_in_tags :=
    Py.any (fun k => Text.contains k (Text.join " " tags_lower)) tech_keywords in
  found_in_content || found_in_tags.

Definition _calculate_technology_alignment (candidate : MemoryCandidate)
    (context : ScoringContext) : R :=
  if decide (target_technologies context = ∅) then 0.5
  else
    let aligned_techs :=
      List.length (List.filter (tech_found candidate)
                     (elements (target_technologies context))) in
    let total_target_techs := size (target_technologies context) in
    if decide (0 < total_target_techs)%nat
    then INR aligned_techs / INR total_target_techs else 0.5.

(** [key in context.contextual_factors], behind the truth test of the dict. *)
Definition factor (context : ScoringContext) (f : ContextualFactor) : option string :=
  match contextual_factors context with
  | None => None
  | Some factors => factors !! f
  end.

(** [_calculate_contextual_similarity] *)
Definition _calculate_contextual_similarity (candidate : MemoryCandidate)
    (context : ScoringContext) : R :=
  let score := 0.5 in
  let score :=
    match factor context TASK_CATEGORY with
    | Some target_category =>
        let score :=
          if Text.contains (Text.lower target_category) (Text.lower (content candidate))
          then score + 0.2 else score in
        if decide (Text.lower target_category ∈ map Text.lower (tags candidate))
        then score + 0.3 else score
    | None => score
    end in
  let score :=
    match factor context ERROR_CONTEXT with
    | Some _ =>
        let error_indicators := ["error"; "exception"; "fix"; "debug"; "solution"] in
        let content_lower := Text.lower (content candidate) in
        if Py.any (fun i => Text.contains i content_lower) error_indicators
        then score + 0.3 else score
    | None => score
    end in
  Rmin 1.0 score.

(** [_calculate_usage_frequency]; [math.log] is [ln]. *)
Definition _calculate_usage_frequency (candidate : MemoryCandidate)
    (context : ScoringContext) : R :=
  if decide (usage_count candidate <= 0)%Z then 0.0
  else Rmin 1.0 (ln (IZR (usage_count candidate + 1)) / ln 10).

Definition complexity_content_indicators : list (string * list string) :=
  [ ("simple", ["simple"; "basic"; "easy"; "straightforward"]);
    ("complex", ["complex"; "advanced"; "sophisticated"; "intricate"]) ].

Definition stage_keywords : list (string * list string) :=
  [ ("planning", ["plan"; "design"; "architecture"; "strategy"]);
    ("development", ["implement"; "code"; "build"; "develop"]);
    ("testing", ["test"; "verify"; "validate"; "check"]);
    ("deployment", ["deploy"; "release"; "production"; "launch"]);
    ("maintenance", ["maintain"; "update"; "patch"; "fix"]) ].

(** [key in table] and [table[key]] in one lookup. *)
Definition table_find {V : Type} (table : list (string * V)) (key : string) : option V :=
  snd <$> List.find (fun e => String.eqb (fst e) key) table.

(** [datetime.now() - candidate.timestamp]: the subtraction is not defined
    when the timestamp is [None]. *)
Definition time_diff_days (now : Z) (candidate : MemoryCandidate) : result Z :=
  match timestamp candidate with
  | Some ts => Ok (days_between now ts)
  | None =>
      Raise (TypeError
        "unsupported operand type(s) for -: 'datetime.datetime' and 'NoneType'")
  end.

(** The four adjustments of [_apply_contextual_adjustments], in the order
    of the source; each takes the score and the new boosters or penalties
    collected so far. *)
Definition urgency_adjustment (now : Z) (candidate : MemoryCandidate)
    (context : ScoringContext) (adjusted_score : R) : result (R * list string) :=
  match factor context URGENCY_LEVEL with
  | Some urgency =>
      if String.eqb urgency "high" then
        days ← time_diff_days now candidate;
        if decide (days <= 7)%Z
        then Ok (adjusted_score + 0.1, ["Recent memory for urgent task"])
        else Ok (adjusted_score, [])
      else Ok (adjusted_score, [])
  | None => Ok (adjusted_score, [])
  end.

Definition complexity_adjustment (candidate : MemoryCandidate)
    (context : ScoringContext) (adjusted_score : R) (new_boosters : list string)
    : R * list string :=
  match factor context COMPLEXITY_LEVEL with
  | Some complexity =>
      let content_lower := Text.lower (content candidate) in
      match table_find complexity_content_indicators complexity with
      | Some indicators =>
          if Py.any (fun i => Text.contains i content_lower) indicators
          then (adjusted_score + 0.05,
                new_boosters ++ [("Complexity alignment (" ++ complexity ++ ")")%string])
          else (adjusted_score, new_boosters)
      | None => (adjusted_score, new_boosters)
      end
  | None => (adjusted_score, new_boosters)
  end.

Definition domain_adjustment (candidate : MemoryCandidate)
    (context : ScoringContext) (adjusted_score : R) : R * list string :=
  match factor context DOMAIN_SPECIFICITY with
  | Some domain =>
      if negb (String.eqb domain "")
         && negb (Text.contains (Text.lower domain) (Text.lower (content candidate)))
      then (adjusted_score - 0.05, ["Domain mismatch"])
      else (adjusted_score, [])
  | None => (adjusted_score, [])
  end.

Definition stage_adjustment (candidate : MemoryCandidate)
    (context : ScoringContext) (adjusted_score : R) (new_boosters : list string)
    : R * list string :=
  match factor context IMPLEMENTATION_STAGE with
  | Some stage =>
      match table_find stage_keywords stage with
      | Some keywords =>
          let content_lower := Text.lower (content candidate) in
          if Py.any (fun k => Text.contains k content_lower) keywords
          then (adjusted_score + 0.08,
                new_boosters ++ [("Implementation stage match (" ++ stage ++ ")")%string])
          else (adjusted_score, new_boosters)
      | None => (adjusted_score, new_boosters)
      end
  | None => (adjusted_score, new_boosters)
  end.

(** [_apply_contextual_adjustments]: the adjusted score, the new boosters
    and the new penalties. *)
Definition _apply_contextual_adjustments (now : Z) (base_score : R)
    (candidate : MemoryCandidate) (context : ScoringContext)
    : result (R * list string * list string) :=
  urgent ← urgency_adjustment now candidate context base_score;
  let complex := complexity_adjustment candidate context urgent.1 urgent.2 in
  let domain := domain_adjustment candidate context complex.1 in
  let stage := stage_adjustment candidate context domain.1 complex.2 in
  Ok (stage.1, stage.2, domain.2).

Definition Rgtb (x y : R) : bool := if Rgt_dec x y then true else false.
Definition Rltb (x y : R) : bool := if Rlt_dec x y then true else false.
Definition Rleb (x y : R) : bool := if Rle_dec x y then true else false.

(** [_calculate_confidence] *)
Definition _calculate_confidence (dimension_scores : list (ScoreDimension * R))
    (total_score : R) : R :=
  let high_scores := List.length (List.filter (fun e => Rgtb (snd e) 0.7) dimension_scores) in
  let low_scores := List.length (List.filter (fun e => Rltb (snd e) 0.3) dimension_scores) in
  let base_confidence :=
    if (3 <=? high_scores)%nat then 0.9
    else if (2 <=? high_scores)%nat then 0.8
    else if (4 <=? low_scores)%nat then 0.4
    else 0.6 in
  if Rgtb total_score 0.9 || Rltb total_score 0.1
  then base_confidence * 0.9 else base_confidence.

(** [_generate_reasoning] *)
Definition _generate_reasoning (dimension_scores : list (ScoreDimension * R))
    (boosters penalties : list string) : list reason :=
  let sorted_dimensions :=
    Py.sort_by (fun x y => Rleb (snd y) (snd x)) dimension_scores in
  let top_dimensions := take 3 sorted_dimensions in
  let strong :=
    map (fun e => StrongContribution (fst e) (snd e))
        (List.filter (fun e => Rgtb (snd e) 0.6) top_dimensions) in
  let positive :=
    match boosters with
    | [] => []
    | _ => [ReasonText ("Positive factors: " ++ Text.join ", " (take 3 boosters))%string]
    end in
  let limiting :=
    match penalties with
    | [] => []
    | _ => [ReasonText ("Limiting factors: " ++ Text.join ", " (take 2 penalties))%string]
    end in
  strong ++ positive ++ limiting.

(** [score_relevance]; [now_t] and [now_a] are the clock readings taken in
    [_calculate_temporal_relevance] and in [_apply_contextual_adjustments].
    [weights] is [None] when the caller leaves it out. *)
Definition score_relevance (now_t now_a : Z) (candidate : MemoryCandidate)
    (context : ScoringContext) (weights : option ScoringWeights)
    : result RelevanceScore :=
  let weights := default default_weights weights in
  let semantic_score := base_similarity_score candidate in
  let boosters :=
    if Rgtb semantic_score 0.8 then ["High semantic similarity"] else [] in
  let penalties :=
    if Rgtb semantic_score 0.8 then []
    else if Rltb semantic_score 0.3 then ["Low semantic similarity"] else [] in
  let temporal_score := _calculate_temporal_relevance now_t candidate context in
  let tag_score := _calculate_tag_overlap candidate context in
  let boosters :=
    if Rgtb tag_score 0.7 then boosters ++ ["Strong tag alignment"] else boosters in
  let metadata_score := _calculate_metadata_match candidate context in
  let content_type_score := _calculate_content_type_match candidate context in
  let tech_score := _calculate_technology_alignment candidate context in
  let boosters :=
    if Rgtb tech_score 0.8 then boosters ++ ["Perfect technology match"] else boosters in
  let contextual_score := _calculate_contextual_similarity candidate context in
  let usage_score := _calculate_usage_frequency candidate context in
  let dimension_scores :=
    [ (SEMANTIC_SIMILARITY, semantic_score);
      (TEMPORAL_RELEVANCE, temporal_score);
      (TAG_OVERLAP, tag_score);
      (METADATA_MATCH, metadata_score);
      (CONTENT_TYPE_MATCH, content_type_score);
      (TECHNOLOGY_ALIGNMENT, tech_score);
      (CONTEXTUAL_SIMILARITY, contextual_score);
      (USAGE_FREQUENCY, usage_score) ] in
  let total_score :=
    semantic_score * semantic_similarity weights +
    temporal_score * temporal_relevance weights +
    tag_score * tag_overlap weights +
    metadata_score * metadata_match weights +
    content_type_score * content_type_match weights +
    tech_score * technology_alignment weights +
    contextual_score * contextual_similarity weights +
    usage_score * usage_frequency weights in
  adjusted ← _apply_contextual_adjustments now_a total_score candidate context;
  let total_score := adjusted.1.1 in
  let boosters := boosters ++ adjusted.1.2 in
  let penalties := penalties ++ adjusted.2 in
  let confidence := _calculate_confidence dimension_scores total_score in
  let reasoning := _generate_reasoning dimension_scores boosters penalties in
  Ok {| total_score := Rmin 1.0 (Rmax 0.0 total_score);
        dimension_scores := dimension_scores;
        confidence := confidence;
        reasoning := reasoning;
        boosters := boosters;
        penalties := penalties |}.

(** [dimension_scores[d]] *)
Definition dimension (s : RelevanceScore) (d : ScoreDimension) : R :=
  match List.find (fun e => bool_decide (fst e = d)) (dimension_scores s) with
  | Some e => snd e
  | None => 0
  end.

(** [get_optimal_weights_for_context]: each test overwrites fields of the
    default profile. *)
Definition get_optimal_weights_for_context (context : ScoringContext) : ScoringWeights :=
  let w := default_weights in
  let w :=
    if decide (temporal_preference context = Some "recent") then
      {| semantic_similarity := 0.25; temporal_relevance := 0.25;
         tag_overlap := tag_overlap w; metadata_match := metadata_match w;
         content_type_match := content_type_match w;
         technology_alignment := technology_alignment w;
         contextual_similarity := contextual_similarity w;
         usage_frequency := usage_frequency w |}
    else w in
  let w :=
    if negb (falsy (content_type_preference context)) then
      {| semantic_similarity := 0.25; temporal_relevance := temporal_relevance w;
         tag_overlap := tag_overlap w; metadata_match := metadata_match w;
         content_type_match := 0.20;
         technology_alignment := technology_alignment w;
         contextual_similarity := contextual_similarity w;
         usage_frequency := usage_frequency w |}
    else w in
  let w :=
    if decide (target_technologies context = ∅) then w
    else
      {| semantic_similarity := semantic_similarity w;
         temporal_relevance := temporal_relevance w;
         tag_overlap := 0.25; metadata_match := metadata_match w;
         content_type_match := content_type_match w;
         technology_alignment := 0.20;
         contextual_similarity := contextual_similarity w;
         usage_frequency := usage_frequency w |} in
  match factor context ERROR_CONTEXT with
  | Some _ =>
      {| semantic_similarity := 0.40; temporal_relevance := 0.10;
         tag_overlap := tag_overlap w; metadata_match := metadata_match w;
         content_type_match := 0.25;
         technology_alignment := technology_alignment w;
         contextual_similarity := contextual_similarity w;
         usage_frequency := usage_frequency w |}
  | None => w
  end.

Definition weights_sum (w : ScoringWeights) : R :=
  semantic_similarity w + temporal_relevance w + tag_overlap w + metadata_match w
  + content_type_match w + technology_alignment w + contextual_similarity w
  + usage_frequency w.

(** *** Vocabulary and sample data of the properties *)

Definition unit_interval (x : R) : Prop := 0 <= x <= 1.

Definition default_preference (context : ScoringContext) : Prop :=
  temporal_preference context = None ∨ temporal_preference context = Some "any".

(** The step function of the default branch. *)
Definition default_steps (days : Z) : R :=
  if decide (days <= 7)%Z then 1.0
  else if decide (days <= 30)%Z then 0.9
  else if decide (days <= 90)%Z then 0.8
  else if decide (days <= 365)%Z then 0.6
  else 0.4.

Definition urgent (context : ScoringContext) : Prop :=
  factor context URGENCY_LEVEL = Some "high".

#[global] Instance urgent_dec context : Decision (urgent context).
Proof. unfold urgent. apply _. Defined.

Definition missing_timestamp_error : exn :=
  TypeError "unsupported operand type(s) for -: 'datetime.datetime' and 'NoneType'".

Definition computed_dimension (now_t : Z) (candidate : MemoryCandidate)
    (context : ScoringContext) (d : ScoreDimension) : R :=
  match d with
  | SEMANTIC_SIMILARITY => base_similarity_score candidate
  | TEMPORAL_RELEVANCE => _calculate_temporal_relevance now_t candidate context
  | TAG_OVERLAP => _calculate_tag_overlap candidate context
  | METADATA_MATCH => _calculate_metadata_match candidate context
  | CONTENT_TYPE_MATCH => _calculate_content_type_match candidate context
  | TECHNOLOGY_ALIGNMENT => _calculate_technology_alignment candidate context
  | CONTEXTUAL_SIMILARITY => _calculate_contextual_similarity candidate context
  | USAGE_FREQUENCY => _calculate_usage_frequency candidate context
  end.

Definition plain_context : ScoringContext :=
  {| query_text := "database migration";
     query_tags := ["Python"; "API"];
     target_technologies := ∅;
     task_category := "implementation";
     content_type_preference := None;
     temporal_preference := None;
     metadata_requirements := None;
     contextual_factors := None |}.

Definition with_preference (p : string) : ScoringContext :=
  {| query_text := "database migration";
     query_tags := ["Python"; "API"];
     target_technologies := ∅;
     task_category := "implementation";
     content_type_preference := None;
     temporal_preference := Some p;
     metadata_requirements := None;
     contextual_factors := None |}.

Definition with_factor (f : ContextualFactor) (v : string) : ScoringContext :=
  {| query_text := "database migration";
     query_tags := ["Python"; "API"];
     target_technologies := ∅;
     task_category := "implementation";
     content_type_preference := None;
     temporal_preference := None;
     metadata_requirements := None;
     contextual_factors := Some {[ f := v ]} |}.

Definition day : Z := microseconds_per_day.

(** The clock of the examples: day 1000. *)
Definition today : Z := 1000 * day.

Definition memory (tags : list string) (ts : option Z) (similarity : R)
    : MemoryCandidate :=
  {| content := "Use incremental migrations";
     tags := tags;
     metadata := ∅;
     timestamp := ts;
     content_hash := "abc";
     base_similarity_score := similarity;
     usage_count := 0 |}.

(** The timestamp is not later than the clock when the preference is
    "recent". *)
Definition not_from_the_future (now : Z) (candidate : MemoryCandidate)
    (context : ScoringContext) : Prop :=
  ∀ ts, timestamp candidate = Some ts →
        temporal_preference context = Some "recent" → (ts <= now)%Z.

Definition two_day_old : MemoryCandidate :=
  memory ["python"; "api"] (Some (today - 2 * day)%Z) 0.9.

Definition scored (candidate : MemoryCandidate) (context : ScoringContext)
    : RelevanceScore :=
  match score_relevance today today candidate context None with
  | Ok s => s
  | Raise _ =>
      {| total_score := 0; dimension_scores := []; confidence := 0;
         reasoning := []; boosters := []; penalties := [] |}
  end.

Definition yesterday : MemoryCandidate := memory ["python"] (Some (today - day)%Z) 0.5.
Definition two_years_ago : MemoryCandidate :=
  memory ["python"] (Some (today - 730 * day)%Z) 0.5.

(** *** Scoring a batch *)

(** [score_relevance] on each candidate in turn; [readings i] are the
    two clock readings taken for the [i]-th candidate. *)
Fixpoint score_all (readings : nat → Z * Z) (i : nat)
    (candidates : list MemoryCandidate) (context : ScoringContext)
    (weights : option ScoringWeights)
    : result (list (MemoryCandidate * RelevanceScore)) :=
  match candidates with
  | [] => Ok []
  | candidate :: rest =>
      score ← score_relevance (readings i).1 (readings i).2 candidate context weights;
      more ← score_all readings (S i) rest context weights;
      Ok ((candidate, score) :: more)
  end.

(** The comparison of [scored_candidates.sort(..., reverse=True)]. *)
Definition higher_first (x y : MemoryCandidate * RelevanceScore) : bool :=
  Rleb (total_score y.2) (total_score x.2).

(** [batch_score_candidates] *)
Definition batch_score_candidates (readings : nat → Z * Z)
    (candidates : list MemoryCandidate) (context : ScoringContext)
    (weights : option ScoringWeights)
    : result (list (MemoryCandidate * RelevanceScore)) :=
  scored_candidates ← score_all readings 0 candidates context weights;
  Ok (Py.sort_by higher_first scored_candidates).

(** A candidate that [score_relevance] can score in the context. *)
Definition scorable (context : ScoringContext) (candidate : MemoryCandidate) : Prop :=
  timestamp candidate ≠ None ∨ ¬ urgent context.

(** No adjustment of [get_optimal_weights_for_context] applies. *)
Definition unadjusted (context : ScoringContext) : Prop :=
  temporal_preference context ≠ Some "recent"
  ∧ falsy (content_type_preference context) = true
  ∧ target_technologies context = ∅
  ∧ factor context ERROR_CONTEXT = None.

(** The candidate meets a requirement in full. *)
Definition satisfied (candidate : MemoryCandidate) (key : string)
    (expected : MetaValue) : Prop :=
  match expected with
  | MAtom e => metadata candidate !! key = Some (MAtom e)
  | MList l => ∃ a, metadata candidate !! key = Some (MAtom a) ∧ a ∈ l
  end.

Definition with_requirements (reqs : gmap string MetaValue) : ScoringContext :=
  {| query_text := "database migration";
     query_tags := ["Python"; "API"];
     target_technologies := ∅;
     task_category := "implementation";
     content_type_preference := None;
     temporal_preference := None;
     metadata_requirements := Some reqs;
     contextual_factors := None |}.

Definition with_metadata (m : gmap string MetaValue) : MemoryCandidate :=
  {| content := "Use incremental migrations";
     tags := ["python"];
     metadata := m;
     timestamp := None;
     content_hash := "abc";
     base_similarity_score := 0.5;
     usage_count := 0 |}.

Definition used (n : Z) : MemoryCandidate :=
  {| content := "Use incremental migrations";
     tags := ["python"];
     metadata := ∅;
     timestamp := None;
     content_hash := "abc";
     base_similarity_score := 0.5;
     usage_count := n |}.

(** The first of two scored candidates has the higher total, or the same. *)
Definition not_below (x y : MemoryCandidate * RelevanceScore) : Prop :=
  total_score y.2 <= total_score x.2.

End RelevanceScorer.

(** ** context_builder.py *)

Module ContextBuilder.

Import TaskDecomposer.

Inductive ContextSectionType : Type :=
| OVERVIEW | S_SIMILAR_IMPLEMENTATIONS | S_BEST_PRACTICES | S_COMMON_PITFALLS
| S_TECHNICAL_PATTERNS | S_ERROR_SOLUTIONS | S_TESTING_STRATEGIES
| S_CONFIGURATION_EXAMPLES | S_PERFORMANCE_CONSIDERATIONS | S_SECURITY_PRACTICES
| S_ARCHITECTURAL_DECISIONS | RECENT_RELATED_WORK.

#[global] Instance ContextSectionType_eq_dec : EqDecision ContextSectionType.
Proof. solve_decision. Defined.

Definition Meta : Type := list (string * string).

(** The text of an item: what the store returned, or the overview block,
    kept as the values its template is filled with. *)
Inductive Content : Type :=
| Plain (s : string)
| OverviewBlock (task : string) (total_items : nat) (avg_relevance : Q)
    (technologies : list string) (duration : string) (coverage : string)
    (risks : list string).

Record ContextItem : Type := {
  content : Content;
  source_hash : string;
  relevance_score : Q;
  item_context_type : ContextType;
  item_tags : list string;
  timestamp : Z;
  memory_metadata : Meta
}.

Record ContextSection : Type := {
  section_type : ContextSectionType;
  title : string;
  items : list ContextItem;
  section_priority : Priority;
  summary : option string
}.

Record DecompositionSummary : Type := {
  summary_category : string;
  summary_technologies : list string;
  components_count : nat;
  summary_estimated_duration : string;
  summary_risk_factors : list string
}.

Record AssemblyMetadata : Type := {
  assembly_time_ms : Q;
  total_memory_results : nat;
  sections_created : nat;
  highest_relevance : Q;
  technologies_covered : list string;
  context_types_found : list string
}.

Record AssembledContext : Type := {
  task_description : string;
  decomposition_summary : DecompositionSummary;
  sections : list ContextSection;
  total_items : nat;
  assembly_metadata : AssemblyMetadata;
  created_at : Z;
  estimated_relevance : Q
}.

(** A value stored under ["score"] or ["similarity"]: a number, or
    something [float] rejects. *)
Inductive RawScore : Type :=
| Number (q : Q)
| NotANumber.

(** One search result, a dict; a field is [None] when the key is absent. *)
Record RawResult : Type := {
  raw_content : option string;
  raw_metadata : option Meta;
  raw_tags : option (list string);
  raw_timestamp : option string;
  raw_created_at : option string;
  raw_score : option RawScore;
  raw_similarity : option RawScore;
  raw_hash : option string;
  raw_id : option string
}.

(** [_initialize_context_mappings] *)
Definition context_type_mappings (t : ContextType) : option ContextSectionType :=
  match t with
  | SIMILAR_IMPLEMENTATIONS => Some S_SIMILAR_IMPLEMENTATIONS
  | BEST_PRACTICES => Some S_BEST_PRACTICES
  | COMMON_PITFALLS => Some S_COMMON_PITFALLS
  | TECHNICAL_PATTERNS => Some S_TECHNICAL_PATTERNS
  | ERROR_SOLUTIONS => Some S_ERROR_SOLUTIONS
  | TESTING_STRATEGIES => Some S_TESTING_STRATEGIES
  | CONFIGURATION_EXAMPLES => Some S_CONFIGURATION_EXAMPLES
  | PERFORMANCE_CONSIDERATIONS => Some S_PERFORMANCE_CONSIDERATIONS
  | SECURITY_PRACTICES => Some S_SECURITY_PRACTICES
  | ARCHITECTURAL_DECISIONS => Some S_ARCHITECTURAL_DECISIONS
  end.

(** [_initialize_section_priorities] *)
Definition section_priorities (s : ContextSectionType) : Priority :=
  match s with
  | OVERVIEW => CRITICAL
  | S_SIMILAR_IMPLEMENTATIONS => CRITICAL
  | S_BEST_PRACTICES => HIGH
  | S_TECHNICAL_PATTERNS => HIGH
  | S_COMMON_PITFALLS => HIGH
  | S_ERROR_SOLUTIONS => HIGH
  | S_TESTING_STRATEGIES => MEDIUM
  | S_CONFIGURATION_EXAMPLES => MEDIUM
  | S_PERFORMANCE_CONSIDERATIONS => MEDIUM
  | S_SECURITY_PRACTICES => MEDIUM
  | S_ARCHITECTURAL_DECISIONS => MEDIUM
  | RECENT_RELATED_WORK => LOW
  end.

(** The titles of [_create_context_sections], without the pictograph
    that starts each of them in the source. *)
Definition section_titles (s : ContextSectionType) : string :=
  match s with
  | S_SIMILAR_IMPLEMENTATIONS => "Similar Implementations"
  | S_BEST_PRACTICES => "Best Practices"
  | S_COMMON_PITFALLS => "Common Pitfalls to Avoid"
  | S_TECHNICAL_PATTERNS => "Technical Patterns"
  | S_ERROR_SOLUTIONS => "Error Solutions"
  | S_TESTING_STRATEGIES => "Testing Strategies"
  | S_CONFIGURATION_EXAMPLES => "Configuration Examples"
  | S_PERFORMANCE_CONSIDERATIONS => "Performance Considerations"
  | S_SECURITY_PRACTICES => "Security Practices"
  | S_ARCHITECTURAL_DECISIONS => "Architectural Decisions"
  | OVERVIEW => "Overview"
  | RECENT_RELATED_WORK => "Recent Related Work"
  end.

(** [_get_max_items_for_section] *)
Definition _get_max_items_for_section (s : ContextSectionType) : nat :=
  match s with
  | S_SIMILAR_IMPLEMENTATIONS => 8
  | S_BEST_PRACTICES => 6
  | S_COMMON_PITFALLS => 5
  | S_TECHNICAL_PATTERNS => 6
  | S_ERROR_SOLUTIONS => 8
  | S_TESTING_STRATEGIES => 5
  | S_CONFIGURATION_EXAMPLES => 4
  | S_PERFORMANCE_CONSIDERATIONS => 4
  | S_SECURITY_PRACTICES => 4
  | S_ARCHITECTURAL_DECISIONS => 5
  | _ => 5
  end.

(** [_find_context_query] *)
Definition _find_context_query (query_id : string) (queries : list ContextQuery)
    : option ContextQuery :=
  let parsed :=
    if Text.contains "_" query_id
    then Text.parse_int (Text.last_piece "_" query_id)
    else Text.parse_int query_id in
  let by_index :=
    match parsed with
    | Some query_index =>
        if decide (0 ≤ query_index < Z.of_nat (List.length queries))%Z
        then queries !! Z.to_nat query_index else None
    | None => None
    end in
  match by_index with
  | Some q => Some q
  | None => head queries
  end.

(** [items.sort(key=lambda x: x.relevance_score, reverse=True)] *)
Definition sort_by_relevance (l : list ContextItem) : list ContextItem :=
  Py.sort_by (fun x y => Qle_bool (relevance_score y) (relevance_score x)) l.

(** [_group_items_by_section]: the dict, in the order its keys were added. *)
Fixpoint add_to_group (s : ContextSectionType) (item : ContextItem)
    (groups : list (ContextSectionType * list ContextItem))
    : list (ContextSectionType * list ContextItem) :=
  match groups with
  | [] => [(s, [item])]
  | (s', l) :: rest =>
      if decide (s' = s) then (s', l ++ [item]) :: rest
      else (s', l) :: add_to_group s item rest
  end.

Definition _group_items_by_section (context_items : list ContextItem)
    : list (ContextSectionType * list ContextItem) :=
  foldl (fun sections_data item =>
           match context_type_mappings (item_context_type item) with
           | Some s => add_to_group s item sections_data
           | None => sections_data
           end)
        [] context_items.

(** Tag counts in the order of first occurrence. *)
Fixpoint count_tag (tag : string) (counts : list (string * nat)) : list (string * nat) :=
  match counts with
  | [] => [(tag, 1)]
  | (t, n) :: rest =>
      if String.eqb t tag then (t, S n) :: rest else (t, n) :: count_tag tag rest
  end.

Definition by_count_descending (counts : list (string * nat)) : list (string * nat) :=
  Py.sort_by (fun x y => snd y <=? snd x) counts.

(** [_generate_section_summary] *)
Definition _generate_section_summary (s : ContextSectionType)
    (items : list ContextItem) : option string :=
  match items with
  | [] => None
  | _ =>
      let all_tags := List.concat (map item_tags items) in
      let high_relevance_items :=
        List.filter (fun i => negb (Qle_bool (relevance_score i) 0.6)) items in
      let tag_counts := foldl (fun counts tag => count_tag tag counts) [] all_tags in
      let common_tags := map fst (take 3 (by_count_descending tag_counts)) in
      let n : string := pretty (List.length items) in
      let h : string := pretty (List.length high_relevance_items) in
      Some
        match s with
        | S_SIMILAR_IMPLEMENTATIONS =>
            "Found " ++ n ++ " similar implementations, focusing on "
            ++ Text.join ", " common_tags
        | S_BEST_PRACTICES =>
            n ++ " best practices identified, with " ++ h
            ++ " highly relevant recommendations"
        | S_COMMON_PITFALLS =>
            n ++ " potential pitfalls to avoid, particularly around "
            ++ Text.join ", " (take 2 common_tags)
        | S_ERROR_SOLUTIONS =>
            n ++ " error solutions found with " ++ h ++ " highly relevant fixes"
        | S_TESTING_STRATEGIES =>
            n ++ " testing approaches covering " ++ Text.join ", " (take 2 common_tags)
        | _ => n ++ " relevant items found"
        end%string
  end.

(** [_create_context_sections] *)
Definition _create_context_sections
    (sections_data : list (ContextSectionType * list ContextItem))
    : list ContextSection :=
  List.concat
    (map (fun entry : ContextSectionType * list ContextItem =>
            let (s, items) := entry in
            match items with
            | [] => []
            | _ =>
                let sorted := sort_by_relevance items in
                let limited_items := take (_get_max_items_for_section s) sorted in
                [ {| section_type := s;
                     title := section_titles s;
                     items := limited_items;
                     section_priority := section_priorities s;
                     summary := _generate_section_summary s limited_items |} ]
            end)
         sections_data).

(** [_generate_coverage_summary] *)
Definition _generate_coverage_summary (context_items : list ContextItem) : string :=
  let names :=
    map (fun i => Text.title (Text.replace_char "_" " " (ContextType_value (item_context_type i))))
        context_items in
  let context_type_counts := foldl (fun counts n => count_tag n counts) [] names in
  let coverage_lines :=
    map (fun e : string * nat =>
           ("- " ++ fst e ++ ": " ++ pretty (snd e) ++ " items")%string)
        (by_count_descending context_type_counts) in
  Text.join Text.nl (take 6 coverage_lines).

Definition sum_Q (l : list Q) : Q := foldr Qplus 0%Q l.

Section Assemble.

(** [datetime.now()]: the calls made during one assembly are taken at
    the same instant. *)
Variable now : Z.

(** [datetime.strptime(text, format)] of the standard library, in
    microseconds; [None] stands for [ValueError]. *)
Variable strptime : string → string → option Z.

(** [_parse_timestamp] *)
Definition _parse_timestamp (timestamp_str : string) : Z :=
  if String.eqb timestamp_str "" then now
  else
    let text := Text.take 19 timestamp_str in
    match strptime text "%Y-%m-%dT%H:%M:%S" with
    | Some t => t
    | None =>
        match strptime text "%Y-%m-%d %H:%M:%S" with
        | Some t => t
        | None =>
            match strptime text "%Y-%m-%d" with
            | Some t => t
            | None => now
            end
        end
    end.

(** [d.get(k1, d.get(k2, default))] *)
Definition get2 {A : Type} (first second : option A) (d : A) : A :=
  match first with
  | Some v => v
  | None => default d second
  end.

(** [float(x)]; [None] stands for the exception. *)
Definition to_float (x : RawScore) : option Q :=
  match x with
  | Number q => Some q
  | NotANumber => None
  end.

(** The body of the inner loop of [_parse_memory_results]: an item, or
    nothing when [float] raised and the [except] clause skipped the
    result. *)
Definition parse_result (q : ContextQuery) (r : RawResult) : list ContextItem :=
  let content := default "" (raw_content r) in
  let metadata := default [] (raw_metadata r) in
  let tags := default [] (raw_tags r) in
  let timestamp_str := get2 (raw_timestamp r) (raw_created_at r) "" in
  let timestamp := _parse_timestamp timestamp_str in
  let relevance := get2 (raw_score r) (raw_similarity r) (Number 0.5) in
  match to_float relevance with
  | Some score =>
      [ {| content := Plain content;
           source_hash := get2 (raw_hash r) (raw_id r) "";
           relevance_score := score;
           item_context_type := context_type q;
           item_tags := tags;
           timestamp := timestamp;
           memory_metadata := metadata |} ]
  | None => []
  end.

(** [_parse_memory_results] *)
Definition _parse_memory_results (memory_results : list (string * list RawResult))
    (decomposition : TaskDecomposition) : list ContextItem :=
  let context_items :=
    List.concat
      (map (fun entry : string * list RawResult =>
              let (query_id, results) := entry in
              match _find_context_query query_id (context_queries decomposition) with
              | None => []
              | Some q => List.concat (map (parse_result q) results)
              end)
           memory_results) in
  sort_by_relevance context_items.

(** [_create_overview_section] *)
Definition _create_overview_section (context_items : list ContextItem)
    (decomposition : TaskDecomposition) : ContextSection :=
  let total := List.length context_items in
  let avg_relevance :=
    (sum_Q (map relevance_score context_items)
     / inject_Z (Z.of_nat (Nat.max total 1)))%Q in
  let technologies := elements (technologies_involved decomposition) in
  let overview_content :=
    OverviewBlock (original_task decomposition) total avg_relevance technologies
      (estimated_duration decomposition)
      (_generate_coverage_summary context_items)
      (risk_factors decomposition) in
  let overview_item :=
    {| content := overview_content;
       source_hash := "overview_generated";
       relevance_score := 1.0;
       item_context_type := TECHNICAL_PATTERNS;
       item_tags := technologies ++ [TaskCategory_value (primary_category decomposition)];
       timestamp := now;
       memory_metadata := [("generated", "True"); ("type", "overview")] |} in
  {| section_type := OVERVIEW;
     title := "Task Context Overview";
     items := [overview_item];
     section_priority := CRITICAL;
     summary := Some "Generated overview of available context" |}.

Definition thirty_days : Z := 30 * 86400000000.

(** [_add_special_sections] *)
Definition _add_special_sections (sections : list ContextSection)
    (context_items : list ContextItem) (decomposition : TaskDecomposition)
    : list ContextSection :=
  let overview_section := _create_overview_section context_items decomposition in
  let sections := overview_section :: sections in
  let recent_items :=
    List.filter (fun i => (now - thirty_days <? timestamp i)%Z) context_items in
  match recent_items with
  | [] => sections
  | _ =>
      sections ++
      [ {| section_type := RECENT_RELATED_WORK;
           title := "Recent Related Work";
           items := take 5 recent_items;
           section_priority := LOW;
           summary := Some ("Recent work from the last 30 days ("
                            ++ pretty (List.length recent_items)
                            ++ " items found)")%string |} ]
  end.

(** [_calculate_overall_relevance] *)
Definition _calculate_overall_relevance (context_items : list ContextItem) : Q :=
  match context_items with
  | [] => 0%Q
  | _ =>
      let weighted_scores :=
        imap (fun i item =>
                let position_weight := (1.0 - inject_Z (Z.of_nat i) * 0.05)%Q in
                (relevance_score item
                 * (if Qle_bool position_weight 0.1 then 0.1 else position_weight))%Q)
             (take 20 context_items) in
      (sum_Q weighted_scores / inject_Z (Z.of_nat (List.length weighted_scores)))%Q
  end.

Definition sort_by_priority (sections : list ContextSection) : list ContextSection :=
  Py.sort_by (fun a b => (Priority_value (section_priority a)
                          <=? Priority_value (section_priority b))%Z) sections.

(** [max(l, default=0)] *)
Definition max_Q (l : list Q) : Q :=
  match l with
  | [] => 0%Q
  | x :: l' => foldl (fun m y => if Qle_bool y m then m else y) x l'
  end.

(** [assemble_context] *)
Definition assemble_context (decomposition : TaskDecomposition)
    (memory_results : list (string * list RawResult)) : AssembledContext :=
  let context_items := _parse_memory_results memory_results decomposition in
  let sections_data := _group_items_by_section context_items in
  let sections := _create_context_sections sections_data in
  let sections := _add_special_sections sections context_items decomposition in
  let sections := sort_by_priority sections in
  let overall_relevance := _calculate_overall_relevance context_items in
  let technologies := elements (technologies_involved decomposition) in
  {| task_description := original_task decomposition;
     decomposition_summary :=
       {| summary_category := TaskCategory_value (primary_category decomposition);
          summary_technologies := technologies;
          components_count := List.length (components decomposition);
          summary_estimated_duration := estimated_duration decomposition;
          summary_risk_factors := risk_factors decomposition |};
     sections := sections;
     total_items := List.length context_items;
     assembly_metadata :=
       {| assembly_time_ms := 0;
          total_memory_results :=
            Py.sum_nat (map (fun e => List.length (snd e)) memory_results);
          sections_created := List.length sections;
          highest_relevance := max_Q (map relevance_score context_items);
          technologies_covered := technologies;
          context_types_found :=
            elements (list_to_set
              (map (fun i => ContextType_value (item_context_type i)) context_items)
              : gset string) |};
     created_at := now;
     estimated_relevance := overall_relevance |}.

End Assemble.

(** *** Vocabulary and sample data of the properties *)

Definition populated (s : ContextSection) : Prop := items s ≠ [].

(** The values of the enum [ContextSectionType]. *)
Definition ContextSectionType_value (s : ContextSectionType) : string :=
  match s with
  | OVERVIEW => "overview"
  | S_SIMILAR_IMPLEMENTATIONS => "similar_implementations"
  | S_BEST_PRACTICES => "best_practices"
  | S_COMMON_PITFALLS => "common_pitfalls"
  | S_TECHNICAL_PATTERNS => "technical_patterns"
  | S_ERROR_SOLUTIONS => "error_solutions"
  | S_TESTING_STRATEGIES => "testing_strategies"
  | S_CONFIGURATION_EXAMPLES => "configuration_examples"
  | S_PERFORMANCE_CONSIDERATIONS => "performance_considerations"
  | S_SECURITY_PRACTICES => "security_practices"
  | S_ARCHITECTURAL_DECISIONS => "architectural_decisions"
  | RECENT_RELATED_WORK => "recent_related_work"
  end.

Record SectionStatistics : Type := {
  items_count : nat;
  avg_relevance : Q;
  stats_priority : Z
}.

Record OverviewStatistics : Type := {
  stats_total_items : nat;
  total_sections : nat;
  overall_relevance : Q;
  stats_assembly_time_ms : Q
}.

Record ContextStatistics : Type := {
  stats_overview : OverviewStatistics;
  stats_sections : list (string * SectionStatistics);
  stats_technologies : list string;
  stats_estimated_duration : string
}.

(** [d[k] = v] on a dict kept in the order its keys were added. *)
Fixpoint dict_set {V : Type} (k : string) (v : V) (d : list (string * V))
    : list (string * V) :=
  match d with
  | [] => [(k, v)]
  | (k', v') :: rest =>
      if String.eqb k' k then (k', v) :: rest else (k', v') :: dict_set k v rest
  end.

(** The entry [get_context_statistics] builds for one section; [None]
    stands for the [ZeroDivisionError] of the division by [len(section.items)]. *)
Definition section_statistics (section : ContextSection) : option SectionStatistics :=
  match items section with
  | [] => None
  | _ =>
      Some {| items_count := List.length (items section);
              avg_relevance :=
                (sum_Q (map relevance_score (items section))
                 / inject_Z (Z.of_nat (List.length (items section))))%Q;
              stats_priority := Priority_value (section_priority section) |}
  end.

(** The loop of [get_context_statistics]. *)
Fixpoint collect_section_stats (sections : list ContextSection)
    (section_stats : list (string * SectionStatistics))
    : option (list (string * SectionStatistics)) :=
  match sections with
  | [] => Some section_stats
  | section :: rest =>
      match section_statistics section with
      | None => None
      | Some entry =>
          collect_section_stats rest
            (dict_set (ContextSectionType_value (section_type section)) entry
                      section_stats)
      end
  end.

(** [get_context_statistics] *)
Definition get_context_statistics (assembled_context : AssembledContext)
    : option ContextStatistics :=
  match collect_section_stats (sections assembled_context) [] with
  | None => None
  | Some section_stats =>
      Some {| stats_overview :=
                {| stats_total_items := total_items assembled_context;
                   total_sections := List.length (sections assembled_context);
                   overall_relevance := estimated_relevance assembled_context;
                   stats_assembly_time_ms :=
                     assembly_time_ms (assembly_metadata assembled_context) |};
              stats_sections := section_stats;
              stats_technologies :=
                summary_technologies (decomposition_summary assembled_context);
              stats_estimated_duration :=
                summary_estimated_duration (decomposition_summary assembled_context) |}
  end.

(** No section of lower priority stands before one of higher priority. *)
Definition priority_order (a b : ContextSection) : Prop :=
  (Priority_value (section_priority a) ≤ Priority_value (section_priority b))%Z.

(** No item stands before one of higher relevance. *)
Definition relevance_order (x y : ContextItem) : Prop :=
  (relevance_score y <= relevance_score x)%Q.

Definition within_limit (s : ContextSection) : Prop :=
  (List.length (items s) ≤ _get_max_items_for_section (section_type s))%nat.

Definition relevance_in_unit (i : ContextItem) : Prop :=
  (0 <= relevance_score i)%Q ∧ (relevance_score i <= 1)%Q.

(** The score of a result is a number: [float] accepts it. *)
Definition usable (r : RawResult) : Prop :=
  is_Some (to_float (get2 (raw_score r) (raw_similarity r) (Number 0.5))).

(** The score of a result is a number of [0, 1]. *)
Definition scored_in_unit (r : RawResult) : Prop :=
  ∃ q, get2 (raw_score r) (raw_similarity r) (Number 0.5) = Number q
       ∧ (0 <= q)%Q ∧ (q <= 1)%Q.

(** A section with a title and no item, as a caller may build one. *)
Definition empty_section (s : ContextSectionType) : ContextSection :=
  {| section_type := s;
     title := section_titles s;
     items := [];
     section_priority := section_priorities s;
     summary := None |}.

(** A section type that some context type maps to. *)
Definition mapped (s : ContextSectionType) : Prop :=
  s ≠ OVERVIEW ∧ s ≠ RECENT_RELATED_WORK.

(** A query, a decomposition around given queries and a search result
    with a given score, as samples. *)
Definition sample_query : ContextQuery :=
  {| query_text := "flask endpoint";
     context_type := BEST_PRACTICES;
     priority := HIGH;
     tags := ["flask"];
     similarity_threshold := 0.5;
     max_results := 5 |}.

Definition sample_decomposition (queries : list ContextQuery) : TaskDecomposition :=
  {| original_task := "add a flask endpoint";
     primary_category := IMPLEMENTATION;
     components := [];
     context_queries := queries;
     technologies_involved := {["flask"]};
     estimated_duration := "1-2 hours";
     risk_factors := [];
     success_criteria := [] |}.

Definition sample_result (score : option RawScore) : RawResult :=
  {| raw_content := Some "use blueprints";
     raw_metadata := None;
     raw_tags := Some ["flask"];
     raw_timestamp := None;
     raw_created_at := None;
     raw_score := score;
     raw_similarity := None;
     raw_hash := Some "abc123";
     raw_id := None |}.

(** Every section has an item. *)
Definition all_populated (assembled_context : AssembledContext) : Prop :=
  Forall populated (sections assembled_context).

End ContextBuilder.

(** * Properties *)

(** ** The result type *)

Lemma bind_Ok {A B : Type} (m : result A) (k : A → result B) (b : B) :
  (m ≫= k) = Ok b → ∃ a, m = Ok a ∧ k a = Ok b.
Proof. destruct m as [a|e]; simpl; [eauto | discriminate]. Qed.

Lemma bind_Raise {A B : Type} (m : result A) (k : A → result B) (e : exn) :
  m = Raise e → (m ≫= k) = Raise e.
Proof. intros ->. reflexivity. Qed.

(** ** The stable sort *)

Module SortFacts.

Lemma insert_sorted_elem {A : Type} (leb : A → A → bool) (x y : A) (l : list A) :
  y ∈ Py.insert_sorted leb x l ↔ y = x ∨ y ∈ l.
Proof.
  induction l as [|z l IH]; simpl.
  - rewrite list_elem_of_singleton, elem_of_nil. tauto.
  - destruct (leb x z).
    + rewrite !elem_of_cons. tauto.
    + rewrite !elem_of_cons, IH. tauto.
Qed.

Lemma sort_by_elem {A : Type} (leb : A → A → bool) (y : A) (l : list A) :
  y ∈ Py.sort_by leb l ↔ y ∈ l.
Proof.
  unfold Py.sort_by. induction l as [|x l IH]; simpl.
  - reflexivity.
  - rewrite insert_sorted_elem, IH, elem_of_cons. tauto.
Qed.

Lemma sort_by_Forall {A : Type} (leb : A → A → bool) (P : A → Prop) (l : list A) :
  Forall P l → Forall P (Py.sort_by leb l).
Proof.
  rewrite !list.Forall_forall. intros H y Hy. apply H.
  apply sort_by_elem in Hy. exact Hy.
Qed.



End SortFacts.

(** ** The patterns of the sources *)

Module TextFacts.

(** Every pattern of the tables is in the subset of [re] that is modelled. *)
Lemma patterns_well_read :
  forallb (fun p => Text.well_read (Text.re p))
    (List.concat (map snd TaskDecomposer.technology_patterns)
     ++ List.concat (map snd TaskDecomposer.task_patterns)
     ++ map fst TaskDecomposer.complexity_indicators
     ++ map fst TaskDecomposer.risk_patterns
     ++ ["\band\b"; "\b\w+\b"]
     ++ Orchestrator.decision_indicators ++ Orchestrator.error_indicators
     ++ Orchestrator.task_indicators ++ Orchestrator.test_indicators
     ++ Orchestrator.context_indicators
     ++ List.concat (map snd RelevanceScorer.content_type_patterns))
  = true.
Proof. vm_compute. reflexivity. Qed.

(** [\b] separates word characters from the others, and a literal
    matches in either case. *)
Example search_word_boundary :
  Text.search (Text.re "\btest\b") "run the TEST now" = true
  ∧ Text.search (Text.re "\btest\b") "run the tests now" = false
  ∧ Text.search (Text.re "failed?") "it fails" = false
  ∧ Text.search (Text.re "failed?") "it failed" = true
  ∧ Text.search (Text.re "\bthird.?party\b") "a third-party api" = true.
Proof. vm_compute. repeat split. Qed.

Example findall_and_split :
  Text.findall (Text.re "\b\w+\b") "add a login_page, v2!" = ["add"; "a"; "login_page"; "v2"]
  ∧ Text.split (Text.re "\band\b") "build AND test, and sandbox"
    = ["build "; " test, "; " sandbox"].
Proof. vm_compute. repeat split. Qed.

End TextFacts.

(** ** task_decomposer.py *)

Module DecomposerFacts.

Import TaskDecomposer.

Lemma TaskCategory_has_no_PERFORMANCE :
  TaskCategory_attr "PERFORMANCE" = Raise performance_error.
Proof. reflexivity. Qed.

(** The chain of comparisons raises at the first component that is not a
    testing, debugging or security component. *)
Lemma component_criteria_raises (c : TaskComponent) (rest : list TaskComponent) :
  needs_performance (category c) = true →
  component_criteria (c :: rest) = Raise performance_error.
Proof.
  unfold needs_performance. intros H. simpl.
  destruct (decide (category c = TESTING)) as [E|_];
    [rewrite E in H; discriminate H|].
  destruct (decide (category c = DEBUGGING)) as [E|_];
    [rewrite E in H; discriminate H|].
  destruct (decide (category c = SECURITY)) as [E|_];
    [rewrite E in H; discriminate H|].
  reflexivity.
Qed.

Lemma make_component_category g text name c techs comp :
  make_component g text name c techs = Ok comp → category comp = c.
Proof.
  unfold make_component. intros H.
  apply bind_Ok in H as (terms & _ & H). injection H as <-. reflexivity.
Qed.

(** The first component is the whole task, with the primary category. *)
Lemma _identify_components_head g text c techs comps :
  _identify_components g text c techs = Ok comps →
  ∃ main rest, comps = main :: rest ∧ category main = c.
Proof.
  unfold _identify_components. intros H.
  apply bind_Ok in H as (main & Hmain & H).
  apply make_component_category in Hmain.
  destruct (Text.contains "and" (Text.lower text)).
  - apply bind_Ok in H as (subs & _ & H). injection H as <-. eauto.
  - injection H as <-. eauto.
Qed.

(** Whatever [_generate_search_terms] is, a task whose category is none of
    testing, debugging and security is not decomposed. *)
Lemma decompose_task_raises g text :
  needs_performance (_categorize_task text) = true →
  ∃ e, decompose_task g text = Raise e.
Proof.
  intros Hcat. unfold decompose_task.
  destruct (_identify_components g text (_categorize_task text)
              (_extract_technologies text)) as [comps|e] eqn:Hcomps;
    [|exists e; reflexivity].
  apply _identify_components_head in Hcomps as (main & rest & -> & Hmain).
  exists performance_error. simpl.
  unfold _generate_success_criteria.
  rewrite component_criteria_raises by (rewrite Hmain; exact Hcat).
  reflexivity.
Qed.

(** The class as written: the call of the undefined method is reached on
    every input. *)
Lemma decompose_task_undefined_method text :
  decompose_task undefined_method text = Raise search_terms_error.
Proof. reflexivity. Qed.

Lemma _categorize_task_empty : _categorize_task "" = IMPLEMENTATION.
Proof. vm_compute. reflexivity. Qed.

Lemma _extract_technologies_empty : _extract_technologies "" = ∅.
Proof. vm_compute. reflexivity. Qed.

(** C1.  [decompose_task] on the empty text does not return a
    decomposition: with the class as written the lookup of
    [_generate_search_terms] raises [AttributeError]; with any search-term
    helper in its place the call still raises, and when the helper
    returns, the error is the lookup of [TaskCategory.PERFORMANCE] in
    [_generate_success_criteria], reached because the default category
    IMPLEMENTATION is none of TESTING, DEBUGGING, SECURITY. *)
Theorem decompose_task_empty_raises :
  decompose_task undefined_method "" = Raise search_terms_error
  ∧ (∀ g, ∃ e, decompose_task g "" = Raise e)
  ∧ (∀ terms, decompose_task (fun _ _ => Ok terms) "" = Raise performance_error).
Proof.
  split; [reflexivity|]. split.
  - intros g. apply decompose_task_raises.
    rewrite _categorize_task_empty. reflexivity.
  - intros terms. vm_compute. reflexivity.
Qed.

End DecomposerFacts.

(** ** orchestrator.py *)

Module OrchestratorFacts.

Import Orchestrator.

Lemma scenario_A_decision :
  _contains_decision_content (Text.lower scenario_A) = true.
Proof. vm_compute. reflexivity. Qed.

(** No alternative of the task patterns occurs in the text; "use" is not
    one of them. *)
Lemma scenario_A_no_task :
  _contains_task_content (Text.lower scenario_A) = false.
Proof. vm_compute. reflexivity. Qed.

(** *** The loop of [execute_invocations] *)

Section Loop.

Variable now : nat → Z.

Lemma iteration_active (st : LoopState) (inv : AgentInvocation) :
  active_agents (self (iteration now st inv))
  = active_agents (self st) ∖ {[ agent_type inv ]}.
Proof.
  unfold iteration, try_body. simpl.
  destruct (decide (agent_type inv ∈ active_agents (self st))) as [Hin|Hout]; simpl.
  - reflexivity.
  - destruct (_execute_single_agent inv); simpl; set_solver.
Qed.

Lemma run_loop_active (invs : list AgentInvocation) (st : LoopState) :
  active_agents (self (run_loop now invs st))
  = active_agents (self st) ∖ list_to_set (map agent_type invs).
Proof.
  unfold run_loop. revert st.
  induction invs as [|inv invs IH]; intros st; simpl.
  - set_solver.
  - rewrite IH, iteration_active. set_solver.
Qed.

(** The simulated run reports success whenever it returns. *)
Lemma _execute_single_agent_success inv r :
  _execute_single_agent inv = Ok r → success r = true.
Proof.
  unfold _execute_single_agent. intros H.
  apply bind_Ok in H as (p & _ & H). injection H as <-. reflexivity.
Qed.

Lemma filter_success_snoc (rs : list AgentResult) (r : AgentResult) :
  List.filter success (rs ++ [r])
  = List.filter success rs ++ (if success r then [r] else []).
Proof. rewrite List.filter_app. reflexivity. Qed.

(** The history grows by the successful results, and by nothing else. *)
Lemma iteration_history (st : LoopState) (inv : AgentInvocation)
    (base : list AgentResult) :
  agent_history (self st) = base ++ List.filter success (results st) →
  agent_history (self (iteration now st inv))
  = base ++ List.filter success (results (iteration now st inv)).
Proof.
  intros H. unfold iteration, try_body. simpl.
  destruct (decide (agent_type inv ∈ active_agents (self st))); simpl; [exact H|].
  destruct (_execute_single_agent inv) as [r|e] eqn:Hr; simpl.
  - apply _execute_single_agent_success in Hr.
    rewrite filter_success_snoc. simpl. rewrite Hr, H, <- app_assoc. reflexivity.
  - rewrite filter_success_snoc. simpl. rewrite app_nil_r. exact H.
Qed.

Lemma run_loop_history (invs : list AgentInvocation) (st : LoopState)
    (base : list AgentResult) :
  agent_history (self st) = base ++ List.filter success (results st) →
  agent_history (self (run_loop now invs st))
  = base ++ List.filter success (results (run_loop now invs st)).
Proof.
  unfold run_loop. revert st.
  induction invs as [|inv invs IH]; intros st H; simpl; [exact H|].
  apply IH, iteration_history, H.
Qed.

Lemma iteration_prepend rs st inv :
  iteration now (prepend rs st) inv = prepend rs (iteration now st inv).
Proof.
  unfold iteration, try_body, prepend. simpl.
  destruct (decide (agent_type inv ∈ active_agents (self st))); simpl; [reflexivity|].
  destruct (_execute_single_agent inv); simpl;
    unfold discard_active, append_history, append_result; simpl;
    rewrite app_assoc; reflexivity.
Qed.

Lemma run_loop_prepend rs invs st :
  run_loop now invs (prepend rs st) = prepend rs (run_loop now invs st).
Proof.
  unfold run_loop. revert st.
  induction invs as [|inv invs IH]; intros st; simpl; [reflexivity|].
  rewrite iteration_prepend. apply IH.
Qed.

(** The exception path of one iteration. *)
Lemma iteration_raises o t inv e :
  _execute_single_agent inv = Raise e →
  agent_type inv ∉ active_agents o →
  iteration now {| self := o; results := []; ticks := t |} inv
  = {| self := o; results := [failed_result inv e]; ticks := S t |}.
Proof.
  intros He Hout. unfold iteration, try_body. simpl.
  destruct (decide (agent_type inv ∈ active_agents o)) as [Hin|_]; [contradiction|].
  rewrite He. simpl. unfold discard_active, append_result, add_active. simpl.
  destruct o as [act hist]. simpl in *. f_equal. f_equal. set_solver.
Qed.

(** The skip path of one iteration. *)
Lemma iteration_skips st inv :
  agent_type inv ∈ active_agents (self st) →
  iteration now st inv
  = {| self := {| active_agents := active_agents (self st) ∖ {[ agent_type inv ]};
                  agent_history := agent_history (self st) |};
       results := results st;
       ticks := S (ticks st) |}.
Proof.
  intros Hin. unfold iteration, try_body. simpl.
  destruct (decide (agent_type inv ∈ active_agents (self st))); [|contradiction].
  reflexivity.
Qed.

End Loop.

(** *** Scenario A *)

(** C2, as stated: exactly one memory-store invocation, triggered by
    DECISION_MADE, together with a memory-context invocation.  The second
    part fails: the list holds no memory-context invocation. *)
Lemma scenario_A_no_memory_context :
  ¬ (List.length
       (List.filter (fun i => bool_decide (agent_type i = MEMORY_STORE))
                    (analyze_context scenario_A None)) = 1
     ∧ (∀ i, i ∈ analyze_context scenario_A None →
          agent_type i = MEMORY_STORE → trigger i = DECISION_MADE)
     ∧ (∃ i, i ∈ analyze_context scenario_A None ∧ agent_type i = MEMORY_CONTEXT)).
Proof.
  intros (_ & _ & i & Hi & Hty).
  assert (Forall (fun i => agent_type i ≠ MEMORY_CONTEXT)
            (analyze_context scenario_A None)) as Hall.
  { apply SortFacts.sort_by_Forall. vm_compute.
    repeat constructor. discriminate. }
  rewrite list.Forall_forall in Hall. exact (Hall i Hi Hty).
Qed.

(** C2, amended: for the text of scenario A, [analyze_context] returns
    exactly one invocation, the memory-store invocation triggered by
    DECISION_MADE; no task pattern occurs in the text, so there is no
    memory-context invocation. *)
Theorem analyze_context_scenario_A :
  analyze_context scenario_A None = [store_invocation scenario_A].
Proof. vm_compute. reflexivity. Qed.

(** Scenario B of the specification: no pattern occurs, no invocation. *)
Example analyze_context_scenario_B :
  analyze_context "This is just a random comment" None = [].
Proof. vm_compute. reflexivity. Qed.

(** *** The active set and the history *)

(** C8.  After [execute_invocations] no agent type of an input invocation
    is in [active_agents]; an invocation that is skipped because its type
    was already active yields no result and still has the mark removed. *)
Theorem execute_invocations_clears_active
    (now : nat → Z) (o : AgentOrchestrator) (t : nat)
    (invs : list AgentInvocation) (inv : AgentInvocation) :
  inv ∈ invs →
  (agent_type inv ∉ active_agents (execute_invocations now o t invs).1)
  ∧ (agent_type inv ∈ active_agents o →
     execute_invocations now o t [inv]
     = ({| active_agents := active_agents o ∖ {[ agent_type inv ]};
           agent_history := agent_history o |}, [])).
Proof.
  intros Hin. split.
  - unfold execute_invocations. simpl. rewrite run_loop_active. simpl.
    apply list_elem_of_fmap_2 with (f := agent_type) in Hin. set_solver.
  - intros Hact. unfold execute_invocations, run_loop. simpl.
    rewrite iteration_skips by exact Hact. reflexivity.
Qed.

Lemma execute_invocations_clears_active_witness :
  (MEMORY_STORE ∉ active_agents
     (execute_invocations (fun _ => 0%Z) busy_store 0 [store_invocation "x"]).1)
  ∧ execute_invocations (fun _ => 0%Z) busy_store 0 [store_invocation "x"]
    = ({| active_agents := {[ MEMORY_STORE ]} ∖ {[ MEMORY_STORE ]};
          agent_history := [] |}, []).
Proof.
  destruct (execute_invocations_clears_active (fun _ => 0%Z) busy_store 0
              [store_invocation "x"] (store_invocation "x")
              (list_elem_of_here _ _)) as [H1 H2].
  split; [exact H1|]. apply H2. vm_compute. reflexivity.
Defined.

(** C9.  The history is extended by exactly the successful results of the
    call.  When the run of an invocation raises, the failed result, with
    [success = False] and the message of the exception, is returned in
    front of the results of the invocations after it, which are executed
    from an orchestrator that the failure left as it was. *)
Theorem execute_invocations_exception_path
    (now : nat → Z) (o : AgentOrchestrator) (t : nat)
    (inv : AgentInvocation) (rest : list AgentInvocation) (e : exn) :
  _execute_single_agent inv = Raise e →
  agent_type inv ∉ active_agents o →
  execute_invocations now o t (inv :: rest)
  = ((execute_invocations now o (S t) rest).1,
     failed_result inv e :: (execute_invocations now o (S t) rest).2)
  ∧ success (failed_result inv e) = false
  ∧ error_message (failed_result inv e) = Some (str_exn e)
  ∧ (∀ invs,
       agent_history (execute_invocations now o t invs).1
       = agent_history o ++ List.filter success (execute_invocations now o t invs).2).
Proof.
  intros He Hout. split; [|split; [reflexivity|split; [reflexivity|]]].
  - unfold execute_invocations, run_loop. simpl.
    rewrite (iteration_raises now o t inv e He Hout).
    change {| self := o; results := [failed_result inv e]; ticks := S t |}
      with (prepend [failed_result inv e] {| self := o; results := []; ticks := S t |}).
    fold (run_loop now rest
            (prepend [failed_result inv e] {| self := o; results := []; ticks := S t |})).
    rewrite run_loop_prepend. reflexivity.
  - intros invs. unfold execute_invocations. simpl.
    apply run_loop_history. simpl. rewrite app_nil_r. reflexivity.
Qed.

Lemma execute_invocations_exception_path_witness :
  execute_invocations (fun n => Z.of_nat n) init 0
    [no_context MEMORY_STORE DECISION_MADE; no_context MEMORY_HEALTH HEALTH_CHECK]
  = ((execute_invocations (fun n => Z.of_nat n) init 1
        [no_context MEMORY_HEALTH HEALTH_CHECK]).1,
     failed_result (no_context MEMORY_STORE DECISION_MADE) none_has_no_get
     :: (execute_invocations (fun n => Z.of_nat n) init 1
           [no_context MEMORY_HEALTH HEALTH_CHECK]).2).
Proof.
  apply (execute_invocations_exception_path (fun n => Z.of_nat n) init 0
           (no_context MEMORY_STORE DECISION_MADE)
           [no_context MEMORY_HEALTH HEALTH_CHECK] none_has_no_get).
  - reflexivity.
  - apply not_elem_of_empty.
Defined.

(** The sibling of the failed invocation ran and is the only entry of the
    history. *)
Example exception_path_run :
  let '(o, rs) :=
    execute_invocations (fun n => Z.of_nat n) init 0
      [no_context MEMORY_STORE DECISION_MADE; no_context MEMORY_HEALTH HEALTH_CHECK] in
  map success rs = [false; true]
  ∧ map success (agent_history o) = [true]
  ∧ map error_message rs = [Some "'NoneType' object has no attribute 'get'"; None].
Proof. vm_compute. repeat split. Qed.

End OrchestratorFacts.

(** ** relevance_scorer.py *)

Module ScorerFacts.

Import RelevanceScorer.

Local Open Scope R_scope.

Lemma ratio_unit (a b : nat) :
  (a ≤ b)%nat → (0 < b)%nat → unit_interval (INR a / INR b).
Proof.
  intros Hab Hb. unfold unit_interval.
  apply le_INR in Hab. apply lt_0_INR in Hb.
  pose proof (pos_INR a) as Ha.
  pose proof (Rinv_0_lt_compat _ Hb) as Hinv.
  unfold Rdiv. split.
  - apply Rmult_le_pos; lra.
  - rewrite <- (Rinv_r (INR b)) by lra.
    apply Rmult_le_compat_r; lra.
Qed.

Lemma Rmin_unit (x : R) : 0 <= x → unit_interval (Rmin 1.0 x).
Proof.
  intros Hx. unfold unit_interval, Rmin.
  destruct (Rle_dec 1.0 x); lra.
Qed.

(** *** Temporal relevance *)

Lemma days_between_mono (now ts1 ts2 : Z) :
  (ts2 <= ts1)%Z → (days_between now ts1 <= days_between now ts2)%Z.
Proof.
  intros H. unfold days_between, microseconds_per_day.
  apply Z.div_le_mono; lia.
Qed.

Lemma days_between_nonneg (now ts : Z) :
  (ts <= now)%Z → (0 <= days_between now ts)%Z.
Proof.
  intros H. unfold days_between, microseconds_per_day.
  apply Z.div_pos; lia.
Qed.

Lemma temporal_default now candidate context ts :
  default_preference context →
  timestamp candidate = Some ts →
  _calculate_temporal_relevance now candidate context
  = default_steps (days_between now ts).
Proof.
  intros Hpref Hts. unfold _calculate_temporal_relevance. rewrite Hts.
  destruct (decide (temporal_preference context = Some "recent")) as [E|_].
  { destruct Hpref as [H|H]; rewrite H in E; discriminate E. }
  destruct (decide (temporal_preference context = Some "historical")) as [E|_].
  { destruct Hpref as [H|H]; rewrite H in E; discriminate E. }
  reflexivity.
Qed.

Lemma default_steps_antitone (d1 d2 : Z) :
  (d1 <= d2)%Z → default_steps d2 <= default_steps d1.
Proof.
  intros H. unfold default_steps.
  repeat (destruct (decide _)); try lra; lia.
Qed.

Lemma exp_le_1 (x : R) : x <= 0 → exp x <= 1.
Proof.
  intros [Hlt|Heq].
  - rewrite <- exp_0. left. apply exp_increasing. exact Hlt.
  - rewrite Heq, exp_0. lra.
Qed.

Lemma temporal_unit now candidate context :
  (∀ ts, timestamp candidate = Some ts →
         temporal_preference context = Some "recent" → (ts <= now)%Z) →
  unit_interval (_calculate_temporal_relevance now candidate context).
Proof.
  intros Hpast. unfold unit_interval, _calculate_temporal_relevance.
  destruct (timestamp candidate) as [ts|]; [|lra].
  destruct (decide (temporal_preference context = Some "recent")) as [E|_].
  - specialize (Hpast ts eq_refl E).
    apply days_between_nonneg, IZR_le in Hpast.
    split; [left; apply exp_pos|]. apply exp_le_1.
    unfold Rdiv. lra.
  - destruct (decide (temporal_preference context = Some "historical")) as [_|_].
    + destruct (decide (days_between now ts > 90)%Z) as [Hd|_]; [|lra].
      assert (0 <= (IZR (days_between now ts) - 90) / 365) as Hq.
      { apply Z.gt_lt, IZR_lt in Hd. unfold Rdiv. lra. }
      pose proof (Rmin_unit _ Hq) as [H0 H1]. lra.
    + repeat (destruct (decide _)); lra.
Qed.

(** *** Tag overlap *)

Lemma lower_set_nonempty (l : list string) : l ≠ [] → size (lower_set l) ≠ 0%nat.
Proof.
  intros Hl. destruct l as [|x l]; [contradiction|].
  unfold lower_set. simpl. apply size_non_empty_iff. set_solver.
Qed.

Lemma tag_overlap_unit candidate context :
  unit_interval (_calculate_tag_overlap candidate context).
Proof.
  unfold _calculate_tag_overlap, unit_interval.
  destruct (query_tags context) as [|q qs] eqn:Hq; [lra|].
  destruct (tags candidate) as [|c cs] eqn:Hc; [lra|].
  set (Q := lower_set (q :: qs)). set (C := lower_set (c :: cs)).
  destruct (decide (size (Q ∪ C) = 0%nat)) as [_|Hu]; [lra|].
  assert (unit_interval (INR (size (Q ∩ C)) / INR (size (Q ∪ C)))) as [J0 J1].
  { apply ratio_unit; [apply subseteq_size; set_solver | lia]. }
  destruct (decide (size C = 0%nat)) as [_|HC]; [lra|].
  assert (unit_interval (INR (size (Q ∩ C)) / INR (size C))) as [P0 P1].
  { apply ratio_unit; [apply subseteq_size; set_solver | lia]. }
  lra.
Qed.

(** *** Metadata, content type, technology, context and usage *)

Lemma requirement_match_unit candidate key expected :
  unit_interval (requirement_match candidate key expected).
Proof.
  unfold requirement_match, unit_interval.
  destruct (metadata candidate !! key) as [cv|]; [|lra].
  destruct expected as [e|l].
  - destruct (decide (cv = MAtom e)) as [_|_]; [lra|].
    destruct cv as [[c|z]|l]; try lra.
    destruct e as [x|m]; try lra.
    destruct (Text.contains _ _); lra.
  - destruct cv as [a|l']; [|lra].
    destruct (decide (a ∈ l)) as [_|_]; lra.
Qed.

Lemma sum_R_bounds (f : string * MetaValue → R) (l : list (string * MetaValue)) :
  (∀ x, unit_interval (f x)) →
  0 <= sum_R (map f l) <= INR (List.length l).
Proof.
  intros Hf. induction l as [|x l IH].
  - simpl. lra.
  - change (sum_R (map f (x :: l))) with (f x + sum_R (map f l)).
    change (List.length (x :: l)) with (S (List.length l)).
    rewrite S_INR. destruct (Hf x). lra.
Qed.

Lemma metadata_match_unit candidate context :
  unit_interval (_calculate_metadata_match candidate context).
Proof.
  unfold _calculate_metadata_match, unit_interval.
  destruct (metadata_requirements context) as [reqs|]; [|lra].
  destruct (decide (reqs = ∅)); [lra|].
  destruct (decide (0 < size reqs)%nat) as [Hpos|_]; [|lra].
  pose proof (sum_R_bounds
                (fun kv => requirement_match candidate kv.1 kv.2)
                (map_to_list reqs)
                (fun kv => requirement_match_unit candidate kv.1 kv.2)) as [H0 H1].
  rewrite length_map_to_list in H1.
  apply lt_0_INR in Hpos.
  pose proof (Rinv_0_lt_compat _ Hpos) as Hinv.
  unfold Rdiv. split.
  - apply Rmult_le_pos; lra.
  - rewrite <- (Rinv_r (INR (size reqs))) by lra.
    apply Rmult_le_compat_r; lra.
Qed.

Lemma ratio_nonneg (a b : nat) : 0 <= INR a / INR b.
Proof.
  destruct b as [|b].
  - simpl. unfold Rdiv. rewrite Rinv_0. lra.
  - unfold Rdiv. apply Rmult_le_pos; [apply pos_INR|].
    left. apply Rinv_0_lt_compat, lt_0_INR. lia.
Qed.

Lemma content_type_match_unit candidate context :
  unit_interval (_calculate_content_type_match candidate context).
Proof.
  unfold _calculate_content_type_match, unit_interval.
  destruct (falsy (content_type_preference context)); [lra|].
  destruct (table_get content_type_patterns _ []) as [|p ps]; [lra|].
  apply Rmin_unit, ratio_nonneg.
Qed.

Lemma technology_alignment_unit candidate context :
  unit_interval (_calculate_technology_alignment candidate context).
Proof.
  unfold _calculate_technology_alignment, unit_interval.
  destruct (decide (target_technologies context = ∅)) as [_|_]; [lra|].
  destruct (decide (0 < size (target_technologies context))%nat) as [Hpos|_]; [|lra].
  apply ratio_unit; [|exact Hpos].
  unfold size, set_size. simpl. apply List.filter_length_le.
Qed.

Lemma contextual_similarity_unit candidate context :
  unit_interval (_calculate_contextual_similarity candidate context).
Proof.
  unfold _calculate_contextual_similarity.
  apply Rmin_unit.
  destruct (factor context TASK_CATEGORY) as [cat|];
    destruct (factor context ERROR_CONTEXT) as [err|];
    repeat match goal with
           | |- context [if ?b then _ else _] => destruct b
           end; lra.
Qed.

Lemma ln_nonneg (x : R) : 1 <= x → 0 <= ln x.
Proof.
  intros [Hlt|Heq].
  - left. rewrite <- ln_1. apply ln_increasing; lra.
  - rewrite <- Heq, ln_1. lra.
Qed.

Lemma usage_frequency_unit candidate context :
  unit_interval (_calculate_usage_frequency candidate context).
Proof.
  unfold _calculate_usage_frequency, unit_interval.
  destruct (decide (usage_count candidate <= 0)%Z) as [_|Hpos]; [lra|].
  apply Rmin_unit.
  assert (1 <= IZR (usage_count candidate + 1)) as H1 by (apply IZR_le; lia).
  apply ln_nonneg in H1.
  assert (0 < ln 10) as H10.
  { rewrite <- ln_1. apply ln_increasing; lra. }
  unfold Rdiv. apply Rmult_le_pos; [exact H1|].
  left. apply Rinv_0_lt_compat. exact H10.
Qed.

(** *** The contextual adjustments *)

Lemma urgency_adjustment_raises now candidate context s :
  timestamp candidate = None → urgent context →
  urgency_adjustment now candidate context s = Raise missing_timestamp_error.
Proof.
  unfold urgent, urgency_adjustment, time_diff_days.
  intros -> ->. reflexivity.
Qed.

Lemma urgency_adjustment_returns now candidate context s :
  timestamp candidate ≠ None ∨ ¬ urgent context →
  returns (urgency_adjustment now candidate context s).
Proof.
  unfold urgent, urgency_adjustment, time_diff_days, returns.
  intros H.
  destruct (factor context URGENCY_LEVEL) as [u|]; [|eauto].
  destruct (String.eqb u "high") eqn:Hu; [|eauto].
  apply String.eqb_eq in Hu. subst u.
  destruct (timestamp candidate) as [ts|].
  - simpl. destruct (decide _); eauto.
  - destruct H as [H|H]; [contradiction | exfalso; apply H; reflexivity].
Qed.

Lemma adjustments_returns now candidate context s :
  timestamp candidate ≠ None ∨ ¬ urgent context →
  returns (_apply_contextual_adjustments now s candidate context).
Proof.
  intros H. unfold _apply_contextual_adjustments.
  destruct (urgency_adjustment_returns now candidate context s H) as [a ->].
  eexists. reflexivity.
Qed.

Lemma adjustments_raises now candidate context s :
  timestamp candidate = None → urgent context →
  _apply_contextual_adjustments now s candidate context
  = Raise missing_timestamp_error.
Proof.
  intros Hts Hu. unfold _apply_contextual_adjustments.
  rewrite (urgency_adjustment_raises now candidate context s Hts Hu). reflexivity.
Qed.

(** What [score_relevance] returns when the adjustments return. *)
Lemma score_relevance_Ok now_t now_a candidate context weights s :
  score_relevance now_t now_a candidate context weights = Ok s →
  (∃ t, total_score s = Rmin 1.0 (Rmax 0.0 t))
  ∧ dimension_scores s =
    [ (SEMANTIC_SIMILARITY, base_similarity_score candidate);
      (TEMPORAL_RELEVANCE, _calculate_temporal_relevance now_t candidate context);
      (TAG_OVERLAP, _calculate_tag_overlap candidate context);
      (METADATA_MATCH, _calculate_metadata_match candidate context);
      (CONTENT_TYPE_MATCH, _calculate_content_type_match candidate context);
      (TECHNOLOGY_ALIGNMENT, _calculate_technology_alignment candidate context);
      (CONTEXTUAL_SIMILARITY, _calculate_contextual_similarity candidate context);
      (USAGE_FREQUENCY, _calculate_usage_frequency candidate context) ].
Proof.
  unfold score_relevance. intros H.
  apply bind_Ok in H as (adjusted & _ & H). injection H as <-.
  simpl. split; [eauto | reflexivity].
Qed.

Lemma clamp_unit (t : R) : unit_interval (Rmin 1.0 (Rmax 0.0 t)).
Proof.
  unfold unit_interval, Rmin, Rmax.
  destruct (Rle_dec 0.0 t); destruct (Rle_dec 1.0 _); lra.
Qed.

(** *** The score record *)

Lemma dimension_computed now_t now_a candidate context weights s d :
  score_relevance now_t now_a candidate context weights = Ok s →
  dimension s d = computed_dimension now_t candidate context d.
Proof.
  intros H. apply score_relevance_Ok in H as [_ Hdims].
  unfold dimension. rewrite Hdims. destruct d; reflexivity.
Qed.

Lemma score_relevance_returns now_t now_a candidate context weights :
  timestamp candidate ≠ None ∨ ¬ urgent context →
  returns (score_relevance now_t now_a candidate context weights).
Proof.
  intros H. unfold score_relevance.
  match goal with
  | |- returns (_apply_contextual_adjustments ?n ?t ?c ?x ≫= _) =>
      destruct (adjustments_returns n c x t H) as [a ->]
  end.
  eexists. reflexivity.
Qed.

Lemma score_relevance_raises now_t now_a candidate context weights :
  timestamp candidate = None → urgent context →
  score_relevance now_t now_a candidate context weights
  = Raise missing_timestamp_error.
Proof.
  intros Hts Hu. unfold score_relevance.
  match goal with
  | |- (_apply_contextual_adjustments ?n ?t ?c ?x ≫= _) = _ =>
      rewrite (adjustments_raises n c x t Hts Hu)
  end.
  reflexivity.
Qed.

(** *** Concrete candidates and contexts *)

(** *** Score bounds *)

(** C3, as stated, fails in two dimensions.  The semantic dimension is the
    similarity the store reported, whatever it is; and for the "recent"
    preference a timestamp later than the clock gives a negative number of
    days, on which the decay exceeds 1. *)
Lemma score_dimension_above_one :
  (∃ s, score_relevance today today (memory ["python"] (Some today) 1.5)
          plain_context None = Ok s
        ∧ 1 < dimension s SEMANTIC_SIMILARITY)
  ∧ (∃ s, score_relevance today today (memory ["python"] (Some (today + 365 * day)%Z) 0.9)
            (with_preference "recent") None = Ok s
          ∧ 1 < dimension s TEMPORAL_RELEVANCE).
Proof.
  split.
  - destruct (score_relevance_returns today today
                (memory ["python"] (Some today) 1.5) plain_context None) as [s Hs].
    { left. discriminate. }
    exists s. split; [exact Hs|].
    rewrite (dimension_computed _ _ _ _ _ _ _ Hs). simpl. lra.
  - destruct (score_relevance_returns today today
                (memory ["python"] (Some (today + 365 * day)%Z) 0.9)
                (with_preference "recent") None) as [s Hs].
    { left. discriminate. }
    exists s. split; [exact Hs|].
    rewrite (dimension_computed _ _ _ _ _ _ _ Hs).
    unfold computed_dimension, _calculate_temporal_relevance. simpl.
    replace (days_between today (today + 365 * day)%Z) with (-365)%Z
      by (vm_compute; reflexivity).
    rewrite <- exp_0. apply exp_increasing. lra.
Qed.

(** C3, amended.  When [score_relevance] returns, [total_score] is in
    [0, 1] for any weights; the tag-overlap, metadata, content-type,
    technology, contextual and usage scores are in [0, 1]; the semantic
    score is [base_similarity_score]; the temporal score is in [0, 1] when
    the timestamp is not later than the clock under the "recent"
    preference.  So all eight are in [0, 1] for a candidate whose
    similarity is in [0, 1] and whose timestamp is not in the future. *)
Theorem score_relevance_bounds
    (now_t now_a : Z) (candidate : MemoryCandidate) (context : ScoringContext)
    (weights : option ScoringWeights) (s : RelevanceScore) :
  score_relevance now_t now_a candidate context weights = Ok s →
  unit_interval (total_score s)
  ∧ (∀ d, d ≠ SEMANTIC_SIMILARITY → d ≠ TEMPORAL_RELEVANCE →
          unit_interval (dimension s d))
  ∧ dimension s SEMANTIC_SIMILARITY = base_similarity_score candidate
  ∧ (not_from_the_future now_t candidate context →
     unit_interval (dimension s TEMPORAL_RELEVANCE))
  ∧ (unit_interval (base_similarity_score candidate) →
     not_from_the_future now_t candidate context →
     ∀ d, unit_interval (dimension s d)).
Proof.
  intros Hs.
  assert (∀ d, d ≠ SEMANTIC_SIMILARITY → d ≠ TEMPORAL_RELEVANCE →
               unit_interval (dimension s d)) as Hsix.
  { intros d H1 H2. rewrite (dimension_computed _ _ _ _ _ _ d Hs).
    destruct d; simpl; try contradiction.
    - apply tag_overlap_unit.
    - apply metadata_match_unit.
    - apply content_type_match_unit.
    - apply technology_alignment_unit.
    - apply contextual_similarity_unit.
    - apply usage_frequency_unit. }
  assert (not_from_the_future now_t candidate context →
          unit_interval (dimension s TEMPORAL_RELEVANCE)) as Htemporal.
  { intros Hpast. rewrite (dimension_computed _ _ _ _ _ _ _ Hs).
    apply temporal_unit, Hpast. }
  assert (dimension s SEMANTIC_SIMILARITY = base_similarity_score candidate)
    as Hsemantic by (rewrite (dimension_computed _ _ _ _ _ _ _ Hs); reflexivity).
  split; [|split; [exact Hsix|split; [exact Hsemantic|split; [exact Htemporal|]]]].
  - destruct (score_relevance_Ok _ _ _ _ _ _ Hs) as [[t ->] _]. apply clamp_unit.
  - intros Hbase Hpast d.
    destruct (decide (d = SEMANTIC_SIMILARITY)) as [->|H1];
      [rewrite Hsemantic; exact Hbase|].
    destruct (decide (d = TEMPORAL_RELEVANCE)) as [->|H2];
      [exact (Htemporal Hpast)|].
    exact (Hsix d H1 H2).
Qed.

Lemma scored_two_day_old :
  score_relevance today today two_day_old plain_context None
  = Ok (scored two_day_old plain_context).
Proof. reflexivity. Qed.

Lemma score_relevance_bounds_witness :
  unit_interval (total_score (scored two_day_old plain_context))
  ∧ ∀ d, unit_interval (dimension (scored two_day_old plain_context) d).
Proof.
  destruct (score_relevance_bounds today today two_day_old plain_context None
              (scored two_day_old plain_context) scored_two_day_old)
    as (Htotal & _ & _ & _ & Hall).
  split; [exact Htotal|]. apply Hall.
  - unfold unit_interval. simpl. lra.
  - intros ts _ Hpref. discriminate Hpref.
Defined.

(** *** Tag overlap at its ends *)

Lemma tag_overlap_zero (candidate : MemoryCandidate) (context : ScoringContext) :
  query_tags context = [] ∨ tags candidate = []
  ∨ lower_set (query_tags context) ## lower_set (tags candidate) →
  _calculate_tag_overlap candidate context = 0.0.
Proof.
  unfold _calculate_tag_overlap. intros H.
  destruct (query_tags context) as [|q qs] eqn:Hq; [reflexivity|].
  destruct (tags candidate) as [|c cs] eqn:Hc; [reflexivity|].
  destruct H as [H|[H|H]]; [discriminate H | discriminate H |].
  set (Q := lower_set (q :: qs)) in *. set (C := lower_set (c :: cs)) in *.
  destruct (decide (size (Q ∪ C) = 0%nat)) as [_|_]; [reflexivity|].
  assert (Q ∩ C = ∅) as -> by set_solver.
  rewrite size_empty. simpl.
  destruct (decide (size C = 0%nat)) as [_|_]; unfold Rdiv; lra.
Qed.

Lemma tag_overlap_one (candidate : MemoryCandidate) (context : ScoringContext) :
  query_tags context ≠ [] → tags candidate ≠ [] →
  lower_set (query_tags context) = lower_set (tags candidate) →
  _calculate_tag_overlap candidate context = 1.0.
Proof.
  unfold _calculate_tag_overlap. intros Hq Hc Heq.
  pose proof (lower_set_nonempty _ Hc) as Hsize.
  destruct (query_tags context) as [|q qs]; [contradiction|].
  destruct (tags candidate) as [|c cs]; [contradiction|].
  rewrite Heq.
  generalize dependent (lower_set (c :: cs)). intros C _ Hsize.
  assert (C ∩ C = C) as -> by set_solver.
  assert (C ∪ C = C) as -> by set_solver.
  destruct (decide (size C = 0%nat)) as [H0|_]; [contradiction|].
  assert (INR (size C) ≠ 0) as Hnz by (apply not_0_INR; exact Hsize).
  assert (INR (size C) / INR (size C) = 1) as ->
    by (unfold Rdiv; apply Rinv_r; exact Hnz).
  lra.
Qed.

(** C5.  The tag-overlap score is 0 when a tag list is empty or the sets
    of lower-cased tags are disjoint, and 1 when both lists are non-empty
    and the sets of lower-cased tags are equal. *)
Theorem tag_overlap_extremes (candidate : MemoryCandidate) (context : ScoringContext) :
  (query_tags context = [] ∨ tags candidate = []
   ∨ lower_set (query_tags context) ## lower_set (tags candidate) →
   _calculate_tag_overlap candidate context = 0.0)
  ∧ (query_tags context ≠ [] → tags candidate ≠ [] →
     lower_set (query_tags context) = lower_set (tags candidate) →
     _calculate_tag_overlap candidate context = 1.0).
Proof.
  split.
  - apply tag_overlap_zero.
  - apply tag_overlap_one.
Qed.

Lemma tag_overlap_extremes_witness :
  _calculate_tag_overlap (memory ["docker"; "Cloud"] None 0.5) plain_context = 0.0
  ∧ _calculate_tag_overlap (memory ["api"; "PYTHON"; "Api"] None 0.5) plain_context = 1.0.
Proof.
  split.
  - apply (tag_overlap_extremes (memory ["docker"; "Cloud"] None 0.5) plain_context).
    right. right. apply (bool_decide_unpack _). vm_compute. exact I.
  - apply (tag_overlap_extremes (memory ["api"; "PYTHON"; "Api"] None 0.5) plain_context).
    + discriminate.
    + discriminate.
    + vm_compute. reflexivity.
Defined.

(** Tags that differ as written may agree once lowered. *)
Example tag_overlap_case_folded :
  _calculate_tag_overlap (memory ["python"; "api"] None 0.5) plain_context = 1.0.
Proof.
  apply tag_overlap_one; [discriminate | discriminate |].
  vm_compute. reflexivity.
Qed.

(** *** Temporal monotonicity *)

(** C6.  Under the default preference, of two candidates the one with the
    later timestamp has a temporal score at least as high. *)
Theorem temporal_default_monotone
    (now : Z) (newer older : MemoryCandidate) (context : ScoringContext)
    (ts_newer ts_older : Z) :
  default_preference context →
  timestamp newer = Some ts_newer →
  timestamp older = Some ts_older →
  (ts_older <= ts_newer)%Z →
  _calculate_temporal_relevance now older context
  <= _calculate_temporal_relevance now newer context.
Proof.
  intros Hpref Hn Ho Hle.
  rewrite (temporal_default now newer context ts_newer Hpref Hn).
  rewrite (temporal_default now older context ts_older Hpref Ho).
  apply default_steps_antitone, days_between_mono, Hle.
Qed.

Lemma temporal_default_monotone_witness :
  _calculate_temporal_relevance today two_years_ago plain_context
  <= _calculate_temporal_relevance today yesterday plain_context.
Proof.
  apply (temporal_default_monotone today yesterday two_years_ago plain_context
           (today - day)%Z (today - 730 * day)%Z).
  - left. reflexivity.
  - reflexivity.
  - reflexivity.
  - vm_compute. discriminate.
Defined.

Example temporal_default_values :
  _calculate_temporal_relevance today yesterday plain_context = 1.0
  ∧ _calculate_temporal_relevance today two_years_ago plain_context = 0.4
  ∧ _calculate_temporal_relevance today yesterday (with_preference "any") = 1.0.
Proof. repeat split. Qed.

(** *** Context-adjusted weights *)

Lemma default_weights_sum : weights_sum default_weights = 1.
Proof. unfold weights_sum, default_weights. simpl. lra. Qed.

Lemma recent_weights_sum :
  weights_sum (get_optimal_weights_for_context (with_preference "recent")) = 1.05.
Proof.
  unfold weights_sum, get_optimal_weights_for_context. simpl.
  destruct (decide _) as [_|H]; [simpl; lra | exfalso; apply H; reflexivity].
Qed.

Lemma factor_with_factor (f : ContextualFactor) (v : string) :
  factor (with_factor f v) f = Some v.
Proof. unfold factor. simpl. apply lookup_singleton_eq. Qed.

Lemma error_weights_sum :
  weights_sum (get_optimal_weights_for_context (with_factor ERROR_CONTEXT "True")) = 1.20.
Proof.
  unfold weights_sum, get_optimal_weights_for_context.
  rewrite factor_with_factor. simpl.
  destruct (decide _) as [_|H]; [simpl; lra | exfalso; apply H; reflexivity].
Qed.

(** Every component of the profile is one of the literals of the source:
    no component is rescaled. *)
Lemma optimal_weights_literals (context : ScoringContext) :
  let w := get_optimal_weights_for_context context in
  (semantic_similarity w = 0.30 ∨ semantic_similarity w = 0.25
   ∨ semantic_similarity w = 0.40)
  ∧ (temporal_relevance w = 0.15 ∨ temporal_relevance w = 0.25
     ∨ temporal_relevance w = 0.10)
  ∧ (tag_overlap w = 0.20 ∨ tag_overlap w = 0.25)
  ∧ metadata_match w = 0.10
  ∧ (content_type_match w = 0.10 ∨ content_type_match w = 0.20
     ∨ content_type_match w = 0.25)
  ∧ (technology_alignment w = 0.10 ∨ technology_alignment w = 0.20)
  ∧ contextual_similarity w = 0.03
  ∧ usage_frequency w = 0.02.
Proof.
  unfold get_optimal_weights_for_context.
  destruct (decide (temporal_preference context = Some "recent"));
    destruct (negb (falsy (content_type_preference context)));
    destruct (decide (target_technologies context = ∅));
    destruct (factor context ERROR_CONTEXT);
    simpl; tauto.
Qed.

(** C7.  The profile returned for the "recent" preference sums to 1.05
    and the one for an error context to 1.20, so there is a context whose
    weights do not sum to 1; and every component of every returned profile
    is a literal of the source. *)
Theorem optimal_weights_not_normalized :
  weights_sum (get_optimal_weights_for_context (with_preference "recent")) = 1.05
  ∧ weights_sum (get_optimal_weights_for_context (with_factor ERROR_CONTEXT "True")) = 1.20
  ∧ (∃ context, weights_sum (get_optimal_weights_for_context context) ≠ 1)
  ∧ (∀ context,
       let w := get_optimal_weights_for_context context in
       (semantic_similarity w = 0.30 ∨ semantic_similarity w = 0.25
        ∨ semantic_similarity w = 0.40)
       ∧ (temporal_relevance w = 0.15 ∨ temporal_relevance w = 0.25
          ∨ temporal_relevance w = 0.10)
       ∧ (tag_overlap w = 0.20 ∨ tag_overlap w = 0.25)
       ∧ metadata_match w = 0.10
       ∧ (content_type_match w = 0.10 ∨ content_type_match w = 0.20
          ∨ content_type_match w = 0.25)
       ∧ (technology_alignment w = 0.10 ∨ technology_alignment w = 0.20)
       ∧ contextual_similarity w = 0.03
       ∧ usage_frequency w = 0.02).
Proof.
  split; [exact recent_weights_sum|].
  split; [exact error_weights_sum|].
  split; [|exact optimal_weights_literals].
  exists (with_preference "recent"). rewrite recent_weights_sum. lra.
Qed.

(** *** A candidate without timestamp *)

(** C10.  For a candidate whose timestamp is [None], [score_relevance]
    returns exactly when the contextual factors do not map URGENCY_LEVEL
    to "high"; when they do, the subtraction of the missing timestamp
    raises [TypeError]; and when it returns, the temporal score is the
    neutral 0.5. *)
Theorem score_relevance_missing_timestamp
    (now_t now_a : Z) (candidate : MemoryCandidate) (context : ScoringContext)
    (weights : option ScoringWeights) :
  timestamp candidate = None →
  (returns (score_relevance now_t now_a candidate context weights)
   ↔ ¬ urgent context)
  ∧ (urgent context →
     score_relevance now_t now_a candidate context weights
     = Raise missing_timestamp_error)
  ∧ (∀ s, score_relevance now_t now_a candidate context weights = Ok s →
          dimension s TEMPORAL_RELEVANCE = 0.5).
Proof.
  intros Hts. split; [split|split].
  - intros [s Hs] Hu.
    rewrite (score_relevance_raises _ _ _ _ _ Hts Hu) in Hs. discriminate Hs.
  - intros Hu. apply score_relevance_returns. right. exact Hu.
  - intros Hu. apply score_relevance_raises; assumption.
  - intros s Hs. rewrite (dimension_computed _ _ _ _ _ _ _ Hs).
    unfold computed_dimension, _calculate_temporal_relevance. rewrite Hts.
    reflexivity.
Qed.

Lemma score_relevance_missing_timestamp_witness :
  score_relevance today today (memory ["python"] None 0.9)
    (with_factor URGENCY_LEVEL "high") None
  = Raise missing_timestamp_error
  ∧ returns (score_relevance today today (memory ["python"] None 0.9)
               (with_factor URGENCY_LEVEL "low") None).
Proof.
  split.
  - apply (score_relevance_missing_timestamp today today
             (memory ["python"] None 0.9) (with_factor URGENCY_LEVEL "high") None).
    + reflexivity.
    + reflexivity.
  - apply (score_relevance_missing_timestamp today today
             (memory ["python"] None 0.9) (with_factor URGENCY_LEVEL "low") None).
    + reflexivity.
    + intros Hu. vm_compute in Hu. discriminate Hu.
Defined.

End ScorerFacts.

(** ** context_builder.py *)

Module BuilderFacts.

Import TaskDecomposer ContextBuilder.

Lemma insert_sorted_length {A : Type} (leb : A → A → bool) (x : A) (l : list A) :
  List.length (Py.insert_sorted leb x l) = S (List.length l).
Proof.
  induction l as [|y l IH]; simpl; [reflexivity|].
  destruct (leb x y); simpl; [reflexivity | rewrite IH; reflexivity].
Qed.

Lemma sort_by_length {A : Type} (leb : A → A → bool) (l : list A) :
  List.length (Py.sort_by leb l) = List.length l.
Proof.
  unfold Py.sort_by. induction l as [|x l IH]; simpl; [reflexivity|].
  rewrite insert_sorted_length, IH. reflexivity.
Qed.

Lemma take_nonempty {A : Type} (n : nat) (l : list A) :
  (0 < n)%nat → l ≠ [] → take n l ≠ [].
Proof.
  intros Hn Hl. destruct n as [|n]; [lia|].
  destruct l as [|x l]; [contradiction | discriminate].
Qed.

Lemma sort_by_nonempty {A : Type} (leb : A → A → bool) (l : list A) :
  l ≠ [] → Py.sort_by leb l ≠ [].
Proof.
  intros Hl Hs. apply (f_equal List.length) in Hs.
  rewrite sort_by_length in Hs. destruct l; [contradiction | discriminate Hs].
Qed.

Lemma max_items_positive (s : ContextSectionType) :
  (0 < _get_max_items_for_section s)%nat.
Proof. destruct s; simpl; lia. Qed.

(** A group without items gives no section. *)
Lemma _create_context_sections_populated
    (sections_data : list (ContextSectionType * list ContextItem)) :
  Forall populated (_create_context_sections sections_data).
Proof.
  unfold _create_context_sections.
  induction sections_data as [|[s l] data IH]; simpl; [constructor|].
  apply Forall_app. split; [|exact IH].
  destruct l as [|i l]; [constructor|].
  repeat constructor. unfold populated. cbn [items].
  apply take_nonempty; [apply max_items_positive|].
  unfold sort_by_relevance. apply sort_by_nonempty. discriminate.
Qed.

Section Sections.

Variable now : Z.
Variable strptime : string → string → option Z.

Lemma _add_special_sections_shape sections context_items decomposition :
  ∃ rest,
    _add_special_sections now sections context_items decomposition
    = _create_overview_section now context_items decomposition :: rest
    ∧ (Forall populated sections → Forall populated rest).
Proof.
  unfold _add_special_sections.
  destruct (List.filter _ context_items) as [|i recent] eqn:Hrecent.
  - exists sections. split; [reflexivity | tauto].
  - eexists. split; [reflexivity|].
    intros H. apply Forall_app. split; [exact H|].
    repeat constructor. unfold populated. simpl. discriminate.
Qed.



End Sections.

(** With no results at all the overview is the only section. *)
Example assemble_context_empty
    (now : Z) (strptime : string → string → option Z) (d : TaskDecomposition) :
  map section_type (sections (assemble_context now strptime d [])) = [OVERVIEW].
Proof. reflexivity. Qed.

End BuilderFacts.

(** * Further properties of the modelled code *)

(** ** The stable sort: order and content *)

Module SortOrder.

Section Order.

Context {A : Type} (leb : A → A → bool).

Local Abbreviation in_order := (Py.in_order leb).

Hypothesis leb_total : ∀ x y, leb x y = false → leb y x = true.

Lemma insert_sorted_HdRel (y x : A) (l : list A) :
  in_order y x → HdRel in_order y l → HdRel in_order y (Py.insert_sorted leb x l).
Proof.
  intros Hyx Hl. destruct l as [|z l]; simpl.
  - constructor. exact Hyx.
  - destruct (leb x z); constructor; [exact Hyx|].
    inversion Hl; assumption.
Qed.

Lemma insert_sorted_Sorted (x : A) (l : list A) :
  Sorted in_order l → Sorted in_order (Py.insert_sorted leb x l).
Proof.
  induction l as [|y l IH]; intros Hs; simpl.
  - repeat constructor.
  - destruct (leb x y) eqn:Hxy.
    + constructor; [exact Hs | constructor; exact Hxy].
    + inversion Hs as [|? ? Hl Hhd]; subst. constructor; [apply IH, Hl|].
      apply insert_sorted_HdRel; [apply leb_total, Hxy | exact Hhd].
Qed.

Lemma sort_by_Sorted (l : list A) : Sorted in_order (Py.sort_by leb l).
Proof.
  unfold Py.sort_by. induction l as [|x l IH]; simpl; [constructor|].
  apply insert_sorted_Sorted, IH.
Qed.

End Order.

Lemma insert_sorted_Permutation {A : Type} (leb : A → A → bool) (x : A) (l : list A) :
  Py.insert_sorted leb x l ≡ₚ x :: l.
Proof.
  induction l as [|y l IH]; simpl; [reflexivity|].
  destruct (leb x y); [reflexivity|].
  rewrite IH. apply perm_swap.
Qed.

Lemma sort_by_Permutation {A : Type} (leb : A → A → bool) (l : list A) :
  Py.sort_by leb l ≡ₚ l.
Proof.
  unfold Py.sort_by. induction l as [|x l IH]; simpl; [reflexivity|].
  rewrite insert_sorted_Permutation, IH. reflexivity.
Qed.

End SortOrder.

(** ** task_decomposer.py, further *)

Module DecomposerMore.

Import TaskDecomposer.

(** *** Complexity *)

Lemma complexity_fold_ge (text : string) (l : list (string * nat)) (acc : nat) :
  acc ≤ foldl (fun acc e => if Text.search (Text.re (fst e)) text then acc + snd e else acc)
              acc l.
Proof.
  revert acc. induction l as [|e l IH]; intros acc; simpl; [lia|].
  destruct (Text.search _ _); [|apply IH].
  etransitivity; [|apply IH]. lia.
Qed.

(** X1.  The complexity estimate is between 1 and 5 for every text. *)
Theorem _estimate_complexity_bounds (text : string) :
  1 ≤ _estimate_complexity text ≤ 5.
Proof.
  unfold _estimate_complexity. split; [|apply Nat.le_min_l].
  apply Nat.min_glb; [lia|]. apply complexity_fold_ge.
Qed.

(** *** Technologies *)

Lemma technologies_fold (text : string) (t : string)
    (l : list (string * list string)) (acc : gset string) :
  t ∈ foldl (fun technologies e =>
               if Py.any (fun p => Text.search (Text.re p) (Text.lower text)) (snd e)
               then technologies ∪ {[ fst e ]} else technologies) acc l
  ↔ t ∈ acc ∨ ∃ e, e ∈ l ∧ fst e = t ∧ technology_mentioned text e = true.
Proof.
  revert acc. induction l as [|e l IH]; intros acc; simpl.
  - split; [tauto|]. intros [H|(e & He & _)]; [exact H|]. inversion He.
  - rewrite IH. unfold technology_mentioned at 2.
    destruct (Py.any _ (snd e)) eqn:Hany.
    + rewrite elem_of_union, elem_of_singleton. split.
      * intros [[H|H]|(e' & He' & H)]; [tauto| |].
        -- right. exists e. split; [left|]. split; [congruence|].
           unfold technology_mentioned. exact Hany.
        -- right. exists e'. split; [right; exact He' | exact H].
      * intros [H|(e' & He' & Hf & Hm)]; [tauto|].
        apply elem_of_cons in He' as [->|He']; [left; right; congruence|].
        right. exists e'. tauto.
    + split.
      * intros [H|(e' & He' & H)]; [tauto|].
        right. exists e'. split; [right; exact He' | exact H].
      * intros [H|(e' & He' & Hf & Hm)]; [tauto|].
        apply elem_of_cons in He' as [->|He'].
        -- unfold technology_mentioned in Hm. congruence.
        -- right. exists e'. tauto.
Qed.

(** X2.  A technology is extracted exactly when it is a name of the
    pattern table and one of its patterns occurs in the lower-cased text;
    so only the twelve names of the table are ever extracted. *)
Theorem _extract_technologies_spec (text t : string) :
  (t ∈ _extract_technologies text
   ↔ ∃ e, e ∈ technology_patterns ∧ fst e = t ∧ technology_mentioned text e = true)
  ∧ (t ∈ _extract_technologies text → t ∈ technology_names).
Proof.
  assert (t ∈ _extract_technologies text
          ↔ ∃ e, e ∈ technology_patterns ∧ fst e = t
                 ∧ technology_mentioned text e = true) as Hspec.
  { unfold _extract_technologies. rewrite technologies_fold.
    rewrite elem_of_empty. tauto. }
  split; [exact Hspec|].
  intros (e & He & <- & _)%Hspec. unfold technology_names.
  apply list_elem_of_fmap. exists e. split; [reflexivity | exact He].
Qed.

(** *** Categories *)

Lemma max_by_score_spec (best : TaskCategory * nat) (l : list (TaskCategory * nat)) :
  ∃ n, (max_by_score best l, n) ∈ best :: l
       ∧ ∀ e, e ∈ best :: l → snd e ≤ n.
Proof.
  revert best. induction l as [|e l IH]; intros best; simpl.
  - exists (snd best). split; [destruct best; left|].
    intros e He. apply list_elem_of_singleton in He as ->. lia.
  - destruct (snd best <? snd e) eqn:Hlt.
    + apply Nat.ltb_lt in Hlt. destruct (IH e) as (n & Hin & Hmax).
      exists n. split; [right; exact Hin|].
      intros e' He'. apply elem_of_cons in He' as [->|He'].
      * specialize (Hmax e (list_elem_of_here _ _)). lia.
      * apply Hmax, He'.
    + apply Nat.ltb_ge in Hlt. destruct (IH best) as (n & Hin & Hmax).
      exists n. split.
      * apply elem_of_cons in Hin as [Hin|Hin]; [rewrite Hin; left | right; right; exact Hin].
      * intros e' He'. apply elem_of_cons in He' as [->|He']; [apply Hmax; left|].
        apply elem_of_cons in He' as [->|He'].
        -- specialize (Hmax best (list_elem_of_here _ _)). lia.
        -- apply Hmax. right. exact He'.
Qed.

Lemma category_scores_elem (text : string) (c : TaskCategory) (n : nat) :
  (c, n) ∈ category_scores (Text.lower text)
  ↔ 0 < n ∧ ∃ e, e ∈ task_patterns ∧ fst e = c ∧ category_count text e = n.
Proof.
  unfold category_scores, category_count.
  rewrite list_elem_of_filter, list_elem_of_fmap. simpl. split.
  - intros [Hpos (e & Heq & He)]. injection Heq as -> ->. eauto.
  - intros [Hpos (e & He & <- & <-)]. eauto.
Qed.

(** X3.  The category returned is a key of the pattern table whose match
    count on the lower-cased text is the highest of the table; the
    categories without patterns, DOCUMENTATION and DEPLOYMENT, are never
    returned. *)
Theorem _categorize_task_maximal (text : string) :
  (∃ e, e ∈ task_patterns ∧ fst e = _categorize_task text
        ∧ ∀ e', e' ∈ task_patterns → category_count text e' ≤ category_count text e)
  ∧ _categorize_task text ≠ DOCUMENTATION
  ∧ _categorize_task text ≠ DEPLOYMENT.
Proof.
  assert (∃ e, e ∈ task_patterns ∧ fst e = _categorize_task text
               ∧ ∀ e', e' ∈ task_patterns →
                       category_count text e' ≤ category_count text e) as Hmax.
  { unfold _categorize_task.
    destruct (category_scores (Text.lower text)) as [|best l] eqn:Hscores.
    - exists (IMPLEMENTATION, snd (default (IMPLEMENTATION, []) (head task_patterns))).
      split; [left|]. split; [reflexivity|].
      intros e' He'.
      destruct (category_count text e') as [|n] eqn:Hn; [lia|].
      assert ((fst e', S n) ∈ category_scores (Text.lower text)) as Hin.
      { apply category_scores_elem. split; [lia|]. eauto. }
      rewrite Hscores in Hin. inversion Hin.
    - destruct (max_by_score_spec best l) as (n & Hin & Hle).
      rewrite <- Hscores in Hin.
      apply category_scores_elem in Hin as (Hpos & e & He & Hc & Hn).
      exists e. split; [exact He|]. split; [exact Hc|].
      intros e' He'. rewrite Hn.
      destruct (category_count text e') as [|m] eqn:Hm; [lia|].
      assert ((fst e', S m) ∈ category_scores (Text.lower text)) as Hin'.
      { apply category_scores_elem. split; [lia|]. eauto. }
      rewrite Hscores in Hin'. apply (Hle _ Hin'). }
  split; [exact Hmax|].
  destruct Hmax as (e & He & <- & _).
  unfold task_patterns in He.
  repeat (apply elem_of_cons in He as [->|He]; [split; discriminate|]).
  inversion He.
Qed.

(** *** Context queries *)

Lemma tuned_in_order (q1 q2 : ContextQuery) :
  query_tuned q1 → query_tuned q2 → Py.in_order priority_leb q1 q2 →
  query_order q1 q2.
Proof.
  unfold query_tuned, Py.in_order, priority_leb, query_order, by_priority.
  intros [-> ->] [-> ->] H. apply Z.leb_le in H.
  split; [exact H|].
  destruct (priority q1), (priority q2); simpl in *;
    try lia; split; try lia; unfold Qle; simpl; lia.
Qed.

Lemma query_order_trans (q1 q2 q3 : ContextQuery) :
  query_order q1 q2 → query_order q2 q3 → query_order q1 q3.
Proof.
  unfold query_order, by_priority. intros (H1 & H2 & H3) (H4 & H5 & H6).
  split; [lia|]. split; [|lia]. eapply Qle_trans; eassumption.
Qed.

Lemma Sorted_tuned (l : list ContextQuery) :
  Forall query_tuned l → Sorted (Py.in_order priority_leb) l → Sorted query_order l.
Proof.
  induction 2 as [|q l Hs IH Hhd]; [constructor|].
  inversion H as [|? ? Hq Hl]; subst.
  constructor; [apply IH, Hl|].
  destruct Hhd as [|q' l' Hqq']; constructor.
  inversion Hl; subst. apply tuned_in_order; assumption.
Qed.

(** X4.  The queries come out in the order of their priorities; along
    the list the similarity thresholds never decrease and the result
    limits never increase; each query carries the threshold and the limit
    of its priority, so its threshold is between 0.3 and 0.6; and there is
    one query for each entry of the mapping of the category. *)
Theorem _generate_context_queries_ordered
    (text : string) (c : TaskCategory) (techs : gset string)
    (comps : list TaskComponent) :
  StronglySorted query_order (_generate_context_queries text c techs comps)
  ∧ Forall (fun q => query_tuned q
                     ∧ (0.3 <= similarity_threshold q <= 0.6)%Q)
           (_generate_context_queries text c techs comps)
  ∧ List.length (_generate_context_queries text c techs comps)
    = List.length (context_mappings_get c).
Proof.
  unfold _generate_context_queries.
  set (queries := map _ (context_mappings_get c)).
  assert (Forall (fun q => query_tuned q
                           ∧ (0.3 <= similarity_threshold q <= 0.6)%Q) queries) as Htuned.
  { unfold queries. apply Forall_fmap, Forall_true. intros [t p]. simpl.
    split; [split; reflexivity|].
    destruct p; simpl; unfold Qle; simpl; lia. }
  fold priority_leb.
  split; [|split].
  - apply Sorted_StronglySorted; [intros q1 q2 q3; apply query_order_trans|].
    apply Sorted_tuned.
    + apply SortFacts.sort_by_Forall.
      eapply Forall_impl; [exact Htuned|]. intros q [Hq _]. exact Hq.
    + apply SortOrder.sort_by_Sorted. unfold priority_leb. intros x y H.
      apply Z.leb_gt in H. apply Z.leb_le. lia.
  - apply SortFacts.sort_by_Forall, Htuned.
  - rewrite BuilderFacts.sort_by_length. unfold queries. apply length_fmap.
Qed.

(** X5.  No query is generated exactly for the categories RESEARCH,
    DOCUMENTATION, REFACTORING and DEPLOYMENT, which have no entry in the
    mapping; for every other category the first query is CRITICAL. *)
Theorem _generate_context_queries_empty
    (text : string) (c : TaskCategory) (techs : gset string)
    (comps : list TaskComponent) :
  (_generate_context_queries text c techs comps = [] ↔ c ∈ unmapped_categories)
  ∧ (c ∉ unmapped_categories →
     priority <$> head (_generate_context_queries text c techs comps) = Some CRITICAL).
Proof.
  unfold unmapped_categories.
  destruct c;
    (split;
     [ split;
       [ intros H; try (repeat constructor; fail);
         apply (f_equal List.length) in H; discriminate H
       | intros H; try reflexivity;
         exfalso; repeat (apply elem_of_cons in H as [H|H]; [discriminate H|]);
         inversion H ]
     | intros H; try reflexivity;
       exfalso; apply H; repeat constructor ]).
Qed.

Lemma _generate_context_queries_empty_witness :
  priority <$> head (_generate_context_queries "fix the login" DEBUGGING ∅ [])
  = Some CRITICAL.
Proof.
  apply (_generate_context_queries_empty "fix the login" DEBUGGING ∅ []).
  intros H. unfold unmapped_categories in H.
  repeat (apply elem_of_cons in H as [H|H]; [discriminate H|]).
  inversion H.
Defined.

(** A research task is categorised as RESEARCH and gets no query. *)
Example research_task_has_no_queries :
  _categorize_task "Research caching options" = RESEARCH
  ∧ _generate_context_queries "Research caching options" RESEARCH ∅ [] = [].
Proof. vm_compute. split; reflexivity. Qed.

(** *** Risk factors *)

Lemma _identify_risk_factors_not_nil (text : string) (comps : list TaskComponent) :
  _identify_risk_factors text comps ≠ [].
Proof.
  unfold _identify_risk_factors.
  set (found := map snd (filter _ risk_patterns)).
  set (risks1 := match filter _ comps with [] => found | _ => _ end).
  set (risks2 := if 3 <? List.length comps then _ else risks1).
  destruct risks2; discriminate.
Qed.

(** X6.  The list of risk factors is never empty, and "Low risk task"
    occurs in it only as its single entry. *)
Theorem _identify_risk_factors_nonempty (text : string) (comps : list TaskComponent) :
  _identify_risk_factors text comps ≠ []
  ∧ ("Low risk task" ∈ _identify_risk_factors text comps →
     _identify_risk_factors text comps = ["Low risk task"]).
Proof.
  unfold _identify_risk_factors.
  set (found := map snd (filter _ risk_patterns)).
  set (risks1 := match filter _ comps with [] => found | _ => _ end).
  set (risks2 := if 3 <? List.length comps then _ else risks1).
  assert ("Low risk task" ∉ found) as Hfound.
  { unfold found. intros H. apply list_elem_of_fmap in H as (e & He & Hin).
    apply list_elem_of_filter in Hin as [_ Hin]. unfold risk_patterns in Hin.
    repeat (apply elem_of_cons in Hin as [->|Hin]; [discriminate He|]).
    inversion Hin. }
  assert ("Low risk task" ∉ risks1) as H1.
  { unfold risks1. destruct (filter _ comps); [exact Hfound|].
    rewrite elem_of_app, list_elem_of_singleton. intros [H|H]; [tauto | discriminate H]. }
  assert ("Low risk task" ∉ risks2) as H2.
  { unfold risks2. destruct (3 <? List.length comps); [|exact H1].
    rewrite elem_of_app, list_elem_of_singleton. intros [H|H]; [tauto | discriminate H]. }
  destruct risks2 as [|r rs]; split; try discriminate; [reflexivity|].
  intros H. contradiction.
Qed.

Lemma _identify_risk_factors_nonempty_witness :
  _identify_risk_factors "add a button" [] = ["Low risk task"].
Proof.
  apply (_identify_risk_factors_nonempty "add a button" []).
  vm_compute. left.
Defined.

(** *** Success criteria *)

Lemma component_criteria_returns (comps : list TaskComponent) :
  returns (component_criteria comps) ↔ Forall handled comps.
Proof.
  induction comps as [|c comps IH].
  - split; [constructor | intros _; eexists; reflexivity].
  - unfold handled in *. split.
    + intros [l Hl].
      destruct (needs_performance (category c)) eqn:Hc.
      { rewrite (DecomposerFacts.component_criteria_raises c comps Hc) in Hl.
        discriminate Hl. }
      constructor; [exact Hc|]. apply IH.
      simpl in Hl. apply bind_Ok in Hl as (here & _ & Hl).
      apply bind_Ok in Hl as (more & Hmore & _). eexists; exact Hmore.
    + intros H. inversion H as [|? ? Hc Hrest]; subst.
      apply IH in Hrest as [more Hmore].
      unfold needs_performance in Hc. simpl. rewrite Hmore.
      destruct (decide (category c = TESTING)); [eexists; reflexivity|].
      destruct (decide (category c = DEBUGGING)); [eexists; reflexivity|].
      destruct (decide (category c = SECURITY)); [eexists; reflexivity|].
      rewrite !bool_decide_eq_false_2 in Hc by assumption. discriminate Hc.
Qed.

Lemma _generate_success_criteria_handled (text : string) (comps : list TaskComponent) :
  returns (_generate_success_criteria text comps) ↔ Forall handled comps.
Proof.
  unfold _generate_success_criteria.
  rewrite <- component_criteria_returns. split.
  - intros [l Hl]. apply bind_Ok in Hl as (b & Hb & _). eexists; exact Hb.
  - intros [b ->]. eexists. reflexivity.
Qed.

(** X7.  [_generate_success_criteria] returns exactly when every
    component is a testing, debugging or security component; the list it
    returns has no duplicates and holds the four generic criteria. *)
Theorem _generate_success_criteria_returns
    (text : string) (comps : list TaskComponent) :
  (returns (_generate_success_criteria text comps) ↔ Forall handled comps)
  ∧ (∀ l, _generate_success_criteria text comps = Ok l →
          NoDup l ∧ ∀ c, c ∈ generic_criteria → c ∈ l).
Proof.
  split; [apply _generate_success_criteria_handled|].
  unfold _generate_success_criteria.
  - intros l Hl. apply bind_Ok in Hl as (b & _ & Hl). injection Hl as <-.
    split; [apply NoDup_elements|].
    intros c Hc. rewrite elem_of_elements.
    change (c ∈ (list_to_set
                   (["Task implementation completed successfully"] ++ b ++
                    List.concat (map technology_criteria
                                   (elements (⋃ map technologies comps))) ++
                    [ "Code follows project conventions and standards";
                      "Documentation updated as needed";
                      "No regressions in existing functionality" ]) : gset string)).
    rewrite elem_of_list_to_set.
    unfold generic_criteria in Hc.
    rewrite !elem_of_cons in Hc. rewrite !elem_of_app, !elem_of_cons. tauto.
Qed.

Lemma _generate_success_criteria_returns_witness :
  returns (_generate_success_criteria "test the login" [testing_component]).
Proof.
  apply (_generate_success_criteria_returns "test the login" [testing_component]).
  repeat constructor.
Defined.

(** *** Components *)

Lemma make_component_fields g text name c techs comp :
  make_component g text name c techs = Ok comp →
  component comp = name ∧ category comp = c ∧ technologies comp = techs
  ∧ estimated_complexity comp = _estimate_complexity text.
Proof.
  unfold make_component. intros H.
  apply bind_Ok in H as (terms & _ & H). injection H as <-. tauto.
Qed.

Lemma sub_components_secondary g parts subs :
  sub_components g parts = Ok subs →
  Forall secondary subs ∧ List.length subs ≤ List.length parts.
Proof.
  revert subs. induction parts as [|part parts IH]; intros subs H; simpl in H.
  - injection H as <-. split; [constructor | reflexivity].
  - destruct (10 <? String.length (Text.strip part)) eqn:Hlen.
    + apply bind_Ok in H as (sub & Hsub & H).
      apply bind_Ok in H as (more & Hmore & H). injection H as <-.
      apply make_component_fields in Hsub as (Hname & Hcat & Htech & _).
      destruct (IH more Hmore) as [Hall Hle].
      split; [|simpl; lia].
      constructor; [|exact Hall].
      exists part. rewrite Hname. apply Nat.ltb_lt in Hlen. tauto.
    + destruct (IH subs H) as [Hall Hle]. split; [exact Hall | simpl; lia].
Qed.

Lemma _identify_components_main
    (g : string → gset string → result (list string))
    (text : string) (c : TaskCategory) (techs : gset string)
    (comps : list TaskComponent) :
  _identify_components g text c techs = Ok comps →
  ∃ main rest, comps = main :: rest ∧ category main = c.
Proof.
  unfold _identify_components. intros H.
  apply bind_Ok in H as (main & Hmain & H).
  apply make_component_fields in Hmain as (_ & Hcat & _).
  destruct (Text.contains "and" (Text.lower text)).
  - apply bind_Ok in H as (subs & _ & H). injection H as <-.
    exists main, subs. split; [reflexivity | exact Hcat].
  - injection H as <-. exists main, []. split; [reflexivity | exact Hcat].
Qed.

(** X8.  When [_identify_components] returns, the first component is the
    whole task with the category and the technologies it was given; every
    further component is the stripped form of a fragment, longer than ten
    characters, categorised on its own; there is no further component
    when "and" does not occur in the lower-cased text. *)
Theorem _identify_components_shape
    (g : string → gset string → result (list string))
    (text : string) (c : TaskCategory) (techs : gset string)
    (comps : list TaskComponent) :
  _identify_components g text c techs = Ok comps →
  ∃ main rest,
    comps = main :: rest
    ∧ component main = text ∧ category main = c ∧ technologies main = techs
    ∧ Forall secondary rest
    ∧ (Text.contains "and" (Text.lower text) = false → rest = []).
Proof.
  unfold _identify_components. intros H.
  apply bind_Ok in H as (main & Hmain & H).
  apply make_component_fields in Hmain as (Hname & Hcat & Htech & _).
  destruct (Text.contains "and" (Text.lower text)).
  - apply bind_Ok in H as (subs & Hsubs & H). injection H as <-.
    exists main, subs. apply sub_components_secondary in Hsubs as [Hall _].
    repeat (split; [assumption || reflexivity|]). intros Hf. discriminate Hf.
  - injection H as <-. exists main, []. 
    repeat (split; [assumption || reflexivity || constructor|]). reflexivity.
Qed.

Lemma _identify_components_shape_witness :
  ∃ main rest,
    [testing_component] = main :: rest
    ∧ component main = "test the login" ∧ category main = TESTING
    ∧ technologies main = ∅
    ∧ Forall secondary rest
    ∧ (Text.contains "and" (Text.lower "test the login") = false → rest = []).
Proof.
  apply (_identify_components_shape no_search_terms "test the login" TESTING ∅
           [testing_component]).
  vm_compute. reflexivity.
Defined.

(** The split is on the word: a text that holds "and" only inside a word
    has one component. *)
Example and_inside_a_word :
  List.length <$> (match _identify_components no_search_terms
                           "test the sandbox handler" TESTING ∅ with
                   | Ok l => Some l | Raise _ => None end) = Some 1
  ∧ List.length <$> (match _identify_components no_search_terms
                             "test the login page and verify the logout page"
                             TESTING ∅ with
                     | Ok l => Some l | Raise _ => None end) = Some 2.
Proof. vm_compute. split; reflexivity. Qed.

(** *** The whole decomposition *)

(** X9.  A decomposition is returned only when every component, the
    whole task first, is a testing, debugging or security component; the
    decomposition then holds the text, its category, its technologies and
    the queries generated for them. *)
Theorem decompose_task_returns_only
    (g : string → gset string → result (list string))
    (text : string) (d : TaskDecomposition) :
  decompose_task g text = Ok d →
  Forall handled (components d)
  ∧ needs_performance (primary_category d) = false
  ∧ original_task d = text
  ∧ primary_category d = _categorize_task text
  ∧ technologies_involved d = _extract_technologies text
  ∧ context_queries d
    = _generate_context_queries text (_categorize_task text)
        (_extract_technologies text) (components d)
  ∧ risk_factors d ≠ [].
Proof.
  unfold decompose_task. intros H.
  apply bind_Ok in H as (comps & Hcomps & H).
  apply bind_Ok in H as (criteria & Hcrit & H). injection H as <-. simpl.
  assert (Forall handled comps) as Hall.
  { apply (_generate_success_criteria_handled text comps). eexists; exact Hcrit. }
  split; [exact Hall|].
  split.
  { apply _identify_components_main in Hcomps as (main & rest & -> & Hcat).
    inversion Hall as [|? ? Hmain _]; subst.
    unfold handled in Hmain. rewrite Hcat in Hmain. exact Hmain. }
  repeat (split; [reflexivity|]).
  apply _identify_risk_factors_not_nil.
Qed.

Lemma decompose_task_returns_only_witness :
  ∃ d, decomposed "test the login" = Some d
       ∧ Forall handled (components d)
       ∧ primary_category d = TESTING.
Proof.
  destruct (decompose_task no_search_terms "test the login") as [d|e] eqn:Hd;
    [|vm_compute in Hd; discriminate Hd].
  exists d. unfold decomposed. rewrite Hd. split; [reflexivity|].
  destruct (decompose_task_returns_only no_search_terms "test the login" d Hd)
    as (Hall & _ & _ & Hcat & _).
  split; [exact Hall|]. rewrite Hcat. vm_compute. reflexivity.
Defined.

End DecomposerMore.

(** ** orchestrator.py, further *)

Module OrchestratorMore.

Import Orchestrator.

(** *** The analysis *)

Ltac each_detector content :=
  destruct (_contains_decision_content (Text.lower content));
  destruct (_contains_error_content (Text.lower content));
  destruct (_contains_task_content (Text.lower content));
  destruct (_contains_test_content (Text.lower content));
  destruct (_contains_context_request (Text.lower content)).

Lemma analyze_context_signature
    (content : string) (metadata : option (list (string * string))) :
  map signature (analyze_context content metadata) = triggered content.
Proof.
  unfold analyze_context, triggered, detectors. cbn [List.filter fst snd].
  each_detector content; reflexivity.
Qed.

Lemma analyze_context_has_context
    (content : string) (metadata : option (list (string * string))) :
  Forall (fun inv => context inv ≠ None) (analyze_context content metadata).
Proof.
  unfold analyze_context. each_detector content; repeat constructor; discriminate.
Qed.

(** X10.  The invocations returned by [analyze_context] are those of the
    detectors that fire on the lower-cased content, in the fixed order
    store, debug, context, test, recall: the sort by priority never moves
    one.  So there are at most five, their agent types are distinct, and
    each has a dict as context. *)
Theorem analyze_context_triggered
    (content : string) (metadata : option (list (string * string))) :
  map signature (analyze_context content metadata) = triggered content
  ∧ NoDup (map agent_type (analyze_context content metadata))
  ∧ List.length (analyze_context content metadata) ≤ 5
  ∧ Forall (fun inv => context inv ≠ None) (analyze_context content metadata).
Proof.
  split; [apply analyze_context_signature|].
  split; [|split; [|apply analyze_context_has_context]].
  - unfold analyze_context. each_detector content;
      apply (bool_decide_unpack _); vm_compute; exact I.
  - unfold analyze_context. each_detector content; simpl; lia.
Qed.

(** X11.  The list holds a memory-store invocation exactly when a
    decision pattern occurs in the lower-cased content; it is then the
    first invocation of the list. *)
Theorem analyze_context_store
    (content : string) (metadata : option (list (string * string))) :
  ((∃ inv, inv ∈ analyze_context content metadata ∧ agent_type inv = MEMORY_STORE)
   ↔ _contains_decision_content (Text.lower content) = true)
  ∧ (_contains_decision_content (Text.lower content) = true →
     signature <$> head (analyze_context content metadata)
     = Some (MEMORY_STORE, DECISION_MADE, 1%Z)).
Proof.
  assert (MEMORY_STORE ∈ map agent_type (analyze_context content metadata)
          ↔ _contains_decision_content (Text.lower content) = true) as Hiff.
  { replace (map agent_type (analyze_context content metadata))
      with (map (fun s : AgentType * TriggerCondition * Z => s.1.1) (triggered content)).
    2:{ rewrite <- (analyze_context_signature content metadata).
        rewrite <- list_fmap_compose. reflexivity. }
    unfold triggered, detectors. cbn [List.filter fst snd].
    destruct (_contains_decision_content (Text.lower content));
      destruct (_contains_error_content (Text.lower content));
      destruct (_contains_task_content (Text.lower content));
      destruct (_contains_test_content (Text.lower content));
      destruct (_contains_context_request (Text.lower content));
      simpl; split; intros H; try reflexivity; try discriminate H;
      try (left; fail);
      repeat (apply elem_of_cons in H as [H|H]; [discriminate H|]);
      inversion H. }
  split.
  - rewrite <- Hiff, list_elem_of_fmap. split.
    + intros (inv & Hin & Hty). exists inv. split; [symmetry; exact Hty | exact Hin].
    + intros (inv & Hty & Hin). exists inv. split; [exact Hin | symmetry; exact Hty].
  - intros Hd.
    pose proof (analyze_context_signature content metadata) as Hsig.
    destruct (analyze_context content metadata) as [|inv l];
      unfold triggered, detectors in Hsig; cbn [List.filter fst snd] in Hsig;
      rewrite Hd in Hsig; simpl in Hsig; [discriminate Hsig|].
    simpl. congruence.
Qed.

Lemma analyze_context_store_witness :
  signature <$> head (analyze_context scenario_A None)
  = Some (MEMORY_STORE, DECISION_MADE, 1%Z).
Proof.
  apply (analyze_context_store scenario_A None).
  vm_compute. reflexivity.
Defined.

(** *** Execution without a skip *)

Section NoSkip.

Variable now : nat → Z.

Lemma _execute_single_agent_type inv r :
  _execute_single_agent inv = Ok r → result_agent_type r = agent_type inv.
Proof.
  unfold _execute_single_agent. intros H.
  apply bind_Ok in H as (p & _ & H). injection H as <-. reflexivity.
Qed.

(** One iteration on an invocation whose type is not active: one result,
    of that type, and the same active set afterwards. *)
Lemma iteration_runs st inv :
  agent_type inv ∉ active_agents (self st) →
  ∃ r, results (iteration now st inv) = results st ++ [r]
       ∧ result_agent_type r = agent_type inv
       ∧ (success r = true ↔ returns (_execute_single_agent inv))
       ∧ active_agents (self (iteration now st inv)) = active_agents (self st).
Proof.
  intros Hout. unfold iteration, try_body. simpl.
  destruct (decide (agent_type inv ∈ active_agents (self st))) as [Hin|_];
    [contradiction|].
  destruct (_execute_single_agent inv) as [r|e] eqn:Hr; simpl.
  - eexists. split; [reflexivity|]. simpl.
    split; [exact (_execute_single_agent_type inv r Hr)|].
    split; [|set_solver].
    rewrite (OrchestratorFacts._execute_single_agent_success inv r Hr).
    split; [intros _; eexists; reflexivity | reflexivity].
  - eexists. split; [reflexivity|]. simpl.
    split; [reflexivity|]. split; [|set_solver].
    split; [intros H; discriminate H | intros [r Hr']; discriminate Hr'].
Qed.

Lemma run_loop_runs invs st :
  none_active (self st) invs →
  ∃ rs, results (run_loop now invs st) = results st ++ rs
        ∧ map result_agent_type rs = map agent_type invs
        ∧ Forall2 (fun r inv => success r = true ↔ returns (_execute_single_agent inv))
                  rs invs
        ∧ active_agents (self (run_loop now invs st)) = active_agents (self st).
Proof.
  unfold run_loop, none_active. revert st.
  induction invs as [|inv invs IH]; intros st Hnone; simpl.
  - exists []. rewrite app_nil_r. repeat split. constructor.
  - destruct (iteration_runs st inv) as (r & Hres & Hty & Hsucc & Hact);
      [apply Hnone; left|].
    destruct (IH (iteration now st inv)) as (rs & Hres' & Htys & Hall & Hact').
    { intros inv' Hin'. rewrite Hact. apply Hnone. right. exact Hin'. }
    exists (r :: rs). rewrite Hres', Hres, <- app_assoc. simpl.
    split; [reflexivity|]. split; [rewrite Hty, Htys; reflexivity|].
    split; [constructor; assumption|]. rewrite Hact', Hact. reflexivity.
Qed.

End NoSkip.

(** X12.  When no agent type of the invocations is marked active at the
    start, none is skipped, even if a type occurs several times: the
    results are one per invocation, in order and of the same agent types;
    a result reports success exactly when the run of its invocation did
    not raise; the active set is the same afterwards. *)
Theorem execute_invocations_no_skip
    (now : nat → Z) (o : AgentOrchestrator) (t : nat)
    (invs : list AgentInvocation) :
  none_active o invs →
  map result_agent_type (execute_invocations now o t invs).2 = map agent_type invs
  ∧ Forall2 (fun r inv => success r = true ↔ returns (_execute_single_agent inv))
            (execute_invocations now o t invs).2 invs
  ∧ active_agents (execute_invocations now o t invs).1 = active_agents o.
Proof.
  intros Hnone. unfold execute_invocations. simpl.
  destruct (run_loop_runs now invs {| self := o; results := []; ticks := t |} Hnone)
    as (rs & Hres & Htys & Hall & Hact).
  simpl in Hres. rewrite Hres. tauto.
Qed.

Lemma execute_invocations_no_skip_witness :
  map result_agent_type
    (execute_invocations (fun n => Z.of_nat n) init 0
       [store_invocation "a"; store_invocation "b"]).2
  = [MEMORY_STORE; MEMORY_STORE].
Proof.
  apply (execute_invocations_no_skip (fun n => Z.of_nat n) init 0
           [store_invocation "a"; store_invocation "b"]).
  intros inv _. apply not_elem_of_empty.
Defined.

(** X13.  The active set after [execute_invocations] is the set before
    it without the agent types of the invocations: no mark is added, and
    the marks of other agent types stay. *)
Theorem execute_invocations_active_frame
    (now : nat → Z) (o : AgentOrchestrator) (t : nat)
    (invs : list AgentInvocation) :
  active_agents (execute_invocations now o t invs).1
  = active_agents o ∖ list_to_set (map agent_type invs).
Proof.
  unfold execute_invocations. simpl.
  apply OrchestratorFacts.run_loop_active.
Qed.

(** *** The entry point *)

(** With a dict as context the prompt is built and the simulated run
    returns. *)
Lemma _execute_single_agent_returns inv :
  context inv ≠ None → returns (_execute_single_agent inv).
Proof.
  intros Hctx. unfold _execute_single_agent, _build_agent_prompt, context_get.
  destruct (context inv) as [d|]; [|contradiction].
  destruct (agent_type inv); simpl; eexists; reflexivity.
Qed.

Lemma filter_all_success (rs : list AgentResult) :
  Forall (fun r => success r = true) rs →
  List.filter success rs = rs ∧ List.filter (fun r => negb (success r)) rs = [].
Proof.
  induction 1 as [|r rs Hr _ [IH1 IH2]]; [split; reflexivity|].
  simpl. rewrite Hr. simpl. rewrite IH1, IH2. split; reflexivity.
Qed.

Lemma Forall2_success (rs : list AgentResult) (invs : list AgentInvocation) :
  Forall2 (fun r inv => success r = true ↔ returns (_execute_single_agent inv)) rs invs →
  Forall (fun inv => context inv ≠ None) invs →
  Forall (fun r => success r = true) rs.
Proof.
  induction 1 as [|r inv rs invs Hr _ IH]; intros Hctx; [constructor|].
  inversion Hctx; subst. constructor; [|apply IH; assumption].
  apply Hr, _execute_single_agent_returns. assumption.
Qed.

Lemma execute_invocations_history now o t invs :
  agent_history (execute_invocations now o t invs).1
  = agent_history o ++ List.filter success (execute_invocations now o t invs).2.
Proof.
  unfold execute_invocations. cbn [fst snd].
  apply OrchestratorFacts.run_loop_history. simpl. rewrite app_nil_r. reflexivity.
Qed.

(** X14.  On an orchestrator without active agents,
    [autonomous_memory_operation] reports nothing to do when no detector
    fires on the content; otherwise every triggered agent is reported as
    successful and none as failed, the history grows by one entry for each
    triggered agent, and no agent is left active. *)
Theorem autonomous_memory_operation_idle
    (now : nat → Z) (o : AgentOrchestrator) (t : nat) (content : string)
    (metadata : option (list (string * string))) :
  active_agents o = ∅ →
  idle_outcome o content (autonomous_memory_operation now o t content metadata).
Proof.
  intros Hidle. unfold autonomous_memory_operation, idle_outcome.
  pose proof (analyze_context_signature content metadata) as Hsig.
  pose proof (analyze_context_has_context content metadata) as Hctx.
  destruct (analyze_context content metadata) as [|inv invs] eqn:Hinvs.
  { simpl. rewrite <- Hsig. tauto. }
  remember (inv :: invs) as all eqn:Hall_eq.
  assert (none_active o all) as Hnone.
  { intros i _. rewrite Hidle. apply not_elem_of_empty. }
  assert (map result_agent_type (execute_invocations now o t all).2 = map agent_type all
          ∧ Forall2 (fun r inv => success r = true ↔ returns (_execute_single_agent inv))
                    (execute_invocations now o t all).2 all
          ∧ active_agents (execute_invocations now o t all).1 = active_agents o)
    as (Htys & Hall & Hact).
  { unfold execute_invocations. simpl.
    destruct (run_loop_runs now all {| self := o; results := []; ticks := t |} Hnone)
      as (rs & Hres & Htys & Hall & Hact).
    simpl in Hres. rewrite Hres. tauto. }
  pose proof (execute_invocations_history now o t all) as Hhist.
  destruct (execute_invocations now o t all) as [o' rs].
  cbn [fst snd] in *.
  pose proof (Forall2_success rs all Hall Hctx) as Hsucc.
  destruct (filter_all_success rs Hsucc) as [Hok Hfail].
  assert (List.length rs = List.length all) as Hlen.
  { rewrite <- (List.length_map result_agent_type rs), Htys. apply List.length_map. }
  assert (List.length all = List.length (triggered content)) as Hlen'.
  { rewrite <- Hsig. symmetry. apply List.length_map. }
  rewrite Hok, Hfail.
  split; [rewrite <- Hsig, Hall_eq; discriminate|].
  split; [exact Hlen'|].
  split.
  { transitivity (map AgentType_value (map agent_type all)).
    - rewrite <- Htys, List.map_map. reflexivity.
    - rewrite <- Hsig, !List.map_map. reflexivity. }
  split; [reflexivity|].
  split.
  { rewrite List.Forall_map. eapply Forall_impl; [exact Hsucc|]. intros r Hr. exact Hr. }
  split; [rewrite List.length_map; lia|].
  split; [rewrite Hhist, Hok, List.length_app; lia|].
  rewrite Hact. exact Hidle.
Qed.

Lemma autonomous_memory_operation_idle_witness :
  idle_outcome init scenario_A
    (autonomous_memory_operation (fun n => Z.of_nat n) init 0 scenario_A None).
Proof.
  apply (autonomous_memory_operation_idle (fun n => Z.of_nat n) init 0 scenario_A None).
  reflexivity.
Defined.

End OrchestratorMore.

(** ** relevance_scorer.py, further *)

Module ScorerMore.

Import RelevanceScorer.

Local Open Scope R_scope.

(** *** Confidence *)

(** X15.  The confidence is between 0.36 and 0.9, whatever the dimension
    scores and the total are. *)
Theorem _calculate_confidence_bounds
    (dimension_scores : list (ScoreDimension * R)) (total : R) :
  0.36 <= _calculate_confidence dimension_scores total <= 0.9.
Proof.
  unfold _calculate_confidence.
  repeat match goal with
         | |- context [if ?b then _ else _] => destruct b
         end; lra.
Qed.

(** *** The weight profile *)

(** X16.  The profile of [get_optimal_weights_for_context] sums to 1
    exactly when no adjustment applies; every adjusted profile sums to
    more than 1. *)
Theorem optimal_weights_sum (context : ScoringContext) :
  (weights_sum (get_optimal_weights_for_context context) = 1 ↔ unadjusted context)
  ∧ 1 <= weights_sum (get_optimal_weights_for_context context).
Proof.
  unfold unadjusted, get_optimal_weights_for_context, weights_sum.
  destruct (decide (temporal_preference context = Some "recent")) as [Hr|Hr];
    destruct (falsy (content_type_preference context));
    destruct (decide (target_technologies context = ∅)) as [Ht|Ht];
    destruct (factor context ERROR_CONTEXT);
    simpl;
    (split;
     [ split;
       [ intros H; first [exfalso; lra | repeat split; assumption || reflexivity]
       | intros (H1 & H2 & H3 & H4); first [lra | congruence] ]
     | lra ]).
Qed.

(** *** Usage frequency *)

Lemma ln_monotone (x y : R) : 0 < x → x <= y → ln x <= ln y.
Proof.
  intros Hx [Hlt|Heq]; [left; apply ln_increasing; assumption | rewrite Heq; lra].
Qed.

Lemma ln_10_pos : 0 < ln 10.
Proof. rewrite <- ln_1. apply ln_increasing; lra. Qed.

Lemma Rmin_monotone (x y : R) : x <= y → Rmin 1.0 x <= Rmin 1.0 y.
Proof.
  intros H. unfold Rmin.
  destruct (Rle_dec 1.0 x); destruct (Rle_dec 1.0 y); lra.
Qed.

(** X17.  The usage score is 0 for a candidate never used, 1 from nine
    uses on, and never decreases with the number of uses. *)
Theorem _calculate_usage_frequency_shape
    (c1 c2 : MemoryCandidate) (context : ScoringContext) :
  ((usage_count c1 <= 0)%Z → _calculate_usage_frequency c1 context = 0.0)
  ∧ ((9 <= usage_count c1)%Z → _calculate_usage_frequency c1 context = 1.0)
  ∧ ((usage_count c1 <= usage_count c2)%Z →
     _calculate_usage_frequency c1 context <= _calculate_usage_frequency c2 context).
Proof.
  pose proof ln_10_pos as H10.
  pose proof (Rinv_0_lt_compat _ H10) as Hinv.
  split; [|split].
  - intros H. unfold _calculate_usage_frequency.
    destruct (decide (usage_count c1 <= 0)%Z); [reflexivity | lia].
  - intros H. unfold _calculate_usage_frequency.
    destruct (decide (usage_count c1 <= 0)%Z); [lia|].
    assert (ln 10 <= ln (IZR (usage_count c1 + 1))) as Hln.
    { apply ln_monotone; [lra|]. apply IZR_le. lia. }
    assert (1 <= ln (IZR (usage_count c1 + 1)) / ln 10) as Hq.
    { unfold Rdiv. rewrite <- (Rinv_r (ln 10)) by lra.
      apply Rmult_le_compat_r; lra. }
    unfold Rmin. destruct (Rle_dec 1.0 _); lra.
  - intros H.
    pose proof (ScorerFacts.usage_frequency_unit c2 context) as [H0 _].
    unfold _calculate_usage_frequency in *.
    destruct (decide (usage_count c1 <= 0)%Z); [lra|].
    destruct (decide (usage_count c2 <= 0)%Z); [lia|].
    apply Rmin_monotone. unfold Rdiv. apply Rmult_le_compat_r; [lra|].
    apply ln_monotone; [apply IZR_lt; lia | apply IZR_le; lia].
Qed.

Lemma _calculate_usage_frequency_shape_witness :
  _calculate_usage_frequency (used 0) plain_context = 0.0
  ∧ _calculate_usage_frequency (used 12) plain_context = 1.0
  ∧ _calculate_usage_frequency (used 3) plain_context
    <= _calculate_usage_frequency (used 12) plain_context.
Proof.
  split; [|split].
  - apply (_calculate_usage_frequency_shape (used 0) (used 0) plain_context).
    simpl. lia.
  - apply (_calculate_usage_frequency_shape (used 12) (used 12) plain_context).
    simpl. lia.
  - apply (_calculate_usage_frequency_shape (used 3) (used 12) plain_context).
    simpl. lia.
Defined.

(** *** The temporal preferences *)

(** X18.  Under the "recent" preference a later timestamp never scores
    lower; under the "historical" preference it never scores higher, and
    the score is at least 0.6 and at most 1. *)
Theorem temporal_preference_monotone
    (now : Z) (newer older : MemoryCandidate) (context : ScoringContext)
    (ts_newer ts_older : Z) :
  timestamp newer = Some ts_newer →
  timestamp older = Some ts_older →
  (ts_older <= ts_newer)%Z →
  (temporal_preference context = Some "recent" →
   _calculate_temporal_relevance now older context
   <= _calculate_temporal_relevance now newer context)
  ∧ (temporal_preference context = Some "historical" →
     _calculate_temporal_relevance now newer context
     <= _calculate_temporal_relevance now older context
     ∧ 0.6 <= _calculate_temporal_relevance now newer context <= 1).
Proof.
  intros Hn Ho Hle.
  pose proof (ScorerFacts.days_between_mono now ts_newer ts_older Hle) as Hdays.
  unfold _calculate_temporal_relevance. rewrite Hn, Ho. split.
  - intros Hp.
    destruct (decide (temporal_preference context = Some "recent")); [|contradiction].
    apply IZR_le in Hdays.
    assert (- (0.1) * IZR (days_between now ts_older) / 30
            <= - (0.1) * IZR (days_between now ts_newer) / 30) as [Hlt|Heq]
      by (unfold Rdiv; lra).
    + left. apply exp_increasing. exact Hlt.
    + rewrite Heq. lra.
  - intros Hp.
    destruct (decide (temporal_preference context = Some "recent")) as [E|_];
      [rewrite Hp in E; discriminate E|].
    destruct (decide (temporal_preference context = Some "historical")); [|contradiction].
    assert (∀ d, (d > 90)%Z → 0 <= (IZR d - 90) / 365) as Hpos.
    { intros d Hd. apply Z.gt_lt, IZR_lt in Hd. unfold Rdiv. lra. }
    destruct (decide (days_between now ts_newer > 90)%Z) as [Hn90|Hn90];
      destruct (decide (days_between now ts_older > 90)%Z) as [Ho90|Ho90];
      try lia.
    + pose proof (ScorerFacts.Rmin_unit _ (Hpos _ Hn90)) as [? ?].
      pose proof (ScorerFacts.Rmin_unit _ (Hpos _ Ho90)) as [? ?].
      split; [|lra].
      assert (Rmin 1.0 ((IZR (days_between now ts_newer) - 90) / 365)
              <= Rmin 1.0 ((IZR (days_between now ts_older) - 90) / 365)).
      { apply Rmin_monotone. apply IZR_le in Hdays. unfold Rdiv. lra. }
      lra.
    + pose proof (ScorerFacts.Rmin_unit _ (Hpos _ Ho90)) as [? ?]. lra.
    + lra.
Qed.

Lemma temporal_preference_monotone_witness :
  _calculate_temporal_relevance today yesterday (with_preference "historical")
  <= _calculate_temporal_relevance today two_years_ago (with_preference "historical").
Proof.
  apply (temporal_preference_monotone today yesterday two_years_ago
           (with_preference "historical") (today - day)%Z (today - 730 * day)%Z).
  - reflexivity.
  - reflexivity.
  - vm_compute. discriminate.
  - reflexivity.
Defined.

(** *** Metadata requirements *)

Lemma requirement_match_satisfied candidate key expected :
  satisfied candidate key expected → requirement_match candidate key expected = 1.
Proof.
  unfold satisfied, requirement_match. destruct expected as [e|l].
  - intros ->. destruct (decide (MAtom e = MAtom e)); [reflexivity | contradiction].
  - intros (a & -> & Ha). destruct (decide (a ∈ l)); [reflexivity | contradiction].
Qed.

Lemma requirement_match_absent candidate key expected :
  metadata candidate !! key = None → requirement_match candidate key expected = 0.
Proof. unfold requirement_match. intros ->. reflexivity. Qed.

Lemma sum_R_constant (f : string * MetaValue → R) (l : list (string * MetaValue)) (v : R) :
  (∀ x, x ∈ l → f x = v) → sum_R (map f l) = INR (List.length l) * v.
Proof.
  intros Hf. induction l as [|x l IH].
  - simpl. lra.
  - change (sum_R (map f (x :: l))) with (f x + sum_R (map f l)).
    change (List.length (x :: l)) with (S (List.length l)).
    rewrite S_INR. rewrite (Hf x) by left.
    rewrite IH by (intros y Hy; apply Hf; right; exact Hy). lra.
Qed.

(** X19.  With at least one requirement, the metadata score is 1 when
    the candidate meets every requirement (an equal value, or a value
    that is a member of the required list) and 0 when it has none of the
    required keys; without requirements it is the neutral 0.5. *)
Theorem _calculate_metadata_match_ends
    (candidate : MemoryCandidate) (context : ScoringContext)
    (reqs : gmap string MetaValue) :
  metadata_requirements context = Some reqs →
  (reqs = ∅ → _calculate_metadata_match candidate context = 0.5)
  ∧ (reqs ≠ ∅ →
     (∀ k v, reqs !! k = Some v → satisfied candidate k v) →
     _calculate_metadata_match candidate context = 1)
  ∧ (reqs ≠ ∅ →
     (∀ k v, reqs !! k = Some v → metadata candidate !! k = None) →
     _calculate_metadata_match candidate context = 0).
Proof.
  intros Hreqs. unfold _calculate_metadata_match. rewrite Hreqs.
  split; [|split].
  - intros ->. destruct (decide (∅ = ∅)) as [_|H]; [reflexivity | contradiction].
  - intros Hne Hall.
    destruct (decide (reqs = ∅)); [contradiction|].
    assert (size reqs ≠ 0%nat) as Hsize by (rewrite map_size_empty_iff; assumption).
    destruct (decide (0 < size reqs)%nat); [|lia].
    rewrite (sum_R_constant _ _ 1).
    + rewrite length_map_to_list.
      assert (INR (size reqs) ≠ 0) by (apply not_0_INR; exact Hsize).
      unfold Rdiv. rewrite Rmult_1_r. apply Rinv_r. assumption.
    + intros [k v] Hkv. apply elem_of_map_to_list in Hkv.
      apply requirement_match_satisfied, Hall, Hkv.
  - intros Hne Hall.
    destruct (decide (reqs = ∅)); [contradiction|].
    assert (size reqs ≠ 0%nat) as Hsize by (rewrite map_size_empty_iff; assumption).
    destruct (decide (0 < size reqs)%nat); [|lia].
    rewrite (sum_R_constant _ _ 0).
    + unfold Rdiv. lra.
    + intros [k v] Hkv. apply elem_of_map_to_list in Hkv.
      apply requirement_match_absent. exact (Hall k v Hkv).
Qed.

Lemma _calculate_metadata_match_ends_witness :
  _calculate_metadata_match
    (with_metadata {[ "project" := MAtom (AStr "shop") ]})
    (with_requirements {[ "project" := MList [AStr "shop"; AStr "blog"] ]}) = 1.
Proof.
  apply (_calculate_metadata_match_ends
           (with_metadata {[ "project" := MAtom (AStr "shop") ]})
           (with_requirements {[ "project" := MList [AStr "shop"; AStr "blog"] ]})
           {[ "project" := MList [AStr "shop"; AStr "blog"] ]}).
  - reflexivity.
  - apply (bool_decide_unpack _). vm_compute. exact I.
  - intros k v Hkv. apply lookup_singleton_Some in Hkv as [<- <-].
    exists (AStr "shop"). split; [reflexivity | left].
Defined.

(** A required list is matched by a member, not by an equal list. *)
Example equal_list_is_no_match :
  _calculate_metadata_match
    (with_metadata {[ "langs" := MList [AStr "go"] ]})
    (with_requirements {[ "langs" := MList [AStr "go"] ]}) = 0.
Proof.
  unfold _calculate_metadata_match. simpl.
  destruct (decide _) as [H|_]; [vm_compute in H; discriminate H|].
  destruct (decide _) as [_|H]; [|exfalso; apply H; vm_compute; lia].
  rewrite map_to_list_singleton. simpl. unfold requirement_match. simpl.
  rewrite lookup_singleton_eq. unfold Rdiv. lra.
Qed.

(** *** The contextual adjustments *)

(** X20.  When the adjustments return, the adjusted score is the base
    score lowered by at most 0.05 and raised by at most 0.23; in a context
    without contextual factors it is the base score, with no new booster
    or penalty. *)
Theorem _apply_contextual_adjustments_range
    (now : Z) (base : R) (candidate : MemoryCandidate) (context : ScoringContext)
    (out : R * list string * list string) :
  _apply_contextual_adjustments now base candidate context = Ok out →
  base - 0.05 <= out.1.1 <= base + 0.23
  ∧ (contextual_factors context = None → out = (base, [], [])).
Proof.
  unfold _apply_contextual_adjustments. intros H.
  apply bind_Ok in H as ([s1 b1] & H1 & H). injection H as <-. simpl.
  assert (base <= s1 <= base + 0.1 ∧ (contextual_factors context = None → (s1, b1) = (base, [])))
    as [Hs1 Hn1].
  { unfold urgency_adjustment, factor in H1.
    destruct (contextual_factors context) as [f|].
    - split; [|discriminate].
      destruct (f !! URGENCY_LEVEL) as [u|]; [|injection H1 as <- <-; lra].
      destruct (String.eqb u "high"); [|injection H1 as <- <-; lra].
      apply bind_Ok in H1 as (d & _ & H1).
      destruct (decide (d <= 7)%Z); injection H1 as <- <-; lra.
    - injection H1 as <- <-. split; [lra | reflexivity]. }
  unfold complexity_adjustment, domain_adjustment, stage_adjustment, factor.
  destruct (contextual_factors context) as [f|].
  - split; [|discriminate].
    repeat match goal with
           | |- context [match ?x with _ => _ end] =>
               match type of x with
               | option _ => destruct x
               | bool => destruct x
               end; simpl
           end; lra.
  - simpl. split; [lra|]. intros _. specialize (Hn1 eq_refl).
    injection Hn1 as -> ->. reflexivity.
Qed.

Lemma _apply_contextual_adjustments_range_witness :
  ∃ out, _apply_contextual_adjustments today 0.5 yesterday
           (with_factor URGENCY_LEVEL "high") = Ok out
         ∧ 0.5 - 0.05 <= out.1.1 <= 0.5 + 0.23.
Proof.
  destruct (ScorerFacts.adjustments_returns today yesterday
              (with_factor URGENCY_LEVEL "high") 0.5) as [out Hout].
  { left. discriminate. }
  exists out. split; [exact Hout|].
  apply (_apply_contextual_adjustments_range today 0.5 yesterday
           (with_factor URGENCY_LEVEL "high") out Hout).
Defined.

(** *** Scoring a batch *)

Lemma score_relevance_returns_iff now_t now_a candidate context weights :
  returns (score_relevance now_t now_a candidate context weights)
  ↔ scorable context candidate.
Proof.
  unfold scorable. split.
  - intros [s Hs].
    destruct (timestamp candidate) as [ts|] eqn:Hts; [left; discriminate|].
    right. intros Hu.
    rewrite (ScorerFacts.score_relevance_raises _ _ _ _ _ Hts Hu) in Hs.
    discriminate Hs.
  - apply ScorerFacts.score_relevance_returns.
Qed.

Lemma score_all_returns readings i candidates context weights :
  returns (score_all readings i candidates context weights)
  ↔ Forall (scorable context) candidates.
Proof.
  revert i. induction candidates as [|c cs IH]; intros i; simpl.
  - split; [constructor | intros _; eexists; reflexivity].
  - split.
    + intros [l Hl]. apply bind_Ok in Hl as (s & Hs & Hl).
      apply bind_Ok in Hl as (more & Hmore & _).
      constructor.
      * apply (score_relevance_returns_iff (readings i).1 (readings i).2 c context weights).
        eexists; exact Hs.
      * apply (IH (S i)). eexists; exact Hmore.
    + intros H. inversion H as [|? ? Hc Hcs]; subst.
      apply (score_relevance_returns_iff (readings i).1 (readings i).2 c context weights)
        in Hc as [s ->].
      apply (IH (S i)) in Hcs as [more ->]. eexists. reflexivity.
Qed.

Lemma score_all_scores readings i candidates context weights l :
  score_all readings i candidates context weights = Ok l →
  map fst l = candidates
  ∧ Forall (fun p => unit_interval (total_score p.2)) l.
Proof.
  revert i l. induction candidates as [|c cs IH]; intros i l H; simpl in H.
  - injection H as <-. split; [reflexivity | constructor].
  - apply bind_Ok in H as (s & Hs & H). apply bind_Ok in H as (more & Hmore & H).
    injection H as <-. destruct (IH (S i) more Hmore) as [Hfst Hall].
    split; [simpl; rewrite Hfst; reflexivity|].
    constructor; [|exact Hall]. simpl.
    destruct (ScorerFacts.score_relevance_Ok _ _ _ _ _ _ Hs) as [[t ->] _].
    apply ScorerFacts.clamp_unit.
Qed.

Lemma higher_first_total (x y : MemoryCandidate * RelevanceScore) :
  higher_first x y = false → higher_first y x = true.
Proof.
  unfold higher_first, Rleb.
  destruct (Rle_dec (total_score y.2) (total_score x.2)); [discriminate|].
  intros _. destruct (Rle_dec (total_score x.2) (total_score y.2)); [reflexivity | lra].
Qed.

Lemma Sorted_not_below (l : list (MemoryCandidate * RelevanceScore)) :
  Sorted (Py.in_order higher_first) l → StronglySorted not_below l.
Proof.
  intros H. apply Sorted_StronglySorted.
  { intros x y z. unfold not_below. lra. }
  induction H as [|x l Hs IH Hhd]; constructor; [exact IH|].
  destruct Hhd as [|y l' Hxy]; constructor.
  unfold Py.in_order, higher_first, Rleb in Hxy. unfold not_below.
  destruct (Rle_dec (total_score y.2) (total_score x.2)); [assumption | discriminate].
Qed.

Lemma batch_score_candidates_returns_iff readings candidates context weights :
  returns (batch_score_candidates readings candidates context weights)
  ↔ Forall (scorable context) candidates.
Proof.
  unfold batch_score_candidates.
  rewrite <- (score_all_returns readings 0 candidates context weights). split.
  - intros [l Hl]. apply bind_Ok in Hl as (scored & Hs & _). eexists; exact Hs.
  - intros [scored ->]. eexists. reflexivity.
Qed.

(** X21.  [batch_score_candidates] returns exactly when every candidate
    can be scored: one candidate without timestamp in a context of high
    urgency makes the whole batch raise.  What it returns holds the
    candidates, each once, ordered so that no total rises along the list,
    and every total is in [0, 1]. *)
Theorem batch_score_candidates_sorted
    (readings : nat → Z * Z) (candidates : list MemoryCandidate)
    (context : ScoringContext) (weights : option ScoringWeights) :
  (returns (batch_score_candidates readings candidates context weights)
   ↔ Forall (scorable context) candidates)
  ∧ (∀ l, batch_score_candidates readings candidates context weights = Ok l →
          map fst l ≡ₚ candidates
          ∧ StronglySorted not_below l
          ∧ Forall (fun p => unit_interval (total_score p.2)) l).
Proof.
  split; [apply batch_score_candidates_returns_iff|].
  unfold batch_score_candidates.
  - intros l Hl. apply bind_Ok in Hl as (scored & Hs & Hl). injection Hl as <-.
    apply score_all_scores in Hs as [Hfst Hall].
    split; [|split].
    + rewrite <- Hfst. apply Permutation_map, SortOrder.sort_by_Permutation.
    + apply Sorted_not_below, SortOrder.sort_by_Sorted, higher_first_total.
    + apply SortFacts.sort_by_Forall, Hall.
Qed.

Lemma batch_score_candidates_sorted_witness :
  returns (batch_score_candidates (fun _ => (today, today))
             [two_years_ago; yesterday] plain_context None).
Proof.
  apply (batch_score_candidates_sorted (fun _ => (today, today))
           [two_years_ago; yesterday] plain_context None).
  constructor; [left; discriminate|].
  constructor; [left; discriminate|].
  constructor.
Defined.

(** One candidate without timestamp fails the batch under high urgency. *)
Example batch_fails_as_a_whole :
  ¬ returns (batch_score_candidates (fun _ => (today, today))
               [yesterday; memory ["python"] None 0.9]
               (with_factor URGENCY_LEVEL "high") None).
Proof.
  rewrite batch_score_candidates_returns_iff. intros H.
  inversion H as [|? ? _ H']; subst. inversion H' as [|? ? [Hts|Hu] _]; subst.
  - apply Hts. reflexivity.
  - apply Hu. reflexivity.
Qed.

End ScorerMore.

(** ** context_builder.py *)

Module BuilderMore.

Import TaskDecomposer ContextBuilder.

Lemma sort_by_StronglySorted {A : Type} (leb : A → A → bool) (R : A → A → Prop) :
  (∀ x y, leb x y = false → leb y x = true) →
  (∀ x y, leb x y = true → R x y) →
  (∀ x y z, R x y → R y z → R x z) →
  ∀ l, StronglySorted R (Py.sort_by leb l).
Proof.
  intros Htotal Hsound Htrans l.
  apply Sorted_StronglySorted; [exact Htrans|].
  pose proof (SortOrder.sort_by_Sorted leb Htotal l) as H.
  induction H as [|x l' Hs IH Hhd]; constructor; [exact IH|].
  destruct Hhd as [|y l'' Hxy]; constructor. apply Hsound, Hxy.
Qed.

Lemma StronglySorted_take {A : Type} (R : A → A → Prop) (n : nat) (l : list A) :
  StronglySorted R l → StronglySorted R (take n l).
Proof.
  intros H. revert n. induction H as [|x l Hs IH Hall]; intros [|n]; simpl;
    try constructor.
  - apply IH.
  - rewrite list.Forall_forall in *. intros y Hy. apply Hall.
    apply (subseteq_take n l), Hy.
Qed.

Lemma StronglySorted_filter {A : Type} (R : A → A → Prop) (f : A → bool) (l : list A) :
  StronglySorted R l → StronglySorted R (List.filter f l).
Proof.
  induction 1 as [|x l Hs IH Hall]; simpl; [constructor|].
  destruct (f x); [|exact IH]. constructor; [exact IH|].
  rewrite list.Forall_forall in *. intros y Hy. apply Hall.
  apply list_elem_of_In, List.filter_In in Hy as [Hy _].
  apply list_elem_of_In, Hy.
Qed.

Lemma sort_by_relevance_order (l : list ContextItem) :
  StronglySorted relevance_order (sort_by_relevance l).
Proof.
  apply sort_by_StronglySorted.
  - intros x y H. apply Qle_bool_iff.
    destruct (Qle_bool (relevance_score y) (relevance_score x)) eqn:E; [discriminate|].
    destruct (Qlt_le_dec (relevance_score x) (relevance_score y)) as [Hlt|Hle].
    + apply Qlt_le_weak, Hlt.
    + apply Qle_bool_iff in Hle. congruence.
  - intros x y H. apply Qle_bool_iff, H.
  - intros x y z Hxy Hyz. unfold relevance_order in *. eapply Qle_trans; eassumption.
Qed.

Lemma sort_by_priority_order (l : list ContextSection) :
  StronglySorted priority_order (sort_by_priority l).
Proof.
  apply sort_by_StronglySorted; unfold priority_order.
  - intros x y H. apply Z.leb_gt in H. apply Z.leb_le. lia.
  - intros x y H. apply Z.leb_le, H.
  - intros x y z. lia.
Qed.

Section Assembled.

Variable now : Z.
Variable strptime : string → string → option Z.

Local Abbreviation assemble := (assemble_context now strptime).
Local Abbreviation parsed := (_parse_memory_results now strptime).

(** The sections before the sort by priority. *)
Lemma sections_unsorted decomposition memory_results :
  sections (assemble decomposition memory_results)
  = sort_by_priority
      (_add_special_sections now
         (_create_context_sections
            (_group_items_by_section (parsed memory_results decomposition)))
         (parsed memory_results decomposition) decomposition).
Proof. reflexivity. Qed.

Lemma sections_Forall (P : ContextSection → Prop) decomposition memory_results :
  (∀ items, P (_create_overview_section now items decomposition)) →
  (∀ data, Forall P (_create_context_sections data)) →
  (∀ recent title summary,
      P {| section_type := RECENT_RELATED_WORK; title := title;
           items := take 5 recent; section_priority := LOW;
           summary := summary |}) →
  Forall P (sections (assemble decomposition memory_results)).
Proof.
  intros Hoverview Hcreated Hrecent. rewrite sections_unsorted.
  apply SortFacts.sort_by_Forall. unfold _add_special_sections.
  destruct (List.filter _ _) as [|i recent].
  - constructor; [apply Hoverview | apply Hcreated].
  - change (Forall P (_create_overview_section now
                         (parsed memory_results decomposition) decomposition
                      :: (_create_context_sections
                            (_group_items_by_section (parsed memory_results decomposition))
                          ++ [ {| section_type := RECENT_RELATED_WORK;
                                  title := "Recent Related Work";
                                  items := take 5 (i :: recent);
                                  section_priority := LOW;
                                  summary := Some ("Recent work from the last 30 days ("
                                    ++ pretty (List.length (i :: recent))
                                    ++ " items found)")%string |} ]))).
    constructor; [apply Hoverview|].
    apply Forall_app. split; [apply Hcreated|].
    constructor; [apply Hrecent | constructor].
Qed.

(** *** The order and the types of the sections *)

Lemma add_to_group_keys s item groups :
  map fst (add_to_group s item groups)
  = if decide (s ∈ map fst groups) then map fst groups else map fst groups ++ [s].
Proof.
  induction groups as [|[s' l] groups IH]; simpl.
  - destruct (decide (s ∈ [])) as [H|_]; [inversion H | reflexivity].
  - destruct (decide (s' = s)) as [->|Hne]; simpl.
    + destruct (decide (s ∈ s :: map fst groups)) as [_|H]; [reflexivity|].
      exfalso. apply H. left.
    + rewrite IH. destruct (decide (s ∈ map fst groups)) as [Hin|Hnin].
      * destruct (decide (s ∈ s' :: map fst groups)) as [_|H]; [reflexivity|].
        exfalso. apply H. right. exact Hin.
      * destruct (decide (s ∈ s' :: map fst groups)) as [H|_]; [|reflexivity].
        exfalso. apply elem_of_cons in H as [H|H]; [congruence | contradiction].
Qed.

Lemma _group_items_by_section_keys (context_items : list ContextItem) :
  NoDup (map fst (_group_items_by_section context_items))
  ∧ Forall mapped (map fst (_group_items_by_section context_items)).
Proof.
  unfold _group_items_by_section.
  assert (∀ its groups,
             NoDup (map fst groups) ∧ Forall mapped (map fst groups) →
             NoDup (map fst (foldl (fun sections_data item =>
                       match context_type_mappings (item_context_type item) with
                       | Some s => add_to_group s item sections_data
                       | None => sections_data
                       end) groups its))
             ∧ Forall mapped (map fst (foldl (fun sections_data item =>
                       match context_type_mappings (item_context_type item) with
                       | Some s => add_to_group s item sections_data
                       | None => sections_data
                       end) groups its))) as H.
  { induction its as [|i its IH]; intros groups [Hnd Hall]; simpl; [tauto|].
    apply IH.
    destruct (context_type_mappings (item_context_type i)) as [s|] eqn:Hs; [|tauto].
    rewrite add_to_group_keys.
    destruct (decide (s ∈ map fst groups)) as [Hin|Hnin]; [tauto|].
    split.
    - apply NoDup_app. split; [exact Hnd|]. split; [|apply NoDup_singleton].
      intros x Hx Hx'. apply list_elem_of_singleton in Hx'. congruence.
    - apply Forall_app. split; [exact Hall|]. constructor; [|constructor].
      destruct (item_context_type i); injection Hs as <-; split; discriminate. }
  apply H. simpl. split; constructor.
Qed.

Lemma _create_context_sections_types
    (sections_data : list (ContextSectionType * list ContextItem)) :
  map section_type (_create_context_sections sections_data)
  `sublist_of` map fst sections_data.
Proof.
  unfold _create_context_sections.
  induction sections_data as [|[s l] data IH]; simpl; [constructor|].
  destruct l as [|i l]; simpl.
  - apply sublist_cons, IH.
  - apply sublist_skip, IH.
Qed.

Lemma _add_special_sections_types sections context_items decomposition :
  NoDup (map section_type sections) →
  Forall mapped (map section_type sections) →
  NoDup (map section_type
           (_add_special_sections now sections context_items decomposition)).
Proof.
  intros Hnd Hall. unfold _add_special_sections.
  assert (OVERVIEW ∉ map section_type sections) as Hov.
  { intros Hin. rewrite list.Forall_forall in Hall.
    destruct (Hall _ Hin) as [H _]. congruence. }
  assert (RECENT_RELATED_WORK ∉ map section_type sections) as Hre.
  { intros Hin. rewrite list.Forall_forall in Hall.
    destruct (Hall _ Hin) as [_ H]. congruence. }
  destruct (List.filter _ context_items) as [|i recent].
  - simpl. apply NoDup_cons. split; assumption.
  - cbn [map section_type _create_overview_section]. rewrite List.map_app. simpl.
    apply NoDup_cons. split.
    + intros Hin. apply elem_of_app in Hin as [Hin|Hin]; [contradiction|].
      apply list_elem_of_singleton in Hin. discriminate.
    + apply NoDup_app. split; [exact Hnd|]. split; [|apply NoDup_singleton].
      intros x Hx Hx'. apply list_elem_of_singleton in Hx'. congruence.
Qed.

Lemma sections_types_NoDup decomposition memory_results :
  NoDup (map section_type (sections (assemble decomposition memory_results))).
Proof.
  rewrite sections_unsorted. unfold sort_by_priority.
  rewrite (Permutation_map section_type (SortOrder.sort_by_Permutation _ _)).
  destruct (_group_items_by_section_keys (parsed memory_results decomposition))
    as [Hnd Hall].
  pose proof (_create_context_sections_types
                (_group_items_by_section (parsed memory_results decomposition)))
    as Hsub.
  apply _add_special_sections_types.
  - eapply sublist_NoDup; eassumption.
  - rewrite list.Forall_forall in *. intros x Hx. apply Hall.
    eapply elem_of_sublist; eassumption.
Qed.

(** X22.  The sections of an assembled context are in the order of their
    priorities, CRITICAL first and LOW last, and no two of them have the
    same section type. *)
Theorem assemble_context_section_order
    (decomposition : TaskDecomposition)
    (memory_results : list (string * list RawResult)) :
  StronglySorted priority_order (sections (assemble decomposition memory_results))
  ∧ NoDup (map section_type (sections (assemble decomposition memory_results))).
Proof.
  split; [|apply sections_types_NoDup].
  rewrite sections_unsorted. apply sort_by_priority_order.
Qed.

(** *** The items of a section *)

Lemma _create_context_sections_Forall (P : ContextSection → Prop)
    (sections_data : list (ContextSectionType * list ContextItem)) :
  (∀ s i l, P {| section_type := s;
                 title := section_titles s;
                 items := take (_get_max_items_for_section s) (sort_by_relevance (i :: l));
                 section_priority := section_priorities s;
                 summary := _generate_section_summary s
                              (take (_get_max_items_for_section s)
                                    (sort_by_relevance (i :: l))) |}) →
  Forall P (_create_context_sections sections_data).
Proof.
  intros H. unfold _create_context_sections.
  induction sections_data as [|[s l] data IH]; simpl; [constructor|].
  apply Forall_app. split; [|exact IH].
  destruct l as [|i l]; [constructor|].
  constructor; [apply H | constructor].
Qed.

(** X23.  No section of an assembled context holds more items than
    [_get_max_items_for_section] allows for its type; so none holds more
    than eight, and the recent work section no more than five. *)
Theorem assemble_context_section_limits
    (decomposition : TaskDecomposition)
    (memory_results : list (string * list RawResult)) :
  Forall (fun s => within_limit s ∧ (List.length (items s) ≤ 8)%nat)
         (sections (assemble decomposition memory_results)).
Proof.
  assert (∀ s, within_limit s → within_limit s ∧ (List.length (items s) ≤ 8)%nat) as Hw.
  { intros s H. split; [exact H|]. unfold within_limit in H.
    destruct (section_type s); simpl in H; lia. }
  apply sections_Forall.
  - intros l. apply Hw. unfold within_limit. simpl. lia.
  - intros data. apply _create_context_sections_Forall. intros s i l.
    apply Hw. unfold within_limit. cbn [items section_type].
    rewrite length_take. lia.
  - intros recent t sm. apply Hw. unfold within_limit. cbn [items section_type].
    rewrite length_take.
    change (_get_max_items_for_section RECENT_RELATED_WORK) with 5. lia.
Qed.

(** X24.  Inside every section of an assembled context the items stand in
    the order of their relevance, the most relevant first. *)
Theorem assemble_context_items_order
    (decomposition : TaskDecomposition)
    (memory_results : list (string * list RawResult)) :
  Forall (fun s => StronglySorted relevance_order (items s))
         (sections (assemble decomposition memory_results)).
Proof.
  rewrite sections_unsorted. apply SortFacts.sort_by_Forall.
  unfold _add_special_sections.
  assert (Forall (fun s => StronglySorted relevance_order (items s))
            (_create_overview_section now (parsed memory_results decomposition)
               decomposition
             :: _create_context_sections
                  (_group_items_by_section (parsed memory_results decomposition))))
    as Hfirst.
  { constructor.
    - simpl. repeat constructor.
    - apply _create_context_sections_Forall. intros s i l. cbn [items].
      apply StronglySorted_take, sort_by_relevance_order. }
  pose proof (StronglySorted_filter relevance_order
                (fun i => (now - thirty_days <? timestamp i)%Z)
                (parsed memory_results decomposition)
                (sort_by_relevance_order _)) as Hrecent.
  destruct (List.filter _ (parsed memory_results decomposition)) as [|i recent].
  - exact Hfirst.
  - inversion Hfirst as [|? ? Hov Hcreated]; subst.
    constructor; [exact Hov|].
    apply Forall_app. split; [exact Hcreated|].
    constructor; [|constructor]. cbn [items].
    apply StronglySorted_take, Hrecent.
Qed.

(** *** Parsing the search results *)

Lemma _find_context_query_none (query_id : string) (queries : list ContextQuery) :
  _find_context_query query_id queries = None → queries = [].
Proof.
  unfold _find_context_query.
  destruct (match (if Text.contains "_" query_id then _ else _) with
            | Some _ => _ | None => _ end) as [q|]; [discriminate|].
  destruct queries; [reflexivity | discriminate].
Qed.

Lemma _find_context_query_elem (query_id : string) (queries : list ContextQuery) q :
  _find_context_query query_id queries = Some q → q ∈ queries.
Proof.
  unfold _find_context_query.
  set (parsed_id := if Text.contains "_" query_id then _ else _).
  destruct parsed_id as [query_index|].
  - destruct (decide _) as [Hrange|_].
    + destruct (queries !! Z.to_nat query_index) as [q'|] eqn:E.
      * intros [= <-]. eapply list_elem_of_lookup_2, E.
      * destruct queries; [discriminate|]. intros [= <-]. left.
    + destruct queries; [discriminate|]. intros [= <-]. left.
  - destruct queries; [discriminate|]. intros [= <-]. left.
Qed.

(** X25.  [_find_context_query] gives [None] only when there is no query
    at all; whatever the query id, malformed or out of range, it
    otherwise gives one of the queries. *)
Theorem _find_context_query_fallback
    (query_id : string) (queries : list ContextQuery) :
  (_find_context_query query_id queries = None ↔ queries = [])
  ∧ (∀ q, _find_context_query query_id queries = Some q → q ∈ queries).
Proof.
  unfold _find_context_query.
  set (parsed_id := if Text.contains "_" query_id then _ else _).
  set (by_index := match parsed_id with Some _ => _ | None => _ end).
  assert (∀ q, by_index = Some q → q ∈ queries) as Hindex.
  { intros q. subst by_index. destruct parsed_id as [query_index|]; [|discriminate].
    destruct (decide _); [|discriminate].
    apply list_elem_of_lookup_2. }
  destruct by_index as [q|].
  - split.
    + split; [discriminate|]. intros ->.
      specialize (Hindex q eq_refl). inversion Hindex.
    + intros q' [= <-]. apply Hindex. reflexivity.
  - destruct queries as [|q0 queries]; simpl.
    + split; [tauto | discriminate].
    + split; [split; discriminate|]. intros q' [= <-]. left.
Qed.

Lemma _parse_memory_results_elem decomposition memory_results (i : ContextItem) :
  i ∈ parsed memory_results decomposition →
  ∃ query_id results q r,
    (query_id, results) ∈ memory_results
    ∧ _find_context_query query_id (context_queries decomposition) = Some q
    ∧ r ∈ results
    ∧ i ∈ parse_result now strptime q r.
Proof.
  unfold _parse_memory_results, sort_by_relevance. rewrite SortFacts.sort_by_elem.
  intros Hi. apply list_elem_of_In, List.in_concat in Hi as (l & Hl & Hi).
  apply List.in_map_iff in Hl as ([query_id results] & <- & He).
  destruct (_find_context_query query_id (context_queries decomposition)) as [q|] eqn:Hq;
    [|inversion Hi].
  apply List.in_concat in Hi as (l' & Hl' & Hi).
  apply List.in_map_iff in Hl' as (r & <- & Hr).
  exists query_id, results, q, r.
  rewrite !list_elem_of_In. tauto.
Qed.

Lemma concat_length_le {A B : Type} (f : A → list B) (l : list A) :
  (∀ x, x ∈ l → (List.length (f x) ≤ 1)%nat) →
  (List.length (List.concat (map f l)) ≤ List.length l)%nat.
Proof.
  induction l as [|x l IH]; intros H; simpl; [lia|].
  rewrite List.length_app.
  specialize (H x (list_elem_of_here _ _)) as Hx.
  specialize (IH (fun y Hy => H y (list_elem_of_further _ _ _ Hy))). lia.
Qed.

Lemma concat_length_eq {A B : Type} (f : A → list B) (l : list A) :
  (∀ x, x ∈ l → List.length (f x) = 1%nat) →
  List.length (List.concat (map f l)) = List.length l.
Proof.
  induction l as [|x l IH]; intros H; simpl; [lia|].
  rewrite List.length_app.
  specialize (H x (list_elem_of_here _ _)) as Hx.
  specialize (IH (fun y Hy => H y (list_elem_of_further _ _ _ Hy))). lia.
Qed.

Lemma parse_result_length q r :
  (List.length (parse_result now strptime q r) ≤ 1)%nat
  ∧ (usable r → List.length (parse_result now strptime q r) = 1%nat).
Proof.
  unfold parse_result, usable.
  destruct (to_float _); simpl; split; try lia.
  intros [x Hx]. discriminate Hx.
Qed.

(** X26.  An assembled context never holds more items than the searches
    returned results, and holds exactly as many when the decomposition
    has a query and every result has a number as its score. *)
Theorem assemble_context_total_items
    (decomposition : TaskDecomposition)
    (memory_results : list (string * list RawResult)) :
  (total_items (assemble decomposition memory_results)
   ≤ total_memory_results (assembly_metadata (assemble decomposition memory_results)))%nat
  ∧ (context_queries decomposition ≠ [] →
     Forall (fun e => Forall usable e.2) memory_results →
     total_items (assemble decomposition memory_results)
     = total_memory_results (assembly_metadata (assemble decomposition memory_results))).
Proof.
  cbn [total_items total_memory_results assembly_metadata assemble_context].
  unfold _parse_memory_results, sort_by_relevance.
  rewrite BuilderFacts.sort_by_length.
  split.
  - induction memory_results as [|[query_id results] rest IH]; simpl; [lia|].
    rewrite List.length_app.
    destruct (_find_context_query query_id (context_queries decomposition)) as [q|].
    + pose proof (concat_length_le (parse_result now strptime q) results
                    (fun r _ => proj1 (parse_result_length q r))). lia.
    + simpl. lia.
  - intros Hqueries Hall.
    induction Hall as [|[query_id results] rest Husable _ IH]; simpl; [reflexivity|].
    rewrite List.length_app, IH.
    destruct (_find_context_query query_id (context_queries decomposition)) as [q|] eqn:Hq.
    + rewrite (concat_length_eq (parse_result now strptime q) results); [reflexivity|].
      intros r Hr. apply parse_result_length.
      simpl in Husable. rewrite list.Forall_forall in Husable. apply Husable, Hr.
    + apply _find_context_query_none in Hq. contradiction.
Qed.

(** *** The overall relevance *)

Lemma sum_Q_bounds (l : list Q) :
  Forall (fun q => (0 <= q)%Q ∧ (q <= 1)%Q) l →
  (0 <= sum_Q l)%Q ∧ (sum_Q l <= inject_Z (Z.of_nat (List.length l)))%Q.
Proof.
  induction 1 as [|q l [H0 H1] _ [IH0 IH1]].
  - split; apply Qle_refl.
  - change (sum_Q (q :: l)) with (q + sum_Q l)%Q.
    change (List.length (q :: l)) with (S (List.length l)).
    rewrite Nat2Z.inj_succ, <- Z.add_1_r, inject_Z_plus.
    change (inject_Z 1) with 1%Q.
    generalize dependent (inject_Z (Z.of_nat (List.length l))).
    intros n Hn. split; Lqa.lra.
Qed.

Lemma imap_Forall {A B : Type} (P : B → Prop) (f : nat → A → B) (l : list A) :
  (∀ i x, x ∈ l → P (f i x)) → Forall P (imap f l).
Proof.
  revert f. induction l as [|x l IH]; intros f H; [constructor|].
  change (imap f (x :: l)) with (f 0%nat x :: imap (f ∘ S) l). constructor.
  - apply H. left.
  - apply IH. intros i y Hy. apply H. right. exact Hy.
Qed.

Lemma position_weight_bounds (i : nat) (score : Q) :
  (0 <= score)%Q → (score <= 1)%Q →
  let position_weight := (1.0 - inject_Z (Z.of_nat i) * 0.05)%Q in
  (0 <= score * (if Qle_bool position_weight 0.1 then 0.1 else position_weight))%Q
  ∧ (score * (if Qle_bool position_weight 0.1 then 0.1 else position_weight) <= 1)%Q.
Proof.
  intros H0 H1 position_weight.
  assert (0 <= inject_Z (Z.of_nat i))%Q as Hi.
  { change 0%Q with (inject_Z 0). rewrite <- Zle_Qle. lia. }
  assert (position_weight <= 1)%Q as Hle by (subst position_weight; Lqa.lra).
  destruct (Qle_bool position_weight 0.1) eqn:E.
  - split; Lqa.nra.
  - assert (¬ (position_weight <= 0.1)%Q) as Hgt.
    { intros Hc. apply Qle_bool_iff in Hc. congruence. }
    apply Qnot_le_lt in Hgt. split; Lqa.nra.
Qed.

Lemma _calculate_overall_relevance_unit (context_items : list ContextItem) :
  Forall relevance_in_unit context_items →
  (0 <= _calculate_overall_relevance context_items)%Q
  ∧ (_calculate_overall_relevance context_items <= 1)%Q.
Proof.
  intros H. unfold _calculate_overall_relevance.
  destruct context_items as [|i0 l] eqn:E; [split; Lqa.lra|]. rewrite <- E in *.
  set (weighted_scores := imap _ (take 20 context_items)).
  assert (Forall (fun q => (0 <= q)%Q ∧ (q <= 1)%Q) weighted_scores) as Hw.
  { apply imap_Forall. intros k x Hx.
    rewrite list.Forall_forall in H.
    destruct (H x (subseteq_take 20 context_items x Hx)) as [Hx0 Hx1].
    apply position_weight_bounds; assumption. }
  assert (0 < inject_Z (Z.of_nat (List.length weighted_scores)))%Q as Hn.
  { change 0%Q with (inject_Z 0). rewrite <- Zlt_Qlt.
    subst weighted_scores. rewrite length_imap, length_take, E. simpl. lia. }
  destruct (sum_Q_bounds weighted_scores Hw) as [Hs0 Hs1].
  split.
  - apply Qle_shift_div_l; [exact Hn | Lqa.lra].
  - apply Qle_shift_div_r; [exact Hn | Lqa.lra].
Qed.

Lemma parse_result_unit q r (i : ContextItem) :
  scored_in_unit r → i ∈ parse_result now strptime q r → relevance_in_unit i.
Proof.
  intros (score & Hscore & H0 & H1). unfold parse_result. rewrite Hscore. simpl.
  intros Hi. apply list_elem_of_singleton in Hi as ->. split; assumption.
Qed.

(** X27.  When every search result carries a score in [0, 1] (or none, which
    counts as 0.5), the estimated relevance of the assembled context is in
    [0, 1] as well. *)
Theorem assemble_context_relevance_range
    (decomposition : TaskDecomposition)
    (memory_results : list (string * list RawResult)) :
  Forall (fun e => Forall scored_in_unit e.2) memory_results →
  (0 <= estimated_relevance (assemble decomposition memory_results))%Q
  ∧ (estimated_relevance (assemble decomposition memory_results) <= 1)%Q.
Proof.
  intros Hall. cbn [estimated_relevance assemble_context].
  apply _calculate_overall_relevance_unit.
  rewrite list.Forall_forall. intros i Hi.
  apply _parse_memory_results_elem in Hi as (query_id & results & q & r & He & _ & Hr & Hi).
  rewrite list.Forall_forall in Hall. specialize (Hall _ He). simpl in Hall.
  rewrite list.Forall_forall in Hall.
  eapply parse_result_unit; [apply Hall, Hr | exact Hi].
Qed.

(** A score above one passes through: nothing clamps it. *)
Example relevance_above_one :
  (estimated_relevance
     (assemble_context 0 (fun _ _ => None) (sample_decomposition [sample_query])
        [("query_0", [sample_result (Some (Number 2.5))])]) == 2.5)%Q.
Proof. vm_compute. reflexivity. Qed.

(** *** A decomposition without queries *)

Lemma _parse_memory_results_no_queries decomposition memory_results :
  context_queries decomposition = [] →
  parsed memory_results decomposition = [].
Proof.
  intros Hq. unfold _parse_memory_results.
  replace (List.concat _) with (@nil ContextItem); [reflexivity|].
  induction memory_results as [|[query_id results] rest IH]; simpl; [reflexivity|].
  rewrite <- IH.
  destruct (_find_context_query query_id (context_queries decomposition)) as [q|] eqn:E;
    [|reflexivity].
  rewrite Hq in E. apply _find_context_query_elem in E. inversion E.
Qed.

(** X28.  With a decomposition that has no context query every search
    result is dropped, whatever the results are: the assembled context
    has no item, relevance 0 and the overview as its only section. *)
Theorem assemble_context_no_queries
    (decomposition : TaskDecomposition)
    (memory_results : list (string * list RawResult)) :
  context_queries decomposition = [] →
  total_items (assemble decomposition memory_results) = 0%nat
  ∧ sections (assemble decomposition memory_results)
    = [_create_overview_section now [] decomposition]
  ∧ estimated_relevance (assemble decomposition memory_results) = 0%Q
  ∧ highest_relevance (assembly_metadata (assemble decomposition memory_results)) = 0%Q.
Proof.
  intros Hq. unfold assemble_context.
  cbn [total_items sections estimated_relevance highest_relevance assembly_metadata].
  rewrite (_parse_memory_results_no_queries decomposition memory_results Hq).
  repeat split.
Qed.

End Assembled.

Lemma assemble_context_total_items_witness :
  total_items
    (assemble_context 0 (fun _ _ => None) (sample_decomposition [sample_query])
       [("query_0", [sample_result (Some (Number 0.8)); sample_result None])])
  = total_memory_results
      (assembly_metadata
         (assemble_context 0 (fun _ _ => None) (sample_decomposition [sample_query])
            [("query_0", [sample_result (Some (Number 0.8)); sample_result None])])).
Proof.
  apply (assemble_context_total_items 0 (fun _ _ => None)
           (sample_decomposition [sample_query])
           [("query_0", [sample_result (Some (Number 0.8)); sample_result None])]).
  - discriminate.
  - repeat constructor; eexists; reflexivity.
Defined.

(** A result whose score is not a number is left out, and the others stay. *)
Example unusable_result_dropped :
  total_items
    (assemble_context 0 (fun _ _ => None) (sample_decomposition [sample_query])
       [("query_0", [sample_result (Some NotANumber); sample_result None])]) = 1%nat.
Proof. reflexivity. Qed.

Lemma assemble_context_relevance_range_witness :
  (0 <= estimated_relevance
          (assemble_context 0 (fun _ _ => None) (sample_decomposition [sample_query])
             [("query_0", [sample_result (Some (Number 0.8)); sample_result None])]))%Q
  ∧ (estimated_relevance
       (assemble_context 0 (fun _ _ => None) (sample_decomposition [sample_query])
          [("query_0", [sample_result (Some (Number 0.8)); sample_result None])])
     <= 1)%Q.
Proof.
  apply (assemble_context_relevance_range 0 (fun _ _ => None) (sample_decomposition [sample_query])
           [("query_0", [sample_result (Some (Number 0.8)); sample_result None])]).
  repeat constructor.
  - exists 0.8%Q. repeat split; [vm_compute; discriminate | vm_compute; discriminate].
  - exists 0.5%Q. repeat split; [vm_compute; discriminate | vm_compute; discriminate].
Defined.

Lemma assemble_context_no_queries_witness :
  total_items
    (assemble_context 0 (fun _ _ => None) (sample_decomposition [])
       [("query_0", [sample_result (Some (Number 0.8))])]) = 0%nat.
Proof.
  apply (assemble_context_no_queries 0 (fun _ _ => None) (sample_decomposition [])
           [("query_0", [sample_result (Some (Number 0.8))])]).
  reflexivity.
Defined.

(** *** The statistics of a context *)

Lemma collect_section_stats_None sections section_stats :
  collect_section_stats sections section_stats = None
  ↔ Exists (fun s => items s = []) sections.
Proof.
  revert section_stats. induction sections as [|s rest IH]; intros section_stats; simpl.
  - split; [discriminate | intros H; inversion H].
  - unfold section_statistics. destruct (items s) as [|i l] eqn:E.
    + split; [intros _; left; exact E | reflexivity].
    + rewrite IH. split; [intros H; right; exact H|].
      intros H. inversion H as [? ? Hs|? ? Hrest]; subst; [congruence | exact Hrest].
Qed.

(** X29.  [get_context_statistics] fails, with the error of a division
    by zero, exactly on a context that has a section without items; the
    overview it otherwise returns counts the sections of the context. *)
Theorem get_context_statistics_empty_section (assembled_context : AssembledContext) :
  (get_context_statistics assembled_context = None
   ↔ Exists (fun s => items s = []) (sections assembled_context))
  ∧ (∀ stats, get_context_statistics assembled_context = Some stats →
       total_sections (stats_overview stats)
       = List.length (sections assembled_context)
       ∧ stats_total_items (stats_overview stats) = total_items assembled_context).
Proof.
  unfold get_context_statistics. split.
  - rewrite <- (collect_section_stats_None _ []).
    destruct (collect_section_stats _ _); [split; discriminate | tauto].
  - intros stats. destruct (collect_section_stats _ _); [|discriminate].
    intros [= <-]. split; reflexivity.
Qed.

#[local] Instance ContextSectionType_value_inj : Inj (=) (=) ContextSectionType_value.
Proof. intros x y H. destruct x, y; first [reflexivity | discriminate H]. Qed.

Lemma dict_set_keys {V : Type} (k : string) (v : V) (d : list (string * V)) :
  k ∉ map fst d → map fst (dict_set k v d) = map fst d ++ [k].
Proof.
  induction d as [|[k' v'] d IH]; simpl; intros Hk; [reflexivity|].
  destruct (String.eqb k' k) eqn:E.
  - apply String.eqb_eq in E. exfalso. apply Hk. rewrite E. left.
  - simpl. rewrite IH; [reflexivity|]. intros Hin. apply Hk. right. exact Hin.
Qed.

Lemma collect_section_stats_keys sections section_stats :
  Forall populated sections →
  NoDup (map fst section_stats
         ++ map (fun s => ContextSectionType_value (section_type s)) sections) →
  ∃ collected,
    collect_section_stats sections section_stats = Some collected
    ∧ map fst collected
      = map fst section_stats
        ++ map (fun s => ContextSectionType_value (section_type s)) sections.
Proof.
  intros Hpop. revert section_stats.
  induction Hpop as [|s rest Hs _ IH]; intros section_stats Hnd; simpl.
  - eexists. split; [reflexivity|]. rewrite app_nil_r. reflexivity.
  - unfold section_statistics. unfold populated in Hs.
    destruct (items s) as [|i l] eqn:E; [contradiction|].
    simpl in Hnd. apply NoDup_app in Hnd as (Hacc & Hdisjoint & Hrest).
    assert (ContextSectionType_value (section_type s) ∉ map fst section_stats) as Hk.
    { intros Hin. apply (Hdisjoint _ Hin). left. }
    destruct (IH (dict_set (ContextSectionType_value (section_type s))
                    {| items_count := List.length (i :: l);
                       avg_relevance :=
                         (sum_Q (map relevance_score (i :: l))
                          / inject_Z (Z.of_nat (List.length (i :: l))))%Q;
                       stats_priority := Priority_value (section_priority s) |}
                    section_stats)) as (collected & Hc & Hkeys).
    { rewrite (dict_set_keys _ _ _ Hk), <- List.app_assoc. simpl.
      apply NoDup_app. split; [exact Hacc|]. split; [exact Hdisjoint | exact Hrest]. }
    exists collected. split; [exact Hc|].
    rewrite Hkeys, (dict_set_keys _ _ _ Hk), <- List.app_assoc. reflexivity.
Qed.

(** X30.  On a context that [assemble_context] built,
    [get_context_statistics] returns: no section is empty there.  The
    statistics hold one entry for each section, in the order of the
    sections, under the value of its section type. *)
Theorem get_context_statistics_assembled
    (now : Z) (strptime : string → string → option Z)
    (decomposition : TaskDecomposition)
    (memory_results : list (string * list RawResult)) :
  ∃ stats,
    get_context_statistics (assemble_context now strptime decomposition memory_results)
    = Some stats
    ∧ map fst (stats_sections stats)
      = map (fun s => ContextSectionType_value (section_type s))
            (sections (assemble_context now strptime decomposition memory_results))
    ∧ total_sections (stats_overview stats)
      = sections_created
          (assembly_metadata (assemble_context now strptime decomposition memory_results)).
Proof.
  unfold get_context_statistics.
  destruct (collect_section_stats_keys
              (sections (assemble_context now strptime decomposition memory_results)) [])
    as (collected & -> & Hkeys).
  - rewrite sections_unsorted. apply SortFacts.sort_by_Forall.
    destruct (BuilderFacts._add_special_sections_shape now
                (_create_context_sections
                   (_group_items_by_section
                      (_parse_memory_results now strptime memory_results decomposition)))
                (_parse_memory_results now strptime memory_results decomposition)
                decomposition) as (rest & -> & Hrest).
    constructor; [unfold populated; simpl; discriminate|].
    apply Hrest, BuilderFacts._create_context_sections_populated.
  - simpl.
    rewrite <- (List.map_map section_type ContextSectionType_value).
    apply (NoDup_fmap_2 ContextSectionType_value).
    apply sections_types_NoDup.
  - eexists. split; [reflexivity|]. split; [exact Hkeys | reflexivity].
Qed.

End BuilderMore.
